(** * Surface-currents notebooks: the rolling-window batcher and its data preparation

    A shallow embedding of the two notebooks of the cookbook
    ([surface_currents_prep.ipynb] and the main xbatcher notebook) and of the
    few numpy / xarray / Python built-ins their cells call, followed by the
    properties of the batch construction, of the halo arithmetic, of the
    prepared slices and of the prediction reassembly.

    The modules [Py], [Batcher], [Notebook] and [Prep] hold the embedding:
    a cell is a function into [result], which is a value or a raised
    exception; a generator is the list of what it yields, computed with fuel;
    a dataset is a finite map from variable names to arrays. The modules
    whose names end in [Facts] hold the properties, each with the small
    datasets it is tried on. *)

From Stdlib Require Import ZArith List Lia Bool Sorted.
From stdpp Require Import base tactics option list gmap strings.

Local Open Scope Z_scope.

(** ** Python values, exceptions and built-ins *)

Module Py.

(** The exceptions the cells can raise, through the library calls or by
    reading a name that no cell has assigned yet. [EmptyStackError] stands for
    what [to_array] raises on a dataset without variables: the class of that
    exception is the library's choice and differs between xarray versions (a
    [ValueError] from [np.stack] in some, an [IndexError] in others), so the
    model keeps it apart from both. *)
Inductive exn : Type :=
| ValueError
| IndexError
| KeyError
| AttributeError
| NameError
| GroupNotFoundError
| EmptyStackError.

(** A cell either produces a value or raises. *)
Inductive result (A : Type) : Type :=
| Ok (a : A)
| Raise (e : exn).

Arguments Ok {A} a.
Arguments Raise {A} e.

Definition bind {A B : Type} (m : result A) (k : A -> result B) : result B :=
  match m with
  | Ok a => k a
  | Raise e => Raise e
  end.

Definition raises {A : Type} (m : result A) : bool :=
  match m with
  | Ok _ => false
  | Raise _ => true
  end.

(** [for x in xs] with a body that may raise: the first exception wins. *)
Fixpoint mapM {A B : Type} (f : A -> result B) (xs : list A) : result (list B) :=
  match xs with
  | [] => Ok []
  | x :: xs' =>
      bind (f x) (fun y => bind (mapM f xs') (fun ys => Ok (y :: ys)))
  end.

(** [len(range(start, stop, step))] for a non-zero step, as CPython computes
    it: with [lo, hi] the bounds in the direction of travel, zero when
    [lo >= hi] and [(hi - lo - 1) / |step| + 1] otherwise. *)
Definition range_len (start stop step : Z) : Z :=
  if 0 <? step then
    if start <? stop then (stop - start - 1) / step + 1 else 0
  else
    if stop <? start then (start - stop - 1) / (- step) + 1 else 0.

(** [range(start, stop, step)]: a zero step is a [ValueError]; otherwise the
    items are [start + k * step] for [k] below the length. *)
Definition range (start stop step : Z) : result (list Z) :=
  if step =? 0 then Raise ValueError
  else Ok (map (fun k => start + k * step) (seqZ 0 (range_len start stop step))).

(** [range(start, stop)], step one: never raises. *)
Definition range2 (start stop : Z) : list Z :=
  seqZ start (Z.max 0 (stop - start)).

(** A position along an axis of length [n], as numpy and xarray read it:
    negative positions count from the end, anything outside [-n, n) is an
    [IndexError]. *)
Definition position (n : nat) (i : Z) : result nat :=
  let j := if i <? 0 then i + Z.of_nat n else i in
  if (0 <=? j) && (j <? Z.of_nat n) then Ok (Z.to_nat j) else Raise IndexError.

(** The positions named by an indexer (a [range] or a list of integers)
    along an axis of length [n]: every one of them is checked. *)
Definition positions (n : nat) (idx : list Z) : result (list nat) :=
  mapM (position n) idx.

(** Fetching checked positions. *)
Definition gather {B : Type} `{Inhabited B} (xs : list B) (ps : list nat) : list B :=
  map (fun p => xs !!! p) ps.

(** A value of numpy's [int64]. *)
Definition int64 (x : Z) : Prop := - 2 ^ 63 <= x < 2 ^ 63.

(** Arithmetic in [int64] wraps around. *)
Definition wrap64 (x : Z) : Z := (x + 2 ^ 63) mod 2 ^ 64 - 2 ^ 63.

(** [np.sum] of a list of Python integers that all fit [int64] (numpy then
    makes an [int64] array of the list, and accumulates in [int64]; a list with
    a larger value gets another dtype, which this model does not cover). *)
Definition np_sum (xs : list Z) : Z := wrap64 (fold_right Z.add 0 xs).

(** [len]. *)
Definition len {A : Type} (xs : list A) : Z := Z.of_nat (length xs).

(** The double nearest to an [int64] value ([float64] has a 53-bit
    significand; ties go to the even significand). The result is an integer,
    and is the value itself up to [2^53]. *)
Definition to_double (x : Z) : Z :=
  let a := Z.abs x in
  let e := Z.log2 a in
  if e <=? 52 then x
  else
    let sh := e - 52 in
    let q := Z.shiftr a sh in
    let r := Z.land a (Z.ones sh) in
    let half := Z.shiftl 1 (sh - 1) in
    let q' := if (half <? r) || ((r =? half) && Z.odd q) then q + 1 else q in
    Z.sgn x * Z.shiftl q' sh.

(** [int(x / 2)] for an [int64] value [x]: [x] is converted to a double,
    halved (exactly: halving a double only changes its exponent) and truncated
    toward zero. *)
Definition int_half (x : Z) : Z := Z.quot (to_double x) 2.

(** numpy's broadcasting of two shapes, read from the last axis backward:
    two sizes go together when they are equal or one of them is one, and a
    missing axis counts as size one. *)
Fixpoint broadcast_aligned (s t : list nat) : option (list nat) :=
  match s, t with
  | [], _ => Some t
  | _, [] => Some s
  | a :: s', b :: t' =>
      if (a =? b)%nat then cons a <$> broadcast_aligned s' t'
      else if (a =? 1)%nat then cons b <$> broadcast_aligned s' t'
      else if (b =? 1)%nat then cons a <$> broadcast_aligned s' t'
      else None
  end.

Definition broadcast_shapes (s t : list nat) : option (list nat) :=
  @rev nat <$> broadcast_aligned (rev s) (rev t).

End Py.

Notation "'let*' x ':=' m 'in' k" := (Py.bind m (fun x => k))
  (at level 10, x name, m at level 100, k at level 200).

(** ** Scenarios *)

(** The dataclass [Scenario]. *)
Record Scenario : Type := mkScenario {
  conv_var : list string;
  input_var : list string;
  target : list string;
  name : string
}.

(** ** The sliding-window batcher *)

Module Batcher.
Import Py.

(** [halo_size = int((np.sum(conv_kernels) - len(conv_kernels))/2)] *)
Definition halo_size (conv_kernels : list Z) : result Z :=
  Ok (int_half (wrap64 (np_sum conv_kernels - len conv_kernels))).

(** The stride of the anchors along one axis, [n - 2*halo_size]. *)
Definition stride (n halo : Z) : Z := n - 2 * halo.

(** [range(n, axis_len, n - 2*halo_size)]: the expression behind both
    [nlon_range] and [nlat_range]. *)
Definition anchor_range (n axis_len halo : Z) : result (list Z) :=
  range n axis_len (stride n halo).

(** The finite values a field can take are the elements of a type [A]; a
    cell is one of them or not-a-number ([None]). *)
Abbreviation cell A := (option A).

(** A two-dimensional array, axis [nlat] (rows) first, axis [nlon] second. *)
Abbreviation grid A := (list (list (cell A))).

(** A tensor handed to the model: axes [input_batch], [nlat], [nlon], [var]. *)
Abbreviation Tensor A := (list (list (list (list (cell A))))).

Section Arrays.

Context {A : Type}.

Definition isnan (c : cell A) : bool :=
  match c with
  | None => true
  | Some _ => false
  end.

(** A dataset on the [nlat] x [nlon] grid, as it is after [just_the_data] and
    [select_from]: data variables only, every one on both axes. *)
Record Dataset : Type := mkDataset {
  latlen : nat;
  lonlen : nat;
  data_vars : gmap string (grid A)
}.

(** The dataset after [rolling(...).construct(...)]: each variable carries,
    at every grid point, the window that ends there (axes [nlat], [nlon],
    [nlat_input], [nlon_input]). *)
Record Windowed : Type := mkWindowed {
  w_latlen : nat;
  w_lonlen : nat;
  w_nlats : nat;
  w_nlons : nat;
  w_vars : gmap string (list (list (grid A)))
}.

(** The dataset after [stack]: one axis [input_batch] of samples, each variable
    holding a window of [s_nlats] x [s_nlons] cells per sample. *)
Record Stacked : Type := mkStacked {
  input_batch : nat;
  s_nlats : nat;
  s_nlons : nat;
  s_vars : gmap string (list (grid A))
}.

(** The cell of [g] at row [i], column [j]; outside the grid the rolling
    construction pads with not-a-number. *)
Definition cell_at (g : grid A) (i j : Z) : cell A :=
  if (0 <=? i) && (0 <=? j) then
    match g !! Z.to_nat i with
    | Some row =>
        match row !! Z.to_nat j with
        | Some c => c
        | None => None
        end
    | None => None
    end
  else None.

(** The window of [nlats] x [nlons] cells whose last row and column are
    [i] and [j] (rolling windows are right-aligned: [center=False]). *)
Definition window_at (nlats nlons : Z) (g : grid A) (i j : Z) : grid A :=
  map (fun a =>
         map (fun b => cell_at g (i - (nlats - 1) + a) (j - (nlons - 1) + b))
             (seqZ 0 nlons))
      (seqZ 0 nlats).

(** [ds.rolling({"nlat": nlats, "nlon": nlons})]: a window must be positive. *)
Definition rolling (ds : Dataset) (nlats nlons : Z) : result Dataset :=
  if (nlats <=? 0) || (nlons <=? 0) then Raise ValueError else Ok ds.

(** [.construct({"nlat": "nlat_input", "nlon": "nlon_input"})] *)
Definition construct (ds : Dataset) (nlats nlons : Z) : Windowed :=
  {| w_latlen := latlen ds;
     w_lonlen := lonlen ds;
     w_nlats := Z.to_nat nlats;
     w_nlons := Z.to_nat nlons;
     w_vars :=
       (fun g =>
          map (fun i =>
                 map (fun j => window_at nlats nlons g i j)
                     (seqZ 0 (Z.of_nat (lonlen ds))))
              (seqZ 0 (Z.of_nat (latlen ds))))
       <$> data_vars ds |}.

(** [[{'nlat': nlat_range, 'nlon': nlon_range}]]: orthogonal selection of
    the anchor rows and anchor columns. *)
Definition isel_anchors (w : Windowed) (nlat_range nlon_range : list Z)
  : result Windowed :=
  let* ps := positions (w_latlen w) nlat_range in
  let* qs := positions (w_lonlen w) nlon_range in
  Ok {| w_latlen := length ps;
        w_lonlen := length qs;
        w_nlats := w_nlats w;
        w_nlons := w_nlons w;
        w_vars := (fun arr => map (fun row => gather row qs) (gather arr ps))
                  <$> w_vars w |}.

(** [.stack({"input_batch": ("nlat", "nlon")}, create_index=False)] followed
    by [.rename_dims] and [.transpose('input_batch', ...)]: the anchor pairs are
    enumerated row-major ([nlat] outer, [nlon] inner) and the window axes take
    the names [nlat] and [nlon]. *)
Definition stack (w : Windowed) : Stacked :=
  {| input_batch := (w_latlen w * w_lonlen w)%nat;
     s_nlats := w_nlats w;
     s_nlons := w_nlons w;
     s_vars := (fun arr => concat arr) <$> w_vars w |}.

(** Selecting samples by position along [input_batch]. *)
Definition isel_batch (s : Stacked) (ps : list nat) : Stacked :=
  {| input_batch := length ps;
     s_nlats := s_nlats s;
     s_nlons := s_nlons s;
     s_vars := (fun ws => gather ws ps) <$> s_vars s |}.

(** The number of cells of a window that are not not-a-number
    ([array.count(dims)] for one sample). *)
Definition count_window (w : grid A) : nat :=
  sum_list (map (fun row => length (List.filter (fun c => negb (isnan c)) row)) w).

(** [dropna]'s running [count] at sample [k]: over every data variable, the
    cells of the sample that are defined. *)
Definition dropna_count (s : Stacked) (k : nat) : nat :=
  sum_list (map (fun kv => count_window (kv.2 !!! k)) (map_to_list (s_vars s))).

(** [dropna]'s running [size]: over every data variable, the number of cells
    one sample has. *)
Definition dropna_size (s : Stacked) : nat :=
  sum_list (map (fun _ => (s_nlats s * s_nlons s)%nat) (map_to_list (s_vars s))).

(** The samples [dropna] keeps ([how='any']): those with [count == size]. *)
Definition dropna_keep (s : Stacked) : list nat :=
  List.filter (fun k => Nat.eqb (dropna_count s k) (dropna_size s))
              (seq 0 (input_batch s)).

(** [.dropna('input_batch')] *)
Definition dropna (s : Stacked) : Stacked := isel_batch s (dropna_keep s).

(** The cell that builds [batch] (and [batch_test], [batch_predict]) from a
    dataset: the two anchor ranges, then the rolling / construct / select /
    stack / dropna chain. *)
Definition batch_cell (ds : Dataset) (nlats nlons halo : Z) : result Stacked :=
  let latlen := Z.of_nat (latlen ds) in
  let lonlen := Z.of_nat (lonlen ds) in
  let* nlon_range := anchor_range nlons lonlen halo in
  let* nlat_range := anchor_range nlats latlen halo in
  let* r := rolling ds nlats nlons in
  let* w := isel_anchors (construct r nlats nlons) nlat_range nlon_range in
  Ok (dropna (stack w)).

(** [rnds = list(range(len(batch['input_batch'])))], shuffled in place by
    [np.random.shuffle], then [batch = batch[{'input_batch': rnds}]]. The
    outcome of the shuffle is the argument [rnds]. *)
Definition shuffle_cell (rnds : list Z) (batch : Stacked) : result Stacked :=
  let* ps := positions (input_batch batch) rnds in
  Ok (isel_batch batch ps).

(** [batch_set.isel({'input_batch': range(n, m)})] *)
Definition isel_range (batch_set : Stacked) (n m : Z) : result Stacked :=
  let* ps := positions (input_batch batch_set) (range2 n m) in
  Ok (isel_batch batch_set ps).

(** The generator [batch_generator(batch_set, batch_size)], run from the
    counter value [n]: the list of everything it yields until the loop
    condition fails. [None] when the loop is still running after [fuel]
    iterations. *)
Fixpoint batch_generator_from (fuel : nat) (batch_set : Stacked)
    (batch_size n : Z) : option (result (list Stacked)) :=
  match fuel with
  | O => None
  | S fuel' =>
      if n <? Z.of_nat (input_batch batch_set) - batch_size then
        match isel_range batch_set n (n + batch_size) with
        | Raise e => Some (Raise e)
        | Ok b =>
            match batch_generator_from fuel' batch_set batch_size (n + batch_size) with
            | Some (Ok bs) => Some (Ok (b :: bs))
            | other => other
            end
        end
      else Some (Ok [])
  end.

Definition batch_generator (fuel : nat) (batch_set : Stacked) (batch_size : Z)
  : option (result (list Stacked)) :=
  batch_generator_from fuel batch_set batch_size 0.

(** One variable taken out of a stacked dataset ([batch[x]]): its name, the
    sizes of its axes [input_batch], [nlat], [nlon], and its values. *)
Record DataArray : Type := mkDataArray {
  da_name : string;
  da_len : nat;
  da_nlats : nat;
  da_nlons : nat;
  da_data : list (grid A)
}.

(** [batch[x]] *)
Definition getitem (batch : Stacked) (x : string) : result DataArray :=
  match s_vars batch !! x with
  | Some ws =>
      Ok {| da_name := x;
            da_len := input_batch batch;
            da_nlats := s_nlats batch;
            da_nlons := s_nlons batch;
            da_data := ws |}
  | None => Raise KeyError
  end.

(** The subsetting stencil: one indexer per window axis. *)
Record Stencil : Type := mkStencil {
  sub_nlon : list Z;
  sub_nlat : list Z
}.

(** [sub = {'nlon':range(halo_size,nlons-halo_size),
            'nlat':range(halo_size,nlats-halo_size)}] *)
Definition sub (halo_size nlons nlats : Z) : Stencil :=
  {| sub_nlon := range2 halo_size (nlons - halo_size);
     sub_nlat := range2 halo_size (nlats - halo_size) |}.

(** [d[sub]]: orthogonal selection on the two window axes of every sample. *)
Definition isel_sub (d : DataArray) (st : Stencil) : result DataArray :=
  let* qs := positions (da_nlons d) (sub_nlon st) in
  let* ps := positions (da_nlats d) (sub_nlat st) in
  Ok {| da_name := da_name d;
        da_len := da_len d;
        da_nlats := length ps;
        da_nlons := length qs;
        da_data := map (fun w => map (fun row => gather row qs) (gather w ps))
                       (da_data d) |}.

(** [xr.merge(arrays)]: one variable per name, in the order of first
    appearance (the arrays of one name are copies of one another here, so
    they never conflict). *)
Fixpoint merge (das : list DataArray) : list DataArray :=
  match das with
  | [] => []
  | d :: rest =>
      d :: List.filter (fun d' => bool_decide (da_name d' <> da_name d)) (merge rest)
  end.

(** [.to_array('var').transpose(...,'var')]: the variables of a merged
    dataset become the entries of a new last axis, in the dataset's order.
    There must be at least one variable to stack: without one the call raises,
    with an exception whose class depends on the xarray installed. *)
Definition to_array_var_last (das : list DataArray) : result (Tensor A) :=
  match das with
  | [] => Raise EmptyStackError
  | d :: _ =>
      Ok (map (fun k =>
                 map (fun i =>
                        map (fun j =>
                               map (fun d' => ((da_data d' !!! k) !!! i) !!! j) das)
                            (seq 0 (da_nlons d)))
                     (seq 0 (da_nlats d)))
              (seq 0 (da_len d)))
  end.

(** The body of the training loop up to [model.fit] (and the cell that
    builds [test_conv], [test_input], [test_target] from [batch_test]). *)
Definition tensors_cell (sc : Scenario) (st : Stencil) (batch : Stacked)
  : result (Tensor A * Tensor A * Tensor A) :=
  let* batch_conv := mapM (getitem batch) (conv_var sc) in
  let* batch_input :=
    mapM (fun x => let* d := getitem batch x in isel_sub d st) (input_var sc) in
  let* batch_target :=
    mapM (fun x => let* d := getitem batch x in isel_sub d st) (target sc) in
  let* batch_conv := to_array_var_last (merge batch_conv) in
  let* batch_input := to_array_var_last (merge batch_input) in
  let* batch_target := to_array_var_last (merge batch_target) in
  Ok (batch_conv, batch_input, batch_target).

End Arrays.

Arguments Dataset A : clear implicits.
Arguments Windowed A : clear implicits.
Arguments Stacked A : clear implicits.
Arguments DataArray A : clear implicits.

End Batcher.

(** ** The cells of the main notebook after training *)

Module Notebook.
Import Py Batcher.

(** [conv_dims = [5,5]], [conv_kernels = [5]], and [nlons, nlats = conv_dims]. *)
Definition conv_dims : list Z := [5; 5].
Definition conv_kernels : list Z := [5].
Definition nlons : Z := nth 0 conv_dims 0.
Definition nlats : Z := nth 1 conv_dims 0.

(** [xs[i]] on a Python or numpy sequence. *)
Definition item {B : Type} (xs : list B) (i : Z) : result B :=
  let* p := position (length xs) i in
  match xs !! p with
  | Some x => Ok x
  | None => Raise IndexError
  end.

(** [a.reshape(rows, cols)] of a one-dimensional array: the sizes must
    multiply to the length, and the items fill the rows one after the other
    (C order). *)
Definition reshape {B : Type} (a : list B) (rows cols : nat) : result (list (list B)) :=
  if Nat.eqb (length a) (rows * cols) then
    Ok (map (fun i => take cols (drop (i * cols) a)) (seq 0 rows))
  else Raise ValueError.

(** [predict_target[:,0,0,c]] *)
Definition select_point {B : Type} (predict_target : list (list (list (list B))))
    (c : Z) : result (list B) :=
  mapM (fun sample =>
          let* m := item sample 0 in
          let* row := item m 0 in
          item row c)
       predict_target.

(** [U_pred = predict_target[:,0,0,0].reshape(545, 345)] *)
Definition U_pred {B : Type} (predict_target : list (list (list (list B))))
  : result (list (list B)) :=
  let* u := select_point predict_target 0 in reshape u 545 345.

(** [V_pred = predict_target[:,0,0,1].reshape(545, 345)] *)
Definition V_pred {B : Type} (predict_target : list (list (list (list B))))
  : result (list (list B)) :=
  let* v := select_point predict_target 1 in reshape v 545 345.

Section Cells.
Context {A : Type}.

(** [select_from(ds)], from the preparation notebook:
    [ds.isel(nlon=list(range(1850,2200)), nlat=list(range(500,1050)))]. *)
Definition select_from (ds : Dataset A) : result (Dataset A) :=
  let* qs := positions (lonlen ds) (range2 1850 2200) in
  let* ps := positions (latlen ds) (range2 500 1050) in
  Ok {| latlen := length ps;
        lonlen := length qs;
        data_vars := (fun g => map (fun row => gather row qs) (gather g ps))
                     <$> data_vars ds |}.

(** The global names the testing and prediction cells assign and read. A
    name no cell has assigned yet is [None]. *)
Record Globals : Type := mkGlobals {
  ds_test : option (Dataset A);
  ds_predict : option (Dataset A);
  batch_test : option (Stacked A);
  batch_predict : option (Stacked A);
  test_conv : option (Tensor A);
  test_input : option (Tensor A);
  test_target : option (Tensor A);
  predict_conv : option (Tensor A);
  predict_input : option (Tensor A)
}.

(** Reading a global name. *)
Definition read {B : Type} (x : option B) : result B :=
  match x with
  | Some v => Ok v
  | None => Raise NameError
  end.

(** What the training part of the notebook leaves behind for the later
    cells: the scenario [sc], the window sizes and the halo. The stencil
    [sub] is the one computed from them. *)
Record Setup : Type := mkSetup {
  sc : Scenario;
  su_nlats : Z;
  su_nlons : Z;
  su_halo_size : Z
}.

Definition su_sub (su : Setup) : Stencil :=
  sub (su_halo_size su) (su_nlons su) (su_nlats su).

(** The cell [batch_test = (ds_test.rolling(...) ... .dropna('input_batch'))]. *)
Definition batch_test_cell (su : Setup) (g : Globals) : result Globals :=
  let* ds := read (ds_test g) in
  let* batch := batch_cell ds (su_nlats su) (su_nlons su) (su_halo_size su) in
  Ok {| ds_test := ds_test g; ds_predict := ds_predict g;
        batch_test := Some batch; batch_predict := batch_predict g;
        test_conv := test_conv g; test_input := test_input g;
        test_target := test_target g;
        predict_conv := predict_conv g; predict_input := predict_input g |}.

(** The cell that assigns [test_conv], [test_input] and [test_target]. *)
Definition test_tensors_cell (su : Setup) (g : Globals) : result Globals :=
  let* batch_test_ := read (batch_test g) in
  let* t := tensors_cell (sc su) (su_sub su) batch_test_ in
  Ok {| ds_test := ds_test g; ds_predict := ds_predict g;
        batch_test := batch_test g; batch_predict := batch_predict g;
        test_conv := Some t.1.1; test_input := Some t.1.2;
        test_target := Some t.2;
        predict_conv := predict_conv g; predict_input := predict_input g |}.

(** The cell [batch_predict = (ds_predict.rolling(...) ... .dropna('input_batch'))]. *)
Definition batch_predict_cell (su : Setup) (g : Globals) : result Globals :=
  let* ds := read (ds_predict g) in
  let* batch := batch_cell ds (su_nlats su) (su_nlons su) (su_halo_size su) in
  Ok {| ds_test := ds_test g; ds_predict := ds_predict g;
        batch_test := batch_test g; batch_predict := Some batch;
        test_conv := test_conv g; test_input := test_input g;
        test_target := test_target g;
        predict_conv := predict_conv g; predict_input := predict_input g |}.

(** The cell that assigns [predict_conv] and [predict_input]:
    [predict_conv  = [batch_test[x]      for x in sc.conv_var]]
    [predict_input = [batch_test[x][sub] for x in sc.input_var]]
    and the two [xr.merge(...).to_array('var').transpose(...,'var')] lines.
    The patch collection it reads is [batch_test]. *)
Definition predict_tensors_cell (su : Setup) (g : Globals) : result Globals :=
  let* batch_test_ := read (batch_test g) in
  let* predict_conv_ := mapM (getitem batch_test_) (conv_var (sc su)) in
  let* predict_input_ :=
    mapM (fun x => let* d := getitem batch_test_ x in isel_sub d (su_sub su))
         (input_var (sc su)) in
  let* predict_conv_ := to_array_var_last (merge predict_conv_) in
  let* predict_input_ := to_array_var_last (merge predict_input_) in
  Ok {| ds_test := ds_test g; ds_predict := ds_predict g;
        batch_test := batch_test g; batch_predict := batch_predict g;
        test_conv := test_conv g; test_input := test_input g;
        test_target := test_target g;
        predict_conv := Some predict_conv_; predict_input := Some predict_input_ |}.

(** The testing cells, then the prediction cells, in notebook order. *)
Definition test_stage (su : Setup) (g : Globals) : result Globals :=
  let* g := batch_test_cell su g in test_tensors_cell su g.

Definition predict_stage (su : Setup) (g : Globals) : result Globals :=
  let* g := batch_predict_cell su g in predict_tensors_cell su g.

(** The globals once [ds_test] and [ds_predict] are loaded. *)
Definition loaded (dt dp : Dataset A) : Globals :=
  {| ds_test := Some dt; ds_predict := Some dp;
     batch_test := None; batch_predict := None;
     test_conv := None; test_input := None; test_target := None;
     predict_conv := None; predict_input := None |}.

End Cells.

Arguments Globals A : clear implicits.

End Notebook.

(** ** The preparation notebook *)

Module Prep.
Import Py.

(** The array operations the preparation cells call on numpy and xarray
    values. The arrays themselves stay abstract: the cells only combine them
    through these operations. An array has a shape; an arithmetic operation on
    two arrays has a result only when their shapes broadcast ([None] when they
    do not: numpy raises a [ValueError]). *)
Class ArrayOps (arr : Type) : Type := {
  shape : arr -> list nat;
  np_sin : arr -> arr;
  np_cos : arr -> arr;
  np_radians : arr -> arr;
  np_mean : arr -> arr;
  np_std : arr -> arr;
  arr_mul : arr -> arr -> option arr;
  arr_sub : arr -> arr -> option arr;
  arr_div : arr -> arr -> option arr;
  arr_neg : arr -> arr;
  np_isnan : arr -> arr;
  arr_invert : arr -> arr;
  arr_and : arr -> arr -> arr;
  (** the entries at the given positions of the [time] axis; the flag says
      whether the axis is dropped (an integer indexer) or kept (a list) *)
  arr_isel_time : list nat -> bool -> arr -> arr
}.

(** What numpy guarantees about the shapes: the elementwise functions keep
    the shape, [np.mean] and [np.std] without an axis reduce to a value without
    axes, and the arithmetic of two arrays is defined exactly when the shapes
    broadcast, to an array of the broadcast shape. *)
Class ArrayLaws (arr : Type) `{ArrayOps arr} : Prop := {
  shape_sin a : shape (np_sin a) = shape a;
  shape_cos a : shape (np_cos a) = shape a;
  shape_radians a : shape (np_radians a) = shape a;
  shape_neg a : shape (arr_neg a) = shape a;
  shape_mean a : shape (np_mean a) = [];
  shape_std a : shape (np_std a) = [];
  shape_mul a b : shape <$> arr_mul a b = broadcast_shapes (shape a) (shape b);
  shape_sub a b : shape <$> arr_sub a b = broadcast_shapes (shape a) (shape b);
  shape_div a b : shape <$> arr_div a b = broadcast_shapes (shape a) (shape b)
}.

(** An indexer for [isel]: one integer, or a list of integers. *)
Inductive indexer : Type :=
| Int (i : Z)
| Ints (l : list Z).

Section Datasets.
Context {arr : Type} {ops : ArrayOps arr}.

(** A variable: the names of its axes and its values. *)
Record DataVar : Type := mkDataVar {
  dims : list string;
  data : arr
}.

(** A dataset: the length of its [time] axis, if it has one, and its
    variables by name. *)
Record XDataset : Type := mkXDataset {
  time_len : option nat;
  variables : gmap string DataVar
}.

(** The groups of the zarr store under [scenarios/]. *)
Definition Store : Type := gmap string XDataset.

(** [ds.x]: attribute access to a variable. *)
Definition getattr (ds : XDataset) (x : string) : result DataVar :=
  match variables ds !! x with
  | Some v => Ok v
  | None => Raise AttributeError
  end.

(** [ds[x]] *)
Definition getvar (ds : XDataset) (x : string) : result DataVar :=
  match variables ds !! x with
  | Some v => Ok v
  | None => Raise KeyError
  end.

(** [ds[x] = dims, values] and [ds[x] = array] *)
Definition setvar (ds : XDataset) (x : string) (v : DataVar) : XDataset :=
  {| time_len := time_len ds; variables := <[x := v]> (variables ds) |}.

(** An operation on numpy arrays that needs the shapes to broadcast. *)
Definition broadcasting (m : option arr) : result arr :=
  match m with
  | Some a => Ok a
  | None => Raise ValueError
  end.

(** Values that can be stored on the axes of the variable [like] of the
    dataset: as many axes as [like] has names, of the sizes these axes have in
    the dataset, which are the sizes of [like] itself. *)
Definition fits_like (like : DataVar) (values : arr) : Prop :=
  length (dims like) = length (shape values) /\ shape values = shape (data like).

(** [ds[x] = like.dims, values]: xarray refuses values with another number
    of axes than names, and sizes that conflict with those the dataset has for
    these names (a [ValueError] both times); an earlier variable [x] is
    replaced. *)
Definition assign_like (ds : XDataset) (x : string) (like : DataVar) (values : arr)
  : result XDataset :=
  if bool_decide (fits_like like values) then
    Ok (setvar ds x (mkDataVar (dims like) values))
  else Raise ValueError.

(** [add_grid(ds)] *)
Definition add_grid (ds : XDataset) : result XDataset :=
  let X := fun lat => np_sin (np_radians lat) in
  let Y := fun lat lon => arr_mul (np_cos (np_radians lat)) (np_sin (np_radians lon)) in
  let Z := fun lat lon =>
             arr_mul (arr_neg (np_cos (np_radians lat))) (np_cos (np_radians lon)) in
  let delta := fun dx dxMean dxStd => arr_sub dx dxMean ≫= fun d => arr_div d dxStd in
  let* YU := getattr ds "YU" in
  let lats := data YU in
  let* XU := getattr ds "XU" in
  let lons := data XU in
  let* DXT := getattr ds "DXT" in
  let DX := data DXT in
  let* DYT := getattr ds "DYT" in
  let DY := data DYT in
  let x := X lats in
  let* y := broadcasting (Y lats lons) in
  let* z := broadcasting (Z lats lons) in
  let* dX := broadcasting (delta DX (np_mean DX) (np_std DX)) in
  let* dY := broadcasting (delta DY (np_mean DY) (np_std DY)) in
  let* ds := assign_like ds "X" XU x in
  let* ds := assign_like ds "Y" XU y in
  let* ds := assign_like ds "Z" XU z in
  let* ds := assign_like ds "dx" XU dX in
  let* ds := assign_like ds "dy" XU dY in
  Ok ds.

(** One entry of [ds.rename({...})]: the old name must exist and the new
    one must be free. *)
Definition rename_one (ds : XDataset) (names : string * string) : result XDataset :=
  match variables ds !! names.1 with
  | None => Raise ValueError
  | Some v =>
      match delete names.1 (variables ds) !! names.2 with
      | Some _ => Raise ValueError
      | None =>
          Ok {| time_len := time_len ds;
                variables := <[names.2 := v]> (delete names.1 (variables ds)) |}
      end
  end.

(** [ds.rename(name_dict)] *)
Fixpoint rename (ds : XDataset) (name_dict : list (string * string)) : result XDataset :=
  match name_dict with
  | [] => Ok ds
  | names :: rest => let* ds := rename_one ds names in rename ds rest
  end.

(** The positions an indexer names on an axis, and whether the axis goes. *)
Definition indexer_positions (n : nat) (ix : indexer) : result (list nat * bool) :=
  match ix with
  | Int i => let* p := position n i in Ok ([p], true)
  | Ints l => let* ps := positions n l in Ok (ps, false)
  end.

(** [v[{'time': ix}]] on a variable that has the axis. *)
Definition var_isel_time (ps : list nat) (drop : bool) (v : DataVar) : DataVar :=
  if bool_decide ("time"%string ∈ dims v) then
    {| dims := if drop then List.filter (fun d => bool_decide (d <> "time"%string)) (dims v)
               else dims v;
       data := arr_isel_time ps drop (data v) |}
  else v.

(** [ds.isel(time = ix)]: the axis must exist and the indexer fit it;
    variables without the axis are left alone. *)
Definition isel_time (ds : XDataset) (ix : indexer) : result XDataset :=
  match time_len ds with
  | None => Raise ValueError
  | Some n =>
      let* sel := indexer_positions n ix in
      Ok {| time_len := if sel.2 then None else Some (length sel.1);
            variables := var_isel_time sel.1 sel.2 <$> variables ds |}
  end.

(** [get_mask_from(ds, x)[{'time': mask_time}]], with
    [get_mask_from(ds, x) = ~np.isnan(ds[x])]. *)
Definition mask_at (ds : XDataset) (x : string) (mask_time : indexer) : result DataVar :=
  let* v := getvar ds x in
  let m := {| dims := dims v; data := arr_invert (np_isnan (data v)) |} in
  match time_len ds with
  | None => Raise ValueError
  | Some n =>
      if bool_decide ("time"%string ∈ dims m) then
        let* sel := indexer_positions n mask_time in
        Ok (var_isel_time sel.1 sel.2 m)
      else Raise ValueError
  end.

(** [m1 & m2]: the axes of both, the values combined. *)
Definition mask_and (m1 m2 : DataVar) : DataVar :=
  {| dims := dims m1 ++ List.filter (fun d => bool_decide (d ∉ dims m1)) (dims m2);
     data := arr_and (data m1) (data m2) |}.

(** [ds[varList]]: every name must be a variable; the result holds these
    variables and no other. *)
Definition select_vars (ds : XDataset) (varList : list string) : result XDataset :=
  let* vs := mapM (fun x => let* v := getvar ds x in Ok (x, v)) varList in
  Ok {| time_len := time_len ds; variables := list_to_map vs |}.

(** [ds.to_zarr('scenarios/', group = key, mode = 'w')] *)
Definition to_zarr (store : Store) (key : string) (ds : XDataset) : Store :=
  <[key := ds]> store.

(** [prepare_data] up to [ds['mask'] = mask]: the renamed and augmented
    catalog dataset, cut down to the scenario's variables and the mask. *)
Definition prepared (cat_ds : XDataset) (sc : Scenario) (mask_time : indexer)
  : result XDataset :=
  let* ds := rename cat_ds
               [("U1_1", "U"); ("V1_1", "V"); ("TAUX_2", "TAUX");
                ("TAUY_2", "TAUY"); ("SSH_2", "SSH"); ("ULONG", "XU");
                ("ULAT", "YU")]%string in
  let* ds := add_grid ds in
  let* mask1 := mask_at ds "SSH" mask_time in
  let* mask2 := mask_at ds "TAUY" mask_time in
  let* mask3 := mask_at ds "U" mask_time in
  let mask := mask_and (mask_and mask1 mask2) mask3 in
  let varList := conv_var sc ++ input_var sc ++ target sc in
  let* ds := select_vars ds varList in
  Ok (setvar ds "mask" mask).

(** [prepare_data(sc, training_time, test_time, predict_time, mask_time)] on
    the dataset [cat_ds] the catalog serves. It returns the store as the
    writes left it, and how the call ended. *)
Definition prepare_data (cat_ds : XDataset) (sc : Scenario)
    (training_time test_time predict_time mask_time : indexer) (store : Store)
  : Store * result unit :=
  match prepared cat_ds sc mask_time with
  | Raise e => (store, Raise e)
  | Ok ds =>
      match isel_time ds training_time with
      | Raise e => (store, Raise e)
      | Ok ds_training =>
          let store :=
            to_zarr store (("training_" +:+ name sc) +:+ ".zarr") ds_training in
          match isel_time ds test_time with
          | Raise e => (store, Raise e)
          | Ok ds_test =>
              let store :=
                to_zarr store (("test_" +:+ name sc) +:+ ".zarr") ds_test in
              match isel_time ds predict_time with
              | Raise e => (store, Raise e)
              | Ok ds_predict =>
                  let store :=
                    to_zarr store (("predict_" +:+ name sc) +:+ ".zarr") ds_predict in
                  (store, Ok tt)
              end
          end
      end
  end.

(** [loader(sc, name)]: [xr.open_zarr('scenarios/', group = name + '_' + sc.name + '.zarr')] *)
Definition loader (store : Store) (sc : Scenario) (role : string) : result XDataset :=
  match store !! (((role +:+ "_") +:+ name sc) +:+ ".zarr") with
  | Some ds => Ok ds
  | None => Raise GroupNotFoundError
  end.

Definition load_training_data (store : Store) (sc : Scenario) : result XDataset :=
  loader store sc "training".

Definition load_test_data (store : Store) (sc : Scenario) : result XDataset :=
  loader store sc "test".

Definition load_predict_data (store : Store) (sc : Scenario) : result XDataset :=
  loader store sc "predict".

End Datasets.

Arguments DataVar arr : clear implicits.
Arguments XDataset arr : clear implicits.
Arguments Store arr : clear implicits.

End Prep.

(** ** Facts about the Python built-ins *)

Module PyFacts.
Import Py.

Lemma range_len_nonneg start stop step :
  step <> 0 -> 0 <= range_len start stop step.
Proof.
  intros Hs. unfold range_len.
  destruct (0 <? step) eqn:Hpos.
  - apply Z.ltb_lt in Hpos.
    destruct (start <? stop) eqn:Hlt; [|lia].
    apply Z.ltb_lt in Hlt.
    assert (0 <= (stop - start - 1) / step) by (apply Z.div_pos; lia). lia.
  - apply Z.ltb_ge in Hpos.
    destruct (stop <? start) eqn:Hlt; [|lia].
    apply Z.ltb_lt in Hlt.
    assert (0 <= (start - stop - 1) / (- step)) by (apply Z.div_pos; lia). lia.
Qed.

(** For a positive step, [k] is below the length exactly when the [k]-th item
    is still before [stop]. *)
Lemma range_len_pos_spec start stop step k :
  0 < step -> 0 <= k ->
  (k < range_len start stop step <-> start + k * step < stop).
Proof.
  intros Hs Hk. unfold range_len.
  destruct (0 <? step) eqn:Hpos; [|apply Z.ltb_ge in Hpos; lia].
  destruct (start <? stop) eqn:Hlt.
  - apply Z.ltb_lt in Hlt.
    pose proof (Z.div_mod (stop - start - 1) step ltac:(lia)) as Hdm.
    pose proof (Z.mod_pos_bound (stop - start - 1) step Hs) as Hb.
    split; intros H; nia.
  - apply Z.ltb_ge in Hlt. split; intros H; nia.
Qed.

Lemma range_len_neg_empty start stop step :
  step < 0 -> start <= stop -> range_len start stop step = 0.
Proof.
  intros Hs Hle. unfold range_len.
  destruct (0 <? step) eqn:Hpos; [apply Z.ltb_lt in Hpos; lia|].
  destruct (stop <? start) eqn:Hlt; [apply Z.ltb_lt in Hlt; lia|]. reflexivity.
Qed.

End PyFacts.

(** ** The halo and the anchor ranges *)

Module AnchorFacts.
Import Py Batcher PyFacts.

(** Every kernel of the list is odd. *)
Definition all_odd (ks : list Z) : Prop := Forall (fun k => Z.odd k = true) ks.

(** The sum of a list as a mathematical integer. *)
Definition total (ks : list Z) : Z := fold_right Z.add 0 ks.

(** The sum of the per-layer half-widths [(k - 1) / 2]. *)
Definition half_widths (ks : list Z) : Z := total (map (fun k => (k - 1) / 2) ks).

Lemma len_cons {B : Type} (x : B) (xs : list B) : len (x :: xs) = len xs + 1.
Proof. unfold len. simpl length. lia. Qed.

Lemma all_odd_sum ks :
  all_odd ks -> total ks - len ks = 2 * half_widths ks.
Proof.
  unfold half_widths. induction 1 as [|k ks Hk _ IH].
  - reflexivity.
  - rewrite len_cons. simpl total.
    assert (k = 2 * ((k - 1) / 2) + 1) as Hk2.
    { rewrite Z.odd_spec in Hk. destruct Hk as [m ->].
      replace (2 * m + 1 - 1) with (m * 2) by lia.
      rewrite Z.div_mul by lia. lia. }
    lia.
Qed.

Lemma wrap64_id x : int64 x -> wrap64 x = x.
Proof.
  unfold int64, wrap64. intros Hx.
  rewrite Z.mod_small by lia. lia.
Qed.

(** Up to [2^53] in magnitude an integer is a double. *)
Lemma to_double_exact x : Z.abs x <= 2 ^ 53 -> to_double x = x.
Proof.
  intros Hx. unfold to_double.
  destruct (Z.eq_dec (Z.abs x) (2 ^ 53)) as [Heq|Hne].
  - assert (x = 2 ^ 53 \/ x = - 2 ^ 53) as [-> | ->] by lia; reflexivity.
  - assert (Z.log2 (Z.abs x) <= 52) as Hlog.
    { destruct (Z.eq_dec (Z.abs x) 0) as [->|Hnz]; [simpl; lia|].
      assert (Z.log2 (Z.abs x) < 53); [|lia].
      apply Z.log2_lt_pow2; lia. }
    apply Z.leb_le in Hlog. rewrite Hlog. reflexivity.
Qed.

Lemma int_half_exact x : Z.abs x <= 2 ^ 53 -> int_half x = Z.quot x 2.
Proof. intros Hx. unfold int_half. rewrite to_double_exact by exact Hx. reflexivity. Qed.

(** C6 fails as stated: for the single even kernel [4] the quantity
    [(sum - n) / 2] is [3 / 2], not an integer, and the halo cell answers [1]
    without reporting anything. *)
Lemma halo_size_even_kernel_silent :
  np_sum [4] - len [4] = 3 /\ Z.odd 3 = true /\
  halo_size [4] = Ok 1 /\ raises (halo_size [4]) = false.
Proof. repeat split. Qed.

(** Above [2^53] the division is no longer exact: for the one odd kernel
    [2^54 + 3] the quantity [(sum - n) / 2] is the integer [2^53 + 1], and the
    halo cell answers [2^53]: the double nearest to [2^54 + 2] is [2^54]. *)
Example halo_size_rounds_above_2_53 :
  all_odd [2 ^ 54 + 3] /\ int64 (2 ^ 54 + 3) /\
  total [2 ^ 54 + 3] - len [2 ^ 54 + 3] = 2 * (2 ^ 53 + 1) /\
  halo_size [2 ^ 54 + 3] = Ok (2 ^ 53).
Proof.
  split; [repeat constructor|]. split; [unfold int64; lia|].
  split; reflexivity.
Qed.

(** C6, amended: for kernel sizes that fit [int64], with a sum that fits
    [int64] and [sum(k_i) - n] within [2^53] in magnitude (where the double
    division is exact), the halo cell reports nothing and returns
    [(sum(k_i) - n) / 2] truncated toward zero. The value is exactly
    [(sum(k_i) - n) / 2], and is the sum of the half-widths, whenever all
    kernels are odd; when [sum(k_i) - n] is odd the value is the truncation
    and twice the halo differs from [sum(k_i) - n]. *)
Theorem halo_size_truncates (conv_kernels : list Z) :
  Forall int64 conv_kernels ->
  int64 (total conv_kernels) ->
  Z.abs (total conv_kernels - len conv_kernels) <= 2 ^ 53 ->
  exists h,
    halo_size conv_kernels = Ok h /\
    raises (halo_size conv_kernels) = false /\
    h = Z.quot (total conv_kernels - len conv_kernels) 2 /\
    (all_odd conv_kernels ->
       2 * h = total conv_kernels - len conv_kernels /\ h = half_widths conv_kernels) /\
    (Z.odd (total conv_kernels - len conv_kernels) = true ->
       2 * h <> total conv_kernels - len conv_kernels).
Proof.
  intros _ Hsum Hsmall.
  assert (halo_size conv_kernels
          = Ok (Z.quot (total conv_kernels - len conv_kernels) 2)) as Hrun.
  { unfold halo_size, np_sum. fold (total conv_kernels).
    rewrite (wrap64_id _ Hsum).
    rewrite wrap64_id by (unfold int64; lia).
    rewrite int_half_exact by exact Hsmall. reflexivity. }
  eexists. split; [exact Hrun|]. split; [reflexivity|]. split; [reflexivity|]. split.
  - intros Hodd. rewrite (all_odd_sum _ Hodd).
    assert (Z.quot (2 * half_widths conv_kernels) 2 = half_widths conv_kernels)
      as -> by (rewrite Z.mul_comm; apply Z.quot_mul; lia).
    split; reflexivity.
  - intros Ho Heq. rewrite <- Heq in Ho.
    rewrite Z.odd_mul in Ho. discriminate.
Qed.

Lemma halo_size_truncates_witness :
  Forall int64 [3; 5; 7] /\ int64 (total [3; 5; 7]) /\
  Z.abs (total [3; 5; 7] - len [3; 5; 7]) <= 2 ^ 53 /\
  exists h,
    halo_size [3; 5; 7] = Ok h /\
    raises (halo_size [3; 5; 7]) = false /\
    h = Z.quot (total [3; 5; 7] - len [3; 5; 7]) 2 /\
    (all_odd [3; 5; 7] ->
       2 * h = total [3; 5; 7] - len [3; 5; 7] /\ h = half_widths [3; 5; 7]) /\
    (Z.odd (total [3; 5; 7] - len [3; 5; 7]) = true ->
       2 * h <> total [3; 5; 7] - len [3; 5; 7]).
Proof.
  assert (Forall int64 [3; 5; 7]) as Hall
    by (repeat constructor; unfold int64; lia).
  assert (int64 (total [3; 5; 7])) as Hsum
    by (unfold int64; split; vm_compute; [discriminate | reflexivity]).
  assert (Z.abs (total [3; 5; 7] - len [3; 5; 7]) <= 2 ^ 53) as Hsmall
    by (vm_compute; discriminate).
  split; [exact Hall|]. split; [exact Hsum|]. split; [exact Hsmall|].
  apply (halo_size_truncates [3; 5; 7] Hall Hsum Hsmall).
Defined.

(** The items of a range with a positive step, in order. *)
Lemma range_pos start stop step :
  0 < step ->
  range start stop step
  = Ok (map (fun k => start + k * step) (seqZ 0 (range_len start stop step))).
Proof.
  intros Hs. unfold range.
  destruct (step =? 0) eqn:E; [apply Z.eqb_eq in E; lia | reflexivity].
Qed.

Lemma elem_of_range_pos start stop step x :
  0 < step ->
  x ∈ map (fun k => start + k * step) (seqZ 0 (range_len start stop step))
  <-> exists k, 0 <= k /\ x = start + k * step /\ x < stop.
Proof.
  intros Hs. rewrite list_elem_of_In, in_map_iff. split.
  - intros (k & <- & Hk). apply list_elem_of_In, elem_of_seqZ in Hk.
    exists k. split; [lia|]. split; [reflexivity|].
    apply range_len_pos_spec; lia.
  - intros (k & Hk & -> & Hlt). exists k. split; [reflexivity|].
    apply list_elem_of_In, elem_of_seqZ.
    apply range_len_pos_spec in Hlt; lia.
Qed.

Lemma affine_seqZ_sorted start step m n :
  0 < step ->
  StronglySorted Z.lt (map (fun k => start + k * step) (seqZ m n)).
Proof.
  intros Hs. destruct (Z.le_gt_cases n 0) as [Hn|Hn].
  { rewrite seqZ_nil by lia. constructor. }
  rewrite <- (Z2Nat.id n) by lia.
  generalize (Z.to_nat n) as c. clear n Hn. intros c. revert m.
  induction c as [|c IH]; intros m.
  - simpl. constructor.
  - rewrite seqZ_cons by lia. simpl map. constructor.
    + replace (Z.pred (Z.of_nat (S c))) with (Z.of_nat c) by lia. apply IH.
    + apply Forall_forall. intros y Hy.
      apply list_elem_of_In, in_map_iff in Hy. destruct Hy as (k & <- & Hk).
      apply list_elem_of_In, elem_of_seqZ in Hk. nia.
Qed.

Lemma lookup_map {B C : Type} (f : B -> C) (l : list B) (k : nat) :
  map f l !! k = f <$> l !! k.
Proof. apply list_lookup_fmap. Qed.

(** C7: when the window exceeds twice the halo the stride [n - 2*halo] is
    positive and the anchors are exactly [n, n + stride, n + 2*stride, ...]
    below the axis length, in strictly increasing order: the [k]-th anchor is
    [n + k * (n - 2*halo)]. *)
Theorem anchors_cover_axis (n axis_len halo : Z) :
  n > 2 * halo ->
  stride n halo = n - 2 * halo /\ 0 < n - 2 * halo /\
  exists anchors,
    anchor_range n axis_len halo = Ok anchors /\
    StronglySorted Z.lt anchors /\
    (forall x, x ∈ anchors <->
               exists k, 0 <= k /\ x = n + k * (n - 2 * halo) /\ x < axis_len) /\
    (forall k x, anchors !! k = Some x ->
                 x = n + Z.of_nat k * (n - 2 * halo) /\ x < axis_len) /\
    (forall k, n + Z.of_nat k * (n - 2 * halo) < axis_len ->
               anchors !! k = Some (n + Z.of_nat k * (n - 2 * halo))).
Proof.
  intros Hw. split; [reflexivity|]. split; [lia|].
  assert (0 < n - 2 * halo) as Hs by lia.
  unfold anchor_range, stride. eexists. split; [apply range_pos, Hs|].
  split; [apply affine_seqZ_sorted, Hs|].
  split; [intros x; apply elem_of_range_pos, Hs|]. split.
  - intros k x Hk. rewrite lookup_map in Hk.
    destruct (seqZ 0 (range_len n axis_len (n - 2 * halo)) !! k) as [z|] eqn:Hz;
      [|discriminate].
    apply lookup_seqZ in Hz. destruct Hz as [-> Hlt]. injection Hk as <-.
    split; [f_equal; lia|].
    apply (range_len_pos_spec n axis_len (n - 2 * halo) (Z.of_nat k) Hs); lia.
  - intros k Hk. rewrite lookup_map.
    apply (range_len_pos_spec n axis_len (n - 2 * halo) (Z.of_nat k) Hs) in Hk;
      [|lia].
    rewrite (proj2 (lookup_seqZ 0 _ k (0 + Z.of_nat k)) (conj eq_refl Hk)).
    simpl. do 2 f_equal.
Qed.

Lemma anchors_cover_axis_witness :
  5 > 2 * 2 /\
  stride 5 2 = 5 - 2 * 2 /\ 0 < 5 - 2 * 2 /\
  exists anchors,
    anchor_range 5 550 2 = Ok anchors /\
    StronglySorted Z.lt anchors /\
    (forall x, x ∈ anchors <->
               exists k, 0 <= k /\ x = 5 + k * (5 - 2 * 2) /\ x < 550) /\
    (forall k x, anchors !! k = Some x ->
                 x = 5 + Z.of_nat k * (5 - 2 * 2) /\ x < 550) /\
    (forall k, 5 + Z.of_nat k * (5 - 2 * 2) < 550 ->
               anchors !! k = Some (5 + Z.of_nat k * (5 - 2 * 2))).
Proof. split; [lia | apply (anchors_cover_axis 5 550 2); lia]. Defined.

(** With the window 8, the halo 2 and an axis of 30 points the stride is 4
    and the anchors are 8, 12, ..., 28. *)
Example anchors_stride_4 :
  anchor_range 8 30 2 = Ok [8; 12; 16; 20; 24; 28].
Proof. reflexivity. Qed.

End AnchorFacts.

(** ** The mini-batch generator *)

Module GeneratorFacts.
Import Py Batcher PyFacts.

Lemma map_fmap {B C : Type} (f : B -> C) (l : list B) : map f l = f <$> l.
Proof. reflexivity. Qed.

Lemma position_ok n i : 0 <= i < Z.of_nat n -> position n i = Ok (Z.to_nat i).
Proof.
  intros [Hlo Hhi]. unfold position.
  destruct (i <? 0) eqn:E; [apply Z.ltb_lt in E; lia|].
  assert ((0 <=? i) && (i <? Z.of_nat n) = true) as ->; [|reflexivity].
  apply andb_true_iff. split; [apply Z.leb_le | apply Z.ltb_lt]; lia.
Qed.

Lemma positions_ok n (idx : list Z) :
  Forall (fun i => 0 <= i < Z.of_nat n) idx ->
  positions n idx = Ok (map Z.to_nat idx).
Proof.
  unfold positions. induction 1 as [|i idx Hi _ IH]; simpl; [reflexivity|].
  rewrite (position_ok _ _ Hi). simpl. rewrite IH. reflexivity.
Qed.

Lemma to_nat_seqZ m n :
  0 <= m -> map Z.to_nat (seqZ m n) = seq (Z.to_nat m) (Z.to_nat n).
Proof.
  intros Hm. unfold seqZ. rewrite map_fmap, <- list_fmap_compose.
  replace (seq (Z.to_nat m) (Z.to_nat n))
    with (Nat.add (Z.to_nat m) <$> seq 0%nat (Z.to_nat n))
    by (rewrite fmap_add_seq; f_equal; lia).
  apply list_fmap_ext. intros _ i _. simpl. lia.
Qed.

Lemma positions_range2 n a b :
  0 <= a -> b <= Z.of_nat n ->
  positions n (range2 a b) = Ok (seq (Z.to_nat a) (Z.to_nat (b - a))).
Proof.
  intros Ha Hb. unfold range2. rewrite positions_ok.
  - rewrite to_nat_seqZ by lia. do 2 f_equal. lia.
  - apply Forall_seqZ. intros i Hi. lia.
Qed.

(** One step of a range with a positive step. *)
Lemma range_items_cons start stop step :
  0 < step -> start < stop ->
  map (fun k => start + k * step) (seqZ 0 (range_len start stop step))
  = start :: map (fun k => (start + step) + k * step)
                 (seqZ 0 (range_len (start + step) stop step)).
Proof.
  intros Hs Hlt.
  assert (range_len start stop step = Z.succ (range_len (start + step) stop step)) as Hlen.
  { unfold range_len.
    destruct (0 <? step) eqn:E; [|apply Z.ltb_ge in E; lia].
    destruct (start <? stop) eqn:E1; [|apply Z.ltb_ge in E1; lia].
    destruct (start + step <? stop) eqn:E2.
    - apply Z.ltb_lt in E2.
      replace (stop - start - 1) with ((stop - (start + step) - 1) + 1 * step) by lia.
      rewrite Z.div_add by lia. lia.
    - apply Z.ltb_ge in E2. rewrite Z.div_small by lia. reflexivity. }
  pose proof (range_len_nonneg (start + step) stop step ltac:(lia)) as Hnn.
  rewrite Hlen, seqZ_cons by lia. simpl map. f_equal; [lia|].
  rewrite Z.pred_succ.
  replace (Z.succ 0) with (1 + 0) by lia.
  rewrite <- fmap_add_seqZ, !map_fmap, <- list_fmap_compose.
  apply list_fmap_ext. intros _ k _. simpl. lia.
Qed.

Lemma range_items_nil start stop step :
  0 < step -> stop <= start ->
  map (fun k => start + k * step) (seqZ 0 (range_len start stop step)) = [].
Proof.
  intros Hs Hle. unfold range_len.
  destruct (0 <? step) eqn:E; [|apply Z.ltb_ge in E; lia].
  destruct (start <? stop) eqn:E1; [apply Z.ltb_lt in E1; lia|].
  reflexivity.
Qed.

Section Generator.
Context {A : Type}.
Implicit Types batch_set : Stacked A.

(** The mini-batch that starts at sample [n]. *)
Definition slice_at batch_set (batch_size n : Z) : Stacked A :=
  isel_batch batch_set (seq (Z.to_nat n) (Z.to_nat batch_size)).

Lemma isel_range_ok batch_set n batch_size :
  0 <= n -> 0 <= batch_size ->
  n + batch_size <= Z.of_nat (input_batch batch_set) ->
  isel_range batch_set n (n + batch_size) = Ok (slice_at batch_set batch_size n).
Proof.
  intros Hn Hb Hle. unfold isel_range, slice_at.
  rewrite positions_range2 by lia. simpl.
  replace (n + batch_size - n) with batch_size by lia. reflexivity.
Qed.

(** With a positive batch size the loop is the loop over
    [range(n, len - batch_size, batch_size)], and it ends: any fuel above the
    number of samples is enough. *)
Lemma batch_generator_from_range fuel batch_set batch_size n :
  0 < batch_size -> 0 <= n ->
  Z.max 0 (Z.of_nat (input_batch batch_set) - n) < Z.of_nat fuel ->
  batch_generator_from fuel batch_set batch_size n
  = Some (Ok (map (slice_at batch_set batch_size)
                  (map (fun k => n + k * batch_size)
                       (seqZ 0 (range_len n (Z.of_nat (input_batch batch_set) - batch_size)
                                          batch_size))))).
Proof.
  intros Hb. revert n. induction fuel as [|fuel IH]; intros n Hn Hfuel.
  - lia.
  - simpl batch_generator_from.
    destruct (n <? Z.of_nat (input_batch batch_set) - batch_size) eqn:E.
    + apply Z.ltb_lt in E.
      rewrite isel_range_ok by lia.
      rewrite IH by lia.
      rewrite (range_items_cons n) by lia. reflexivity.
    + apply Z.ltb_ge in E. rewrite range_items_nil by lia. reflexivity.
Qed.

(** The number of mini-batches: [(N - 1) / batch_size] for [N >= 1] samples. *)
Lemma batch_generator_total fuel batch_set batch_size :
  0 < batch_size ->
  (input_batch batch_set < fuel)%nat ->
  exists batches,
    batch_generator fuel batch_set batch_size = Some (Ok batches) /\
    batches = map (slice_at batch_set batch_size)
                  (map (fun k => k * batch_size)
                       (seqZ 0 (range_len 0 (Z.of_nat (input_batch batch_set) - batch_size)
                                          batch_size))) /\
    (1 <= Z.of_nat (input_batch batch_set) ->
     Z.of_nat (length batches) = (Z.of_nat (input_batch batch_set) - 1) / batch_size).
Proof.
  intros Hb Hfuel. eexists. split; [|split; [reflexivity|]].
  - unfold batch_generator. rewrite batch_generator_from_range by lia.
    do 3 f_equal.
  - intros HN. rewrite !length_map, length_seqZ.
    pose proof (range_len_nonneg 0 (Z.of_nat (input_batch batch_set) - batch_size)
                  batch_size ltac:(lia)) as Hnn.
    rewrite Z2Nat.id by lia. unfold range_len.
    destruct (0 <? batch_size) eqn:E; [|apply Z.ltb_ge in E; lia].
    destruct (0 <? Z.of_nat (input_batch batch_set) - batch_size) eqn:E1.
    + apply Z.ltb_lt in E1.
      replace (Z.of_nat (input_batch batch_set) - 1)
        with ((Z.of_nat (input_batch batch_set) - batch_size - 0 - 1) + 1 * batch_size) by lia.
      rewrite Z.div_add by lia. reflexivity.
    + apply Z.ltb_ge in E1. rewrite Z.div_small by lia. reflexivity.
Qed.

(** When [batch_size] divides the number of samples the generator stops one
    full mini-batch short of [N / batch_size]. *)
Lemma batch_generator_short_by_one fuel batch_set batch_size batches :
  0 < batch_size -> (input_batch batch_set < fuel)%nat ->
  1 <= Z.of_nat (input_batch batch_set) ->
  Z.of_nat (input_batch batch_set) mod batch_size = 0 ->
  batch_generator fuel batch_set batch_size = Some (Ok batches) ->
  Z.of_nat (length batches) = Z.of_nat (input_batch batch_set) / batch_size - 1.
Proof.
  intros Hb Hfuel HN Hmod Hrun.
  destruct (batch_generator_total fuel batch_set batch_size Hb Hfuel)
    as (bs & Hbs & _ & Hlen).
  rewrite Hrun in Hbs. injection Hbs as <-. rewrite (Hlen HN).
  pose proof (Z.div_mod (Z.of_nat (input_batch batch_set)) batch_size ltac:(lia)) as Hdm.
  rewrite Hmod, Z.add_0_r in Hdm.
  set (q := Z.of_nat (input_batch batch_set) / batch_size) in *.
  assert (1 <= q) by nia.
  replace (Z.of_nat (input_batch batch_set) - 1)
    with ((batch_size - 1) + (q - 1) * batch_size) by nia.
  rewrite Z.div_add by lia. rewrite Z.div_small by lia. lia.
Qed.

(** When [batch_size] does not divide the number of samples the generator
    yields [N / batch_size] mini-batches and drops the partial one only. *)
Lemma batch_generator_floor fuel batch_set batch_size batches :
  0 < batch_size -> (input_batch batch_set < fuel)%nat ->
  Z.of_nat (input_batch batch_set) mod batch_size <> 0 ->
  batch_generator fuel batch_set batch_size = Some (Ok batches) ->
  Z.of_nat (length batches) = Z.of_nat (input_batch batch_set) / batch_size.
Proof.
  intros Hb Hfuel Hmod Hrun.
  destruct (batch_generator_total fuel batch_set batch_size Hb Hfuel)
    as (bs & Hbs & _ & Hlen).
  rewrite Hrun in Hbs. injection Hbs as <-.
  assert (1 <= Z.of_nat (input_batch batch_set)) as HN.
  { destruct (input_batch batch_set); [|lia]. rewrite Z.mod_0_l in Hmod; lia. }
  rewrite (Hlen HN).
  pose proof (Z.div_mod (Z.of_nat (input_batch batch_set)) batch_size ltac:(lia)) as Hdm.
  pose proof (Z.mod_pos_bound (Z.of_nat (input_batch batch_set)) batch_size Hb) as Hbound.
  set (q := Z.of_nat (input_batch batch_set) / batch_size) in *.
  set (r := Z.of_nat (input_batch batch_set) mod batch_size) in *.
  replace (Z.of_nat (input_batch batch_set) - 1) with ((r - 1) + q * batch_size) by lia.
  rewrite Z.div_add by lia. rewrite Z.div_small by lia. lia.
Qed.

End Generator.

(** Eight samples of one variable on 1 x 1 windows, sample [k] holding [k]. *)
Definition samples8 : Stacked Z :=
  {| input_batch := 8;
     s_nlats := 1;
     s_nlons := 1;
     s_vars := {[ "SST"%string := map (fun k => [[Some k]]) (seqZ 0 8) ]} |}.

(** C1 on the code: with eight patches and [batch_size = 4] two full
    mini-batches fit ([8 / 4 = 2], nothing left over), yet the generator yields
    one mini-batch only, patches 0 to 3; the full batch of patches 4 to 7 is
    never yielded (the loop tests [n < len - batch_size], strictly). *)
Theorem batch_generator_drops_full_batch :
  8 / 4 = 2 /\ 8 mod 4 = 0 /\
  exists b,
    batch_generator 9 samples8 4 = Some (Ok [b]) /\
    input_batch b = 4%nat /\
    s_vars b !! "SST"%string
    = Some [[[Some 0]]; [[Some 1]]; [[Some 2]]; [[Some 3]]].
Proof.
  split; [reflexivity|]. split; [reflexivity|].
  eexists. split; [vm_compute; reflexivity|]. split; reflexivity.
Qed.

End GeneratorFacts.

(** ** The rolling / construct / select / stack / dropna chain *)

Module BatchFacts.
Import Py Batcher PyFacts AnchorFacts GeneratorFacts.

Lemma bind_ok {B C : Type} (m : result B) (k : B -> result C) (c : C) :
  bind m k = Ok c <-> exists b, m = Ok b /\ k b = Ok c.
Proof.
  destruct m as [b|e]; simpl.
  - split; [intros H; exists b; auto | intros (b' & [= <-] & H); exact H].
  - split; [discriminate | intros (b' & [=] & _)].
Qed.

Lemma mapM_ok {B C : Type} (f : B -> result C) (xs : list B) (ys : list C) :
  mapM f xs = Ok ys <-> Forall2 (fun x y => f x = Ok y) xs ys.
Proof.
  revert ys. induction xs as [|x xs IH]; intros ys; simpl.
  - split; [intros [= <-]; constructor | intros H; inversion H; reflexivity].
  - rewrite bind_ok. split.
    + intros (y & Hy & H). apply bind_ok in H. destruct H as (ys' & Hys & [= <-]).
      constructor; [exact Hy | apply IH, Hys].
    + intros H. inversion H as [|? y ? ys' Hy Hys]; subst.
      exists y. split; [exact Hy|]. apply bind_ok. exists ys'.
      split; [apply IH, Hys | reflexivity].
Qed.

Lemma position_inv n i p :
  position n i = Ok p -> 0 <= i -> p = Z.to_nat i /\ i < Z.of_nat n.
Proof.
  unfold position. intros H Hi.
  destruct (i <? 0) eqn:E; [apply Z.ltb_lt in E; lia|].
  destruct ((0 <=? i) && (i <? Z.of_nat n)) eqn:E1; [|discriminate].
  apply andb_true_iff in E1. destruct E1 as [_ E1]. apply Z.ltb_lt in E1.
  injection H as <-. split; [reflexivity | exact E1].
Qed.

Lemma position_raises_above n i : Z.of_nat n <= i -> position n i = Raise IndexError.
Proof.
  intros Hi. unfold position.
  destruct (i <? 0) eqn:E; [apply Z.ltb_lt in E; lia|].
  destruct (i <? Z.of_nat n) eqn:E1; [apply Z.ltb_lt in E1; lia|].
  rewrite andb_false_r. reflexivity.
Qed.

(** Positions that pass the check and are not negative are the indexer's
    own values. *)
Lemma positions_inv n (idx : list Z) ps :
  positions n idx = Ok ps ->
  Forall (fun i => 0 <= i) idx ->
  ps = map Z.to_nat idx /\ Forall (fun i => i < Z.of_nat n) idx.
Proof.
  unfold positions. rewrite mapM_ok. induction 1 as [|i p idx ps Hp _ IH].
  - intros _. split; [reflexivity | constructor].
  - intros Hnn. inversion Hnn as [|? ? Hi Hrest]; subst.
    destruct (position_inv _ _ _ Hp Hi) as [-> Hlt].
    destruct (IH Hrest) as [-> Hall]. split; [reflexivity | constructor; assumption].
Qed.

Lemma sum_list_map_cons {B : Type} (f : B -> nat) (x : B) (l : list B) :
  sum_list (map f (x :: l)) = (f x + sum_list (map f l))%nat.
Proof. reflexivity. Qed.

Lemma sum_list_map_le {B : Type} (f g : B -> nat) (l : list B) :
  (forall x, x ∈ l -> (f x <= g x)%nat) ->
  (sum_list (map f l) <= sum_list (map g l))%nat.
Proof.
  induction l as [|x l IH]; intros Hle; [reflexivity|].
  rewrite !sum_list_map_cons.
  assert (f x <= g x)%nat by (apply Hle; left).
  assert (sum_list (map f l) <= sum_list (map g l))%nat
    by (apply IH; intros y Hy; apply Hle; now right).
  lia.
Qed.

(** Sums of pointwise-bounded terms agree only when every term does. *)
Lemma sum_list_eq_pointwise {B : Type} (f g : B -> nat) (l : list B) :
  (forall x, x ∈ l -> (f x <= g x)%nat) ->
  (sum_list (map f l) = sum_list (map g l) <-> forall x, x ∈ l -> f x = g x).
Proof.
  induction l as [|x l IH]; intros Hle.
  - split; [intros _ y Hy; inversion Hy | reflexivity].
  - assert (forall y, y ∈ l -> (f y <= g y)%nat) as Hle'
      by (intros y Hy; apply Hle; now right).
    pose proof (sum_list_map_le f g l Hle') as Hsum.
    assert (f x <= g x)%nat as Hx by (apply Hle; left).
    specialize (IH Hle'). rewrite !sum_list_map_cons. split.
    + intros Heq y Hy.
      inversion Hy; subst; [lia | apply IH; [lia | assumption]].
    + intros Hall.
      assert (f x = g x) as Hfx by (apply Hall; left).
      assert (sum_list (map f l) = sum_list (map g l)) as Hrest
        by (apply IH; intros y Hy; apply Hall; now right).
      lia.
Qed.

Lemma sum_list_map_const {B : Type} (c : nat) (l : list B) :
  sum_list (map (fun _ => c) l) = (length l * c)%nat.
Proof.
  induction l as [|x l IH]; [reflexivity|].
  rewrite sum_list_map_cons, IH. simpl. lia.
Qed.

Section Windows.
Context {A : Type}.
Implicit Types (g w : grid A) (row : list (cell A)).

(** The number of cells of a window. *)
Definition cells w : nat := sum_list (map (fun row => length row) w).

Lemma count_row_le row :
  (length (List.filter (fun c => negb (isnan c)) row) <= length row)%nat.
Proof.
  induction row as [|c row IH]; simpl; [lia|].
  destruct (negb (isnan c)); simpl; lia.
Qed.

Lemma count_row_full row :
  length (List.filter (fun c => negb (isnan c)) row) = length row
  <-> forall c, c ∈ row -> isnan c = false.
Proof.
  induction row as [|c row IH]; simpl.
  - split; [intros _ c Hc; inversion Hc | reflexivity].
  - pose proof (count_row_le row) as Hle.
    destruct (isnan c) eqn:E; simpl.
    + split; [lia|]. intros H. specialize (H c ltac:(left)). congruence.
    + split.
      * intros H c' Hc'. inversion Hc'; subst; [exact E|].
        apply IH; [lia | assumption].
      * intros H. f_equal. apply IH. intros c' Hc'. apply H. now right.
Qed.

(** A window has [count == size] exactly when none of its cells is
    not-a-number. *)
Lemma count_window_full w :
  count_window w = cells w
  <-> forall row, row ∈ w -> forall c, c ∈ row -> isnan c = false.
Proof.
  unfold count_window, cells.
  rewrite sum_list_eq_pointwise by (intros row _; apply count_row_le).
  split; intros H row Hrow.
  - apply count_row_full. exact (H row Hrow).
  - apply count_row_full. exact (H row Hrow).
Qed.

Lemma count_window_le w : (count_window w <= cells w)%nat.
Proof. apply sum_list_map_le. intros row _. apply count_row_le. Qed.

Lemma cells_window_at nlats nlons g i j :
  cells (window_at nlats nlons g i j) = (Z.to_nat nlats * Z.to_nat nlons)%nat.
Proof.
  unfold cells, window_at. rewrite map_map.
  erewrite map_ext; [|intros a; rewrite length_map, length_seqZ; reflexivity].
  rewrite sum_list_map_const, length_seqZ. reflexivity.
Qed.

(** The cells of the window that ends at [(r, c)] are the grid cells of the
    rows [r - nlats + 1 .. r] and columns [c - nlons + 1 .. c]. *)
Lemma window_at_defined nlats nlons g r c :
  (forall row, row ∈ window_at nlats nlons g r c ->
               forall x, x ∈ row -> isnan x = false)
  <-> (forall y x, r - nlats < y <= r -> c - nlons < x <= c ->
                   cell_at g y x <> None).
Proof.
  unfold window_at. split.
  - intros H y x Hy Hx.
    assert (isnan (cell_at g y x) = false) as Hc.
    { apply (H (map (fun b => cell_at g y (c - (nlons - 1) + b)) (seqZ 0 nlons))).
      - apply list_elem_of_In, in_map_iff. exists (y - (r - (nlats - 1))).
        split; [|apply list_elem_of_In, elem_of_seqZ; lia].
        apply map_ext. intros b. f_equal. lia.
      - apply list_elem_of_In, in_map_iff. exists (x - (c - (nlons - 1))).
        split; [f_equal; lia|]. apply list_elem_of_In, elem_of_seqZ. lia. }
    intros Hn. rewrite Hn in Hc. discriminate.
  - intros H row Hrow x Hx.
    apply list_elem_of_In, in_map_iff in Hrow. destruct Hrow as (a & <- & Ha).
    apply list_elem_of_In, in_map_iff in Hx. destruct Hx as (b & <- & Hb).
    apply list_elem_of_In, elem_of_seqZ in Ha, Hb.
    specialize (H (r - (nlats - 1) + a) (c - (nlons - 1) + b) ltac:(lia) ltac:(lia)).
    destruct (cell_at _ _ _); [reflexivity | congruence].
Qed.

End Windows.

(** *** Anchors that pass the bounds check *)

Lemma range_zero_step start stop : range start stop 0 = Raise ValueError.
Proof. reflexivity. Qed.

Lemma range_neg_empty start stop step :
  step < 0 -> start <= stop -> range start stop step = Ok [].
Proof.
  intros Hs Hle. unfold range.
  destruct (step =? 0) eqn:E; [apply Z.eqb_eq in E; lia|].
  rewrite range_len_neg_empty by lia. reflexivity.
Qed.

Lemma range_neg_head start stop step :
  step < 0 -> stop < start ->
  exists rest, range start stop step = Ok (start :: rest).
Proof.
  intros Hs Hlt. unfold range.
  destruct (step =? 0) eqn:E; [apply Z.eqb_eq in E; lia|].
  assert (0 < range_len start stop step) as Hlen.
  { unfold range_len.
    destruct (0 <? step) eqn:E1; [apply Z.ltb_lt in E1; lia|].
    destruct (stop <? start) eqn:E2; [|apply Z.ltb_ge in E2; lia].
    assert (0 <= (start - stop - 1) / - step) by (apply Z.div_pos; lia). lia. }
  rewrite seqZ_cons by lia. simpl map. eexists. do 2 f_equal. lia.
Qed.

(** Whatever the sign of the stride, anchors that the selection accepts lie
    in [[n, axis_len)], and their positions are the anchors themselves. *)
Lemma accepted_anchors n axis_len halo anchors ps :
  0 < n ->
  anchor_range n (Z.of_nat axis_len) halo = Ok anchors ->
  positions axis_len anchors = Ok ps ->
  Forall (fun r => n <= r < Z.of_nat axis_len) anchors /\ ps = map Z.to_nat anchors.
Proof.
  intros Hn Hrange Hpos. unfold anchor_range in Hrange.
  assert (Forall (fun r => n <= r) anchors) as Hlow.
  { destruct (Z.lt_trichotomy (stride n halo) 0) as [Hs|[Hs|Hs]].
    - destruct (Z.le_gt_cases n (Z.of_nat axis_len)) as [Hle|Hgt].
      + rewrite range_neg_empty in Hrange by lia. injection Hrange as <-. constructor.
      + destruct (range_neg_head n (Z.of_nat axis_len) _ Hs ltac:(lia)) as (rest & Hr).
        rewrite Hr in Hrange. injection Hrange as <-.
        unfold positions in Hpos. simpl in Hpos.
        rewrite position_raises_above in Hpos by lia. discriminate.
    - rewrite Hs, range_zero_step in Hrange. discriminate.
    - rewrite range_pos in Hrange by lia. injection Hrange as <-.
      apply Forall_forall. intros x Hx.
      apply elem_of_range_pos in Hx; [|lia]. destruct Hx as (k & Hk & -> & _). nia. }
  assert (Forall (fun r => 0 <= r) anchors) as Hnn
    by (eapply Forall_impl; [exact Hlow | simpl; intros; lia]).
  destruct (positions_inv _ _ _ Hpos Hnn) as [-> Hup]. split; [|reflexivity].
  apply Forall_and. split; assumption.
Qed.

(** *** The candidate patches, in stacking order *)

(** The anchor pairs as [stack] enumerates them: [nlat] outer, [nlon] inner. *)
Definition anchor_pairs (nlat_range nlon_range : list Z) : list (Z * Z) :=
  concat (map (fun r => map (fun c => (r, c)) nlon_range) nlat_range).

Lemma length_anchor_pairs nlat_range nlon_range :
  length (anchor_pairs nlat_range nlon_range)
  = (length nlat_range * length nlon_range)%nat.
Proof.
  unfold anchor_pairs. induction nlat_range as [|r rs IH]; simpl; [reflexivity|].
  rewrite length_app, length_map, IH. reflexivity.
Qed.

Lemma elem_of_anchor_pairs nlat_range nlon_range r c :
  (r, c) ∈ anchor_pairs nlat_range nlon_range <-> r ∈ nlat_range /\ c ∈ nlon_range.
Proof.
  unfold anchor_pairs. rewrite !list_elem_of_In, in_concat. split.
  - intros (l & Hl & Hrc). apply in_map_iff in Hl. destruct Hl as (r' & <- & Hr').
    apply in_map_iff in Hrc. destruct Hrc as (c' & [= <- <-] & Hc'). auto.
  - intros [Hr Hc]. exists (map (fun c => (r, c)) nlon_range). split.
    + apply in_map_iff. exists r. auto.
    + apply in_map_iff. exists c. auto.
Qed.

Lemma gather_tabulate {B : Type} `{Inhabited B} (f : Z -> B) (n : nat) (idx : list Z) :
  Forall (fun i => 0 <= i < Z.of_nat n) idx ->
  gather (map f (seqZ 0 (Z.of_nat n))) (map Z.to_nat idx) = map f idx.
Proof.
  unfold gather. induction 1 as [|i idx Hi _ IH]; simpl; [reflexivity|].
  rewrite IH. f_equal.
  rewrite map_fmap.
  rewrite (list_lookup_total_fmap f (seqZ 0 (Z.of_nat n)) (Z.to_nat i))
    by (rewrite length_seqZ; lia).
  rewrite lookup_total_seqZ_lt by lia. f_equal. lia.
Qed.

Section Pipeline.
Context {A : Type}.
Implicit Types (ds : Dataset A) (g : grid A).

(** The patch of one variable at an anchor pair. *)
Definition patch (nlats nlons : Z) g (rc : Z * Z) : grid A :=
  window_at nlats nlons g rc.1 rc.2.

(** No cell under the window that ends at [(r, c)] is not-a-number, in any
    data variable. *)
Definition patch_defined ds (nlats nlons r c : Z) : Prop :=
  forall v g, data_vars ds !! v = Some g ->
  forall y x, r - nlats < y <= r -> c - nlons < x <= c -> cell_at g y x <> None.

(** The stacked dataset that holds the patches of the given anchor pairs. *)
Definition patches_of ds (nlats nlons : Z) (pairs : list (Z * Z)) : Stacked A :=
  {| input_batch := length pairs;
     s_nlats := Z.to_nat nlats;
     s_nlons := Z.to_nat nlons;
     s_vars := (fun g => map (patch nlats nlons g) pairs) <$> data_vars ds |}.

Lemma selected_windows nlats nlons g (nlat nlon : nat) nlat_range nlon_range :
  Forall (fun r => 0 <= r < Z.of_nat nlat) nlat_range ->
  Forall (fun c => 0 <= c < Z.of_nat nlon) nlon_range ->
  concat (map (fun row => gather row (map Z.to_nat nlon_range))
              (gather (map (fun i => map (fun j => window_at nlats nlons g i j)
                                         (seqZ 0 (Z.of_nat nlon)))
                           (seqZ 0 (Z.of_nat nlat)))
                      (map Z.to_nat nlat_range)))
  = map (patch nlats nlons g) (anchor_pairs nlat_range nlon_range).
Proof.
  intros Hlat Hlon. rewrite gather_tabulate by assumption.
  rewrite map_map. unfold anchor_pairs. rewrite concat_map, map_map.
  f_equal. apply map_ext. intros r.
  rewrite gather_tabulate by assumption. rewrite map_map. reflexivity.
Qed.

(** On anchors within bounds, construct / select / stack lists the patches of
    the anchor pairs, row-major. *)
Lemma stack_isel_construct ds nlats nlons nlat_range nlon_range :
  Forall (fun r => 0 <= r < Z.of_nat (latlen ds)) nlat_range ->
  Forall (fun c => 0 <= c < Z.of_nat (lonlen ds)) nlon_range ->
  exists w,
    isel_anchors (construct ds nlats nlons) nlat_range nlon_range = Ok w /\
    stack w = patches_of ds nlats nlons (anchor_pairs nlat_range nlon_range).
Proof.
  intros Hlat Hlon. unfold isel_anchors. simpl.
  rewrite !positions_ok by assumption. simpl. eexists. split; [reflexivity|].
  unfold stack, patches_of. simpl.
  rewrite length_anchor_pairs, !length_map. f_equal.
  rewrite <- !map_fmap_compose. apply map_fmap_ext. intros v g _. simpl.
  apply selected_windows; assumption.
Qed.

(** *** What [dropna] keeps *)

Lemma patches_of_lookup ds nlats nlons pairs v :
  s_vars (patches_of ds nlats nlons pairs) !! v
  = (fun g => map (patch nlats nlons g) pairs) <$> data_vars ds !! v.
Proof. unfold patches_of. simpl. apply lookup_fmap. Qed.

Lemma patches_of_sample ds nlats nlons pairs v ws k rc :
  s_vars (patches_of ds nlats nlons pairs) !! v = Some ws ->
  pairs !! k = Some rc ->
  exists g, data_vars ds !! v = Some g /\ ws !!! k = patch nlats nlons g rc.
Proof.
  rewrite patches_of_lookup. intros Hws Hk.
  destruct (data_vars ds !! v) as [g|] eqn:Hg; [|discriminate].
  simpl in Hws. injection Hws as <-. exists g. split; [reflexivity|].
  apply list_lookup_total_correct. rewrite map_fmap, list_lookup_fmap, Hk.
  reflexivity.
Qed.

(** [dropna]'s test [count == size] at a sample is the absence of
    not-a-number under the sample's window, in every variable. *)
Lemma keep_iff_defined ds nlats nlons pairs k rc :
  pairs !! k = Some rc ->
  dropna_count (patches_of ds nlats nlons pairs) k
  = dropna_size (patches_of ds nlats nlons pairs)
  <-> patch_defined ds nlats nlons rc.1 rc.2.
Proof.
  intros Hk. unfold dropna_count, dropna_size.
  rewrite sum_list_eq_pointwise.
  - split.
    + intros H v g Hv. apply window_at_defined, count_window_full.
      rewrite cells_window_at.
      assert ((v, map (patch nlats nlons g) pairs)
              ∈ map_to_list (s_vars (patches_of ds nlats nlons pairs))) as Hin
        by (apply elem_of_map_to_list; rewrite patches_of_lookup, Hv; reflexivity).
      specialize (H _ Hin). simpl in H. rewrite <- H.
      f_equal. symmetry. apply list_lookup_total_correct.
      rewrite map_fmap, list_lookup_fmap, Hk. reflexivity.
    + intros H [v ws] Hin. apply elem_of_map_to_list in Hin. simpl.
      destruct (patches_of_sample _ _ _ _ _ _ _ _ Hin Hk) as (g & Hg & ->).
      unfold patch. rewrite <- (cells_window_at nlats nlons g rc.1 rc.2).
      apply count_window_full, window_at_defined. exact (H v g Hg).
  - intros [v ws] Hin. apply elem_of_map_to_list in Hin. simpl.
    destruct (patches_of_sample _ _ _ _ _ _ _ _ Hin Hk) as (g & Hg & ->).
    unfold patch. rewrite <- (cells_window_at nlats nlons g rc.1 rc.2).
    apply count_window_le.
Qed.

Lemma elem_of_dropna_keep (s : Stacked A) k :
  In k (dropna_keep s)
  <-> (k < input_batch s)%nat /\ dropna_count s k = dropna_size s.
Proof.
  unfold dropna_keep. rewrite filter_In, in_seq, Nat.eqb_eq. lia.
Qed.

End Pipeline.

(** Fetching the positions a filter keeps preserves the order of the list. *)
Lemma gather_filter_sublist {B : Type} `{Inhabited B} (P : nat -> bool) (pre xs : list B) :
  gather (pre ++ xs) (List.filter P (seq (length pre) (length xs))) `sublist_of` xs.
Proof.
  revert pre. induction xs as [|x xs IH]; intros pre; simpl.
  - constructor.
  - specialize (IH (pre ++ [x])).
    rewrite <- app_assoc, length_app in IH. simpl in IH.
    rewrite Nat.add_1_r in IH.
    destruct (P (length pre)).
    + unfold gather in *. simpl.
      rewrite (list_lookup_total_middle pre xs x (length pre) eq_refl).
      apply sublist_skip, IH.
    + apply sublist_cons, IH.
Qed.

Section Dropna.
Context {A : Type}.
Implicit Types (ds : Dataset A) (g : grid A).

(** The anchor pairs whose patches [dropna] keeps. *)
Definition kept_pairs ds (nlats nlons : Z) (pairs : list (Z * Z)) : list (Z * Z) :=
  gather pairs (dropna_keep (patches_of ds nlats nlons pairs)).

Lemma kept_pairs_sublist ds nlats nlons pairs :
  kept_pairs ds nlats nlons pairs `sublist_of` pairs.
Proof. apply (gather_filter_sublist _ [] pairs). Qed.

Lemma elem_of_kept_pairs ds nlats nlons pairs rc :
  rc ∈ pairs ->
  (rc ∈ kept_pairs ds nlats nlons pairs <-> patch_defined ds nlats nlons rc.1 rc.2).
Proof.
  intros Hrc. unfold kept_pairs, gather. rewrite list_elem_of_In, in_map_iff. split.
  - intros (k & <- & Hk). apply elem_of_dropna_keep in Hk. destruct Hk as [Hlt Heq].
    simpl in Hlt. eapply keep_iff_defined; [|exact Heq].
    apply list_lookup_lookup_total_lt, Hlt.
  - intros Hdef. apply list_elem_of_lookup in Hrc. destruct Hrc as (k & Hk).
    exists k. split; [apply list_lookup_total_correct, Hk|].
    apply elem_of_dropna_keep. split.
    + simpl. apply lookup_lt_Some in Hk. exact Hk.
    + apply (keep_iff_defined _ _ _ _ _ _ Hk), Hdef.
Qed.

(** [dropna] on the patches of a list of anchor pairs leaves the patches of
    the kept pairs. *)
Lemma dropna_patches_of ds nlats nlons pairs :
  dropna (patches_of ds nlats nlons pairs)
  = patches_of ds nlats nlons (kept_pairs ds nlats nlons pairs).
Proof.
  unfold dropna, isel_batch, kept_pairs.
  set (keep := dropna_keep (patches_of ds nlats nlons pairs)).
  assert (forall k, In k keep -> (k < length pairs)%nat) as Hlt
    by (intros k Hk; apply elem_of_dropna_keep in Hk; exact (proj1 Hk)).
  simpl. unfold patches_of. f_equal.
  - unfold gather. rewrite length_map. reflexivity.
  - rewrite <- map_fmap_compose. apply map_fmap_ext. intros v g _. simpl.
    unfold gather. rewrite map_map. apply map_ext_in. intros k Hk.
    rewrite map_fmap. apply list_lookup_total_fmap. exact (Hlt k Hk).
Qed.

(** The success of the batch cell, taken apart: both ranges exist, the
    windows are positive, every anchor lies in [[n, axis_len)], and the batch
    holds the patches of the kept anchor pairs. *)
Lemma batch_cell_ok ds nlats nlons halo batch :
  batch_cell ds nlats nlons halo = Ok batch <->
  exists nlat_range nlon_range,
    anchor_range nlats (Z.of_nat (latlen ds)) halo = Ok nlat_range /\
    anchor_range nlons (Z.of_nat (lonlen ds)) halo = Ok nlon_range /\
    0 < nlats /\ 0 < nlons /\
    Forall (fun r => nlats <= r < Z.of_nat (latlen ds)) nlat_range /\
    Forall (fun c => nlons <= c < Z.of_nat (lonlen ds)) nlon_range /\
    batch = patches_of ds nlats nlons
              (kept_pairs ds nlats nlons (anchor_pairs nlat_range nlon_range)).
Proof.
  unfold batch_cell. split.
  - intros H.
    apply bind_ok in H. destruct H as (nlon_range & Hlon & H).
    apply bind_ok in H. destruct H as (nlat_range & Hlat & H).
    apply bind_ok in H. destruct H as (r & Hroll & H).
    apply bind_ok in H. destruct H as (w & Hsel & [= <-]).
    unfold rolling in Hroll.
    destruct ((nlats <=? 0) || (nlons <=? 0)) eqn:E; [discriminate|].
    injection Hroll as <-.
    apply orb_false_iff in E. destruct E as [E1 E2].
    apply Z.leb_gt in E1, E2.
    pose proof Hsel as Hsel'. unfold isel_anchors in Hsel'. simpl in Hsel'.
    apply bind_ok in Hsel'. destruct Hsel' as (ps & Hps & Hsel').
    apply bind_ok in Hsel'. destruct Hsel' as (qs & Hqs & _).
    destruct (accepted_anchors _ _ _ _ _ E1 Hlat Hps) as [Hlat_in _].
    destruct (accepted_anchors _ _ _ _ _ E2 Hlon Hqs) as [Hlon_in _].
    exists nlat_range, nlon_range. repeat (split; [assumption|]).
    destruct (stack_isel_construct ds nlats nlons nlat_range nlon_range)
      as (w' & Hw' & Hstack).
    { eapply Forall_impl; [exact Hlat_in | simpl; intros; lia]. }
    { eapply Forall_impl; [exact Hlon_in | simpl; intros; lia]. }
    rewrite Hw' in Hsel. injection Hsel as <-.
    rewrite Hstack. apply dropna_patches_of.
  - intros (nlat_range & nlon_range & Hlat & Hlon & Hn1 & Hn2 & Hlat_in & Hlon_in & ->).
    rewrite Hlon, Hlat. simpl. unfold rolling.
    assert ((nlats <=? 0) || (nlons <=? 0) = false) as ->.
    { apply orb_false_iff. split; apply Z.leb_gt; assumption. }
    simpl.
    destruct (stack_isel_construct ds nlats nlons nlat_range nlon_range)
      as (w' & Hw' & Hstack).
    { eapply Forall_impl; [exact Hlat_in | simpl; intros; lia]. }
    { eapply Forall_impl; [exact Hlon_in | simpl; intros; lia]. }
    rewrite Hw'. simpl. rewrite Hstack, dropna_patches_of. reflexivity.
Qed.

End Dropna.

(** *** Patch exclusion *)

(** A grid given by its cells. *)
Definition grid_of {A : Type} (nlat nlon : Z) (f : Z -> Z -> cell A) : grid A :=
  map (fun i => map (fun j => f i j) (seqZ 0 nlon)) (seqZ 0 nlat).

(** A 5 x 5 dataset: [SST] is undefined at (1,1) and at (0,4), [U] is defined
    everywhere. *)
Definition ds5 : Dataset Z :=
  {| latlen := 5;
     lonlen := 5;
     data_vars :=
       {[ "SST"%string :=
            grid_of 5 5 (fun i j =>
              if ((i =? 1) && (j =? 1)) || ((i =? 0) && (j =? 4)) then None
              else Some (10 * i + j));
          "U"%string := grid_of 5 5 (fun i j => Some (100 + 10 * i + j)) ]} |}.

(** C4: the batch holds, in stacking order, the patches of exactly those
    anchor pairs under whose window no data variable has a not-a-number:
    such a patch always appears, any other never does. (The windows of the
    anchors lie inside the grid, so the padding of the rolling construction is
    never under one.) *)
Theorem dropna_keeps_defined_patches {A : Type} (ds : Dataset A)
    (nlats nlons halo : Z) (batch : Stacked A) :
  batch_cell ds nlats nlons halo = Ok batch ->
  exists nlat_range nlon_range kept,
    anchor_range nlats (Z.of_nat (latlen ds)) halo = Ok nlat_range /\
    anchor_range nlons (Z.of_nat (lonlen ds)) halo = Ok nlon_range /\
    Forall (fun r => nlats <= r < Z.of_nat (latlen ds)) nlat_range /\
    Forall (fun c => nlons <= c < Z.of_nat (lonlen ds)) nlon_range /\
    kept `sublist_of` anchor_pairs nlat_range nlon_range /\
    (forall r c, r ∈ nlat_range -> c ∈ nlon_range ->
       ((r, c) ∈ kept <-> patch_defined ds nlats nlons r c)) /\
    input_batch batch = length kept /\
    (forall v, s_vars batch !! v
               = (fun g => map (patch nlats nlons g) kept) <$> data_vars ds !! v).
Proof.
  intros H. apply batch_cell_ok in H.
  destruct H as (nlat_range & nlon_range & Hlat & Hlon & _ & _ & Hlat_in & Hlon_in & ->).
  exists nlat_range, nlon_range,
    (kept_pairs ds nlats nlons (anchor_pairs nlat_range nlon_range)).
  split; [exact Hlat|]. split; [exact Hlon|].
  split; [exact Hlat_in|]. split; [exact Hlon_in|].
  split; [apply kept_pairs_sublist|]. split; [|split].
  - intros r c Hr Hc.
    apply (elem_of_kept_pairs ds nlats nlons _ (r, c)).
    apply elem_of_anchor_pairs. auto.
  - reflexivity.
  - intros v. apply patches_of_lookup.
Qed.

Lemma dropna_keeps_defined_patches_witness :
  exists batch,
    batch_cell ds5 2 2 0 = Ok batch /\
    exists nlat_range nlon_range kept,
      anchor_range 2 (Z.of_nat (latlen ds5)) 0 = Ok nlat_range /\
      anchor_range 2 (Z.of_nat (lonlen ds5)) 0 = Ok nlon_range /\
      Forall (fun r => 2 <= r < Z.of_nat (latlen ds5)) nlat_range /\
      Forall (fun c => 2 <= c < Z.of_nat (lonlen ds5)) nlon_range /\
      kept `sublist_of` anchor_pairs nlat_range nlon_range /\
      (forall r c, r ∈ nlat_range -> c ∈ nlon_range ->
         ((r, c) ∈ kept <-> patch_defined ds5 2 2 r c)) /\
      input_batch batch = length kept /\
      (forall v, s_vars batch !! v
                 = (fun g => map (patch 2 2 g) kept) <$> data_vars ds5 !! v).
Proof.
  eexists. split; [vm_compute; reflexivity|].
  apply (dropna_keeps_defined_patches ds5 2 2 0). vm_compute. reflexivity.
Defined.

(** On [ds5] with 2 x 2 windows: of the four anchor pairs, the one whose
    window covers the undefined cell (1,1) is gone; the undefined cell (0,4)
    lies under no window and costs nothing. *)
Example ds5_batch :
  exists batch,
    batch_cell ds5 2 2 0 = Ok batch /\
    input_batch batch = 3%nat /\
    s_vars batch !! "U"%string
    = Some [ [[Some 113; Some 114]; [Some 123; Some 124]];
             [[Some 131; Some 132]; [Some 141; Some 142]];
             [[Some 133; Some 134]; [Some 143; Some 144]] ].
Proof. eexists. split; [vm_compute; reflexivity|]. split; reflexivity. Qed.

(** *** Windows no larger than twice the halo *)

(** A window that fits its axis and a non-zero stride: the range exists and
    its anchors lie in [[n, axis_len)]; it is empty when the stride is
    negative. *)
Lemma anchor_range_fits n axis_len halo :
  n <> 2 * halo -> n <= axis_len ->
  exists anchors,
    anchor_range n axis_len halo = Ok anchors /\
    Forall (fun r => n <= r < axis_len) anchors /\
    (n < 2 * halo -> anchors = []).
Proof.
  intros Hne Hfit. unfold anchor_range.
  destruct (Z.lt_ge_cases n (2 * halo)) as [Hlt|Hge].
  - exists []. split; [apply range_neg_empty; unfold stride; lia|].
    split; [constructor | reflexivity].
  - assert (0 < stride n halo) as Hs by (unfold stride; lia).
    eexists. split; [apply range_pos, Hs|]. split; [|lia].
    apply Forall_forall. intros x Hx.
    apply elem_of_range_pos in Hx; [|exact Hs].
    destruct Hx as (k & Hk & -> & Hlt). nia.
Qed.

Lemma batch_cell_zero_stride {A : Type} (ds : Dataset A) nlats nlons halo :
  nlats = 2 * halo \/ nlons = 2 * halo ->
  batch_cell ds nlats nlons halo = Raise ValueError.
Proof.
  intros Hz. unfold batch_cell, anchor_range.
  destruct (Z.eq_dec nlons (2 * halo)) as [->|Hne].
  - unfold stride. rewrite Z.sub_diag. reflexivity.
  - destruct Hz as [->|Hz]; [|contradiction].
    unfold range at 1. unfold stride at 1.
    destruct (nlons - 2 * halo =? 0) eqn:E; [apply Z.eqb_eq in E; lia|].
    simpl. unfold stride. rewrite Z.sub_diag. reflexivity.
Qed.

(** A dataset 8 x 8 with one variable, defined everywhere. *)
Definition ds8 : Dataset Z :=
  {| latlen := 8;
     lonlen := 8;
     data_vars := {[ "SSH"%string := grid_of 8 8 (fun i j => Some (10 * i + j)) ]} |}.

(** C2 fails as stated: with the window 5 and the halo 3 of three 3-kernels
    the stride is -1, and nothing is reported: the anchor range of the
    550-long axis is empty, and on a small dataset the batch cell returns a
    batch of zero patches from which the generator yields nothing. *)
Lemma negative_stride_is_silent :
  halo_size [3; 3; 3] = Ok 3 /\ 5 <= 2 * 3 /\ stride 5 3 = -1 /\
  anchor_range 5 550 3 = Ok [] /\
  exists batch,
    batch_cell ds8 5 5 3 = Ok batch /\
    input_batch batch = 0%nat /\
    batch_generator 1 batch 4096 = Some (Ok []).
Proof.
  split; [reflexivity|]. split; [lia|]. split; [reflexivity|].
  split; [reflexivity|].
  eexists. split; [vm_compute; reflexivity|]. split; reflexivity.
Qed.

Lemma short_axis_dec (n halo : Z) (axis_len : nat) :
  (n < 2 * halo /\ Z.of_nat axis_len < n) \/ ~ (n < 2 * halo /\ Z.of_nat axis_len < n).
Proof. lia. Qed.

(** The anchors of one axis with a positive window and a non-zero stride:
    either the stride is negative and the window longer than the axis, and
    then the first anchor is the window size, which the selection refuses; or
    all anchors lie in [[n, axis_len)], and there is none when the stride is
    negative. *)
Lemma anchor_positions n (axis_len : nat) halo :
  0 < n -> n <> 2 * halo ->
  (n < 2 * halo /\ Z.of_nat axis_len < n ->
   exists anchors,
     anchor_range n (Z.of_nat axis_len) halo = Ok anchors /\
     positions axis_len anchors = Raise IndexError) /\
  (~ (n < 2 * halo /\ Z.of_nat axis_len < n) ->
   exists anchors,
     anchor_range n (Z.of_nat axis_len) halo = Ok anchors /\
     Forall (fun r => n <= r < Z.of_nat axis_len) anchors /\
     positions axis_len anchors = Ok (map Z.to_nat anchors) /\
     (n < 2 * halo -> anchors = [])).
Proof.
  intros Hn Hne. split.
  - intros [Hneg Hlong]. unfold anchor_range.
    destruct (range_neg_head n (Z.of_nat axis_len) (stride n halo))
      as (rest & ->); [unfold stride; lia | lia |].
    eexists. split; [reflexivity|]. unfold positions. simpl.
    rewrite position_raises_above by lia. reflexivity.
  - intros Hok.
    assert (exists anchors,
              anchor_range n (Z.of_nat axis_len) halo = Ok anchors /\
              Forall (fun r => n <= r < Z.of_nat axis_len) anchors /\
              (n < 2 * halo -> anchors = [])) as (anchors & Hr & Hin & Hnil).
    { destruct (Z.lt_ge_cases n (2 * halo)) as [Hlt|Hge].
      - apply anchor_range_fits; [exact Hne | lia].
      - assert (0 < stride n halo) as Hs by (unfold stride; lia).
        unfold anchor_range. eexists. split; [apply range_pos, Hs|]. split; [|lia].
        apply Forall_forall. intros x Hx.
        apply elem_of_range_pos in Hx; [|exact Hs].
        destruct Hx as (k & Hk & -> & Hlt). nia. }
    exists anchors. split; [exact Hr|]. split; [exact Hin|]. split; [|exact Hnil].
    apply positions_ok. eapply Forall_impl; [exact Hin|]. simpl. intros; lia.
Qed.

(** The three ways the batch cell ends when a stride is not positive. *)
Lemma nonpositive_stride_cases {A : Type} (ds : Dataset A) (nlats nlons halo : Z) :
  nlats <= 2 * halo \/ nlons <= 2 * halo ->
  stride nlats halo = nlats - 2 * halo /\ stride nlons halo = nlons - 2 * halo /\
  (nlats - 2 * halo <= 0 \/ nlons - 2 * halo <= 0) /\
  (nlats = 2 * halo \/ nlons = 2 * halo \/ nlats <= 0 \/ nlons <= 0 ->
   batch_cell ds nlats nlons halo = Raise ValueError) /\
  (nlats <> 2 * halo -> nlons <> 2 * halo -> 0 < nlats -> 0 < nlons ->
   ((nlats < 2 * halo /\ Z.of_nat (latlen ds) < nlats) \/
    (nlons < 2 * halo /\ Z.of_nat (lonlen ds) < nlons) ->
    batch_cell ds nlats nlons halo = Raise IndexError) /\
   (~ ((nlats < 2 * halo /\ Z.of_nat (latlen ds) < nlats) \/
       (nlons < 2 * halo /\ Z.of_nat (lonlen ds) < nlons)) ->
    exists batch,
      batch_cell ds nlats nlons halo = Ok batch /\
      input_batch batch = 0%nat /\
      forall fuel batch_size, 0 <= batch_size ->
        batch_generator (S fuel) batch batch_size = Some (Ok []))).
Proof.
  intros Hsmall. split; [reflexivity|]. split; [reflexivity|]. split; [lia|].
  split.
  - intros Hbad.
    destruct (Z.eq_dec nlats (2 * halo)) as [Hz1|Hne1];
      [apply batch_cell_zero_stride; auto|].
    destruct (Z.eq_dec nlons (2 * halo)) as [Hz2|Hne2];
      [apply batch_cell_zero_stride; auto|].
    assert (nlats <= 0 \/ nlons <= 0) as Hwin by tauto.
    unfold batch_cell, anchor_range, range, stride.
    destruct (nlons - 2 * halo =? 0) eqn:E2; [apply Z.eqb_eq in E2; lia|].
    destruct (nlats - 2 * halo =? 0) eqn:E1; [apply Z.eqb_eq in E1; lia|].
    cbn [bind]. unfold rolling.
    assert ((nlats <=? 0) || (nlons <=? 0) = true) as ->; [|reflexivity].
    apply orb_true_iff.
    destruct Hwin; [left | right]; apply Z.leb_le; assumption.
  - intros Hne1 Hne2 Hn1 Hn2.
    destruct (anchor_positions nlats (latlen ds) halo Hn1 Hne1) as [Hlat_bad Hlat_ok].
    destruct (anchor_positions nlons (lonlen ds) halo Hn2 Hne2) as [Hlon_bad Hlon_ok].
    assert (rolling ds nlats nlons = Ok ds) as Hroll.
    { unfold rolling.
      destruct (nlats <=? 0) eqn:E1; [apply Z.leb_le in E1; lia|].
      destruct (nlons <=? 0) eqn:E2; [apply Z.leb_le in E2; lia|]. reflexivity. }
    split.
    + intros Hshort. unfold batch_cell.
      destruct (short_axis_dec nlats halo (latlen ds)) as [Hlat|Hlat].
      * destruct (Hlat_bad Hlat) as (lat_r & Hr1 & Hp1).
        assert (exists lon_r, anchor_range nlons (Z.of_nat (lonlen ds)) halo = Ok lon_r)
          as (lon_r & Hr2).
        { destruct (short_axis_dec nlons halo (lonlen ds)) as [H|H];
            [destruct (Hlon_bad H) as (r & Hr & _) | destruct (Hlon_ok H) as (r & Hr & _)];
            eauto. }
        rewrite Hr2. cbn [bind]. rewrite Hr1. cbn [bind]. rewrite Hroll. cbn [bind].
        unfold isel_anchors. cbn [construct w_latlen w_lonlen].
        rewrite Hp1. reflexivity.
      * destruct (Hlat_ok Hlat) as (lat_r & Hr1 & _ & Hp1 & _).
        assert (nlons < 2 * halo /\ Z.of_nat (lonlen ds) < nlons) as Hlon by tauto.
        destruct (Hlon_bad Hlon) as (lon_r & Hr2 & Hp2).
        rewrite Hr2. cbn [bind]. rewrite Hr1. cbn [bind]. rewrite Hroll. cbn [bind].
        unfold isel_anchors. cbn [construct w_latlen w_lonlen].
        rewrite Hp1. cbn [bind]. rewrite Hp2. reflexivity.
    + intros Hfits.
      destruct (Hlat_ok ltac:(tauto)) as (lat_r & Hlat & Hlat_in & _ & Hlat_nil).
      destruct (Hlon_ok ltac:(tauto)) as (lon_r & Hlon & Hlon_in & _ & Hlon_nil).
      eexists. split.
      { apply batch_cell_ok. exists lat_r, lon_r.
        repeat (split; [first [assumption | lia]|]). reflexivity. }
      assert (length (kept_pairs ds nlats nlons (anchor_pairs lat_r lon_r)) = 0%nat)
        as Hlen.
      { pose proof (sublist_length _ _
                      (kept_pairs_sublist ds nlats nlons (anchor_pairs lat_r lon_r)))
          as Hle.
        rewrite length_anchor_pairs in Hle.
        assert (lat_r = [] \/ lon_r = []) as [-> | ->]
          by (destruct Hsmall; [left; apply Hlat_nil | right; apply Hlon_nil]; lia).
        - change (length (@nil Z)) with 0%nat in Hle. lia.
        - change (length (@nil Z)) with 0%nat in Hle. lia. }
      split; [exact Hlen|].
      intros fuel batch_size Hb. unfold batch_generator. simpl.
      rewrite Hlen.
      destruct (0 <? Z.of_nat 0 - batch_size) eqn:E; [apply Z.ltb_lt in E; lia|].
      reflexivity.
Qed.

(** C2, amended: a window no larger than twice the halo gives a
    non-positive stride [window - 2*halo]. The batch cell then ends in one of
    three ways, and which one is decided as follows. It raises [ValueError]
    exactly when a stride is zero (the range refuses a zero step) or a window
    is not positive (the rolling refuses it). Otherwise it raises [IndexError]
    exactly when an axis with a negative stride is shorter than its window
    (the range then starts at the window size, which is no position of the
    axis). In every other case nothing is reported: the batch cell succeeds
    with zero patches, and the generator yields no batch. *)
Theorem nonpositive_stride_outcome {A : Type} (ds : Dataset A) (nlats nlons halo : Z) :
  nlats <= 2 * halo \/ nlons <= 2 * halo ->
  stride nlats halo = nlats - 2 * halo /\ stride nlons halo = nlons - 2 * halo /\
  (nlats - 2 * halo <= 0 \/ nlons - 2 * halo <= 0) /\
  (batch_cell ds nlats nlons halo = Raise ValueError
   <-> nlats = 2 * halo \/ nlons = 2 * halo \/ nlats <= 0 \/ nlons <= 0) /\
  (batch_cell ds nlats nlons halo = Raise IndexError
   <-> (nlats <> 2 * halo /\ nlons <> 2 * halo /\ 0 < nlats /\ 0 < nlons) /\
       ((nlats < 2 * halo /\ Z.of_nat (latlen ds) < nlats) \/
        (nlons < 2 * halo /\ Z.of_nat (lonlen ds) < nlons))) /\
  ((exists batch, batch_cell ds nlats nlons halo = Ok batch)
   <-> (nlats <> 2 * halo /\ nlons <> 2 * halo /\ 0 < nlats /\ 0 < nlons) /\
       ~ ((nlats < 2 * halo /\ Z.of_nat (latlen ds) < nlats) \/
          (nlons < 2 * halo /\ Z.of_nat (lonlen ds) < nlons))) /\
  (forall batch, batch_cell ds nlats nlons halo = Ok batch ->
     input_batch batch = 0%nat /\
     forall fuel batch_size, 0 <= batch_size ->
       batch_generator (S fuel) batch batch_size = Some (Ok [])).
Proof.
  intros Hsmall.
  destruct (nonpositive_stride_cases ds nlats nlons halo Hsmall)
    as (Hs1 & Hs2 & Hneg & Hvalue & Hrest).
  split; [exact Hs1|]. split; [exact Hs2|]. split; [exact Hneg|].
  assert ((nlats = 2 * halo \/ nlons = 2 * halo \/ nlats <= 0 \/ nlons <= 0)
          \/ (nlats <> 2 * halo /\ nlons <> 2 * halo /\ 0 < nlats /\ 0 < nlons))
    as [Hbad | (Hne1 & Hne2 & Hn1 & Hn2)] by lia.
  { rewrite (Hvalue Hbad).
    split; [tauto|]. split; [split; [discriminate | lia]|].
    split; [split; [intros (? & [=]) | lia]|]. intros batch [=]. }
  destruct (Hrest Hne1 Hne2 Hn1 Hn2) as [Hindex Hsilent].
  assert (((nlats < 2 * halo /\ Z.of_nat (latlen ds) < nlats) \/
           (nlons < 2 * halo /\ Z.of_nat (lonlen ds) < nlons))
          \/ ~ ((nlats < 2 * halo /\ Z.of_nat (latlen ds) < nlats) \/
                (nlons < 2 * halo /\ Z.of_nat (lonlen ds) < nlons)))
    as [Hshort | Hfits] by lia.
  { rewrite (Hindex Hshort).
    split; [split; [discriminate | lia]|]. split; [tauto|].
    split; [split; [intros (? & [=]) | tauto]|]. intros batch [=]. }
  destruct (Hsilent Hfits) as (batch & Hrun & Hlen & Hgen). rewrite Hrun.
  split; [split; [discriminate | lia]|].
  split; [split; [discriminate | tauto]|].
  split; [split; [tauto | eauto]|].
  intros batch' [= <-]. split; [exact Hlen | exact Hgen].
Qed.

Lemma nonpositive_stride_outcome_witness :
  (5 <= 2 * 3 \/ 5 <= 2 * 3) /\
  (exists batch,
     batch_cell ds8 5 5 3 = Ok batch /\
     input_batch batch = 0%nat /\
     forall fuel batch_size, 0 <= batch_size ->
       batch_generator (S fuel) batch batch_size = Some (Ok [])) /\
  (7 <= 2 * 4 \/ 7 <= 2 * 4) /\ batch_cell ds5 7 7 4 = Raise IndexError /\
  (6 <= 2 * 3 \/ 6 <= 2 * 3) /\ batch_cell ds8 6 6 3 = Raise ValueError /\
  (0 <= 2 * 1 \/ 0 <= 2 * 1) /\ batch_cell ds8 0 0 1 = Raise ValueError.
Proof.
  split; [lia|]. split.
  { destruct (nonpositive_stride_outcome ds8 5 5 3 ltac:(lia))
      as (_ & _ & _ & _ & _ & Hok & Hzero).
    destruct (proj2 Hok) as (batch & Hbatch); [simpl; lia|].
    exists batch. split; [exact Hbatch|]. exact (Hzero batch Hbatch). }
  split; [lia|]. split.
  { apply (nonpositive_stride_outcome ds5 7 7 4); simpl; lia. }
  split; [lia|]. split.
  { apply (nonpositive_stride_outcome ds8 6 6 3); lia. }
  split; [lia|].
  apply (nonpositive_stride_outcome ds8 0 0 1); lia.
Defined.

End BatchFacts.

(** ** The tensors handed to the model *)

Module TensorFacts.
Import Py Batcher PyFacts AnchorFacts GeneratorFacts BatchFacts.

(** The names of a list in the order of their first appearance. *)
Fixpoint first_occurrences (xs : list string) : list string :=
  match xs with
  | [] => []
  | x :: rest => x :: List.filter (fun y => bool_decide (y <> x)) (first_occurrences rest)
  end.

Lemma filter_id {B : Type} (p : B -> bool) (l : list B) :
  (forall x, In x l -> p x = true) -> List.filter p l = l.
Proof.
  induction l as [|x l IH]; intros H; simpl; [reflexivity|].
  rewrite (H x (or_introl eq_refl)). f_equal. apply IH. intros y Hy. apply H. now right.
Qed.

Lemma first_occurrences_subset xs x : In x (first_occurrences xs) -> In x xs.
Proof.
  revert x. induction xs as [|y xs IH]; intros x; simpl; [tauto|].
  intros [->|H]; [now left|]. apply filter_In in H. right. apply IH, H.
Qed.

(** A scenario list without repetition is its own list of first
    occurrences. *)
Lemma first_occurrences_NoDup xs : List.NoDup xs -> first_occurrences xs = xs.
Proof.
  induction 1 as [|x xs Hx _ IH]; simpl; [reflexivity|]. rewrite IH. f_equal.
  apply filter_id. intros y Hy. apply bool_decide_eq_true. congruence.
Qed.

Section Tensors.
Context {A : Type}.
Implicit Types (b : Stacked A) (d : DataArray A) (t : Tensor A) (w : grid A).

(** The cell of sample [k] at window position [(i, j)]. *)
Definition at3 (ws : list (grid A)) (k i j : nat) : option (cell A) :=
  match ws !! k with
  | Some w =>
      match w !! i with
      | Some row => row !! j
      | None => None
      end
  | None => None
  end.

(** The entry of a tensor at sample [k], position [(i, j)], channel [c]. *)
Definition at4 t (k i j c : nat) : option (cell A) :=
  match t !! k with
  | Some m =>
      match m !! i with
      | Some row =>
          match row !! j with
          | Some px => px !! c
          | None => None
          end
      | None => None
      end
  | None => None
  end.

(** The shape of a tensor: samples, rows, columns, channels. *)
Definition has_shape t (n r c ch : nat) : Prop :=
  length t = n /\
  Forall (fun m => length m = r /\
            Forall (fun row => length row = c /\
                      Forall (fun px => length px = ch) row) m) t.

(** Arrays with the axis sizes [n], [r], [c] and the data to match. *)
Definition uniform (n r c : nat) (das : list (DataArray A)) : Prop :=
  Forall (fun d => da_len d = n /\ da_nlats d = r /\ da_nlons d = c) das.

Lemma merge_names (das : list (DataArray A)) :
  map da_name (merge das) = first_occurrences (map da_name das).
Proof.
  induction das as [|d das IH]; simpl; [reflexivity|]. f_equal.
  rewrite <- IH. generalize (merge das) as l. intros l.
  induction l as [|d' l IHl]; simpl; [reflexivity|].
  destruct (bool_decide (da_name d' <> da_name d)); simpl; [f_equal|]; exact IHl.
Qed.

Lemma merge_subset (das : list (DataArray A)) d : In d (merge das) -> In d das.
Proof.
  revert d. induction das as [|d0 das IH]; intros d; simpl; [tauto|].
  intros [->|H]; [now left|]. apply filter_In in H. right. apply IH, H.
Qed.

Lemma uniform_merge n r c (das : list (DataArray A)) :
  uniform n r c das -> uniform n r c (merge das).
Proof.
  unfold uniform. rewrite !Forall_forall. intros H d Hd.
  apply H, list_elem_of_In, merge_subset, list_elem_of_In, Hd.
Qed.

(** Stacking uniform arrays on a last axis: the shape, and what each channel
    holds. *)
Lemma to_array_var_last_spec n r c (das : list (DataArray A)) :
  das <> [] -> uniform n r c das ->
  exists t,
    to_array_var_last das = Ok t /\
    has_shape t n r c (length das) /\
    forall k i j ch d,
      (k < n)%nat -> (i < r)%nat -> (j < c)%nat -> das !! ch = Some d ->
      at4 t k i j ch = Some (((da_data d !!! k) !!! i) !!! j).
Proof.
  intros Hne Hu. destruct das as [|d0 das']; [congruence|].
  set (das := d0 :: das') in *.
  assert (da_len d0 = n /\ da_nlats d0 = r /\ da_nlons d0 = c) as (Hn & Hr & Hc)
    by (inversion Hu; assumption).
  eexists. split; [reflexivity|]. rewrite Hn, Hr, Hc. split.
  - split; [rewrite length_map, length_seq; reflexivity|].
    apply Forall_forall. intros m Hm.
    apply list_elem_of_In, in_map_iff in Hm. destruct Hm as (k & <- & _).
    split; [rewrite length_map, length_seq; reflexivity|].
    apply Forall_forall. intros row Hrow.
    apply list_elem_of_In, in_map_iff in Hrow. destruct Hrow as (i & <- & _).
    split; [rewrite length_map, length_seq; reflexivity|].
    apply Forall_forall. intros px Hpx.
    apply list_elem_of_In, in_map_iff in Hpx. destruct Hpx as (j & <- & _).
    apply length_map.
  - intros k i j ch d Hk Hi Hj Hd. unfold at4.
    rewrite map_fmap, list_lookup_fmap, lookup_seq_lt by exact Hk.
    cbn [fmap option_fmap option_map].
    rewrite map_fmap, list_lookup_fmap, lookup_seq_lt by exact Hi.
    cbn [fmap option_fmap option_map].
    rewrite map_fmap, list_lookup_fmap, lookup_seq_lt by exact Hj.
    cbn [fmap option_fmap option_map].
    rewrite map_fmap, list_lookup_fmap, Hd. reflexivity.
Qed.

(** Every variable of the batch has [input_batch] samples, each a window
    of [s_nlats] x [s_nlons] cells. *)
Definition regular b : Prop :=
  forall v ws, s_vars b !! v = Some ws ->
    length ws = input_batch b /\
    Forall (fun w => length w = s_nlats b /\
              Forall (fun row => length row = s_nlons b) w) ws.

Lemma window_at_shape nlats nlons (g : grid A) r c :
  length (window_at nlats nlons g r c) = Z.to_nat nlats /\
  Forall (fun row => length row = Z.to_nat nlons) (window_at nlats nlons g r c).
Proof.
  unfold window_at. split; [rewrite length_map, length_seqZ; reflexivity|].
  apply Forall_forall. intros row Hrow.
  apply list_elem_of_In, in_map_iff in Hrow. destruct Hrow as (a & <- & _).
  rewrite length_map, length_seqZ. reflexivity.
Qed.

Lemma regular_patches_of (ds : Dataset A) nlats nlons pairs :
  regular (patches_of ds nlats nlons pairs).
Proof.
  intros v ws Hws. rewrite patches_of_lookup in Hws.
  destruct (data_vars ds !! v) as [g|]; [|discriminate].
  simpl in Hws. injection Hws as <-. simpl.
  split; [apply length_map|].
  apply Forall_forall. intros w Hw.
  apply list_elem_of_In, in_map_iff in Hw. destruct Hw as (rc & <- & _).
  apply window_at_shape.
Qed.

Lemma regular_isel_batch b ps :
  regular b -> Forall (fun p => (p < input_batch b)%nat) ps ->
  regular (isel_batch b ps).
Proof.
  intros Hreg Hps v ws Hws. unfold isel_batch in *. simpl in *.
  rewrite lookup_fmap in Hws.
  destruct (s_vars b !! v) as [ws0|] eqn:Hv; [|discriminate].
  simpl in Hws. injection Hws as <-.
  destruct (Hreg v ws0 Hv) as [Hlen Hall].
  unfold gather. split; [apply length_map|].
  apply Forall_forall. intros w Hw.
  apply list_elem_of_In, in_map_iff in Hw. destruct Hw as (p & <- & Hp).
  rewrite Forall_forall in Hps. specialize (Hps p (proj2 (list_elem_of_In _ _) Hp)).
  rewrite Forall_forall in Hall. apply Hall.
  apply list_elem_of_lookup_total_2. lia.
Qed.

Lemma at3_total (ws : list (grid A)) n r c k i j :
  length ws = n ->
  Forall (fun w => length w = r /\ Forall (fun row => length row = c) w) ws ->
  (k < n)%nat -> (i < r)%nat -> (j < c)%nat ->
  at3 ws k i j = Some (((ws !!! k) !!! i) !!! j).
Proof.
  intros Hn Hall Hk Hi Hj. unfold at3.
  assert (ws !! k = Some (ws !!! k)) as Hwk
    by (apply list_lookup_lookup_total_lt; lia).
  rewrite Hwk.
  rewrite Forall_forall in Hall.
  destruct (Hall (ws !!! k)) as [Hr Hrows];
    [apply list_elem_of_lookup_total_2; lia|].
  assert ((ws !!! k) !! i = Some ((ws !!! k) !!! i)) as Hwi
    by (apply list_lookup_lookup_total_lt; lia).
  rewrite Hwi.
  rewrite Forall_forall in Hrows.
  assert (length ((ws !!! k) !!! i) = c) as Hc
    by (apply Hrows, list_elem_of_lookup_total_2; lia).
  apply list_lookup_lookup_total_lt. lia.
Qed.

Lemma gather_seq_lookup {B : Type} `{Inhabited B} (xs : list B) (a n i : nat) :
  (i < n)%nat -> gather xs (seq a n) !!! i = xs !!! (a + i)%nat.
Proof.
  intros Hi. unfold gather. rewrite map_fmap.
  rewrite (list_lookup_total_fmap (fun p => xs !!! p) (seq a n) i)
    by (rewrite length_seq; exact Hi).
  rewrite lookup_total_seq_lt by exact Hi. reflexivity.
Qed.

(** What one tensor holds: for the variables [vars], all of them in the
    batch [b], the [rows] x [cols] cells of every sample that start [off]
    points inside the window, with the variables on the last axis in the
    order of [vars]. *)
Definition group_is t b (vars : list string) (off rows cols : nat) : Prop :=
  has_shape t (input_batch b) rows cols (length (first_occurrences vars)) /\
  (forall x, In x vars -> is_Some (s_vars b !! x)) /\
  forall c x ws,
    first_occurrences vars !! c = Some x -> s_vars b !! x = Some ws ->
    forall k i j, (k < input_batch b)%nat -> (i < rows)%nat -> (j < cols)%nat ->
      at4 t k i j c = at3 ws k (off + i) (off + j) /\
      is_Some (at3 ws k (off + i) (off + j)).

(** What the arrays of a group must be for [group_is] to hold of their
    stacking. *)
Definition array_of b (off rows cols : nat) (x : string) d : Prop :=
  da_name d = x /\ da_len d = input_batch b /\
  da_nlats d = rows /\ da_nlons d = cols /\
  exists ws, s_vars b !! x = Some ws /\
    forall k i j, (k < input_batch b)%nat -> (i < rows)%nat -> (j < cols)%nat ->
      at3 ws k (off + i) (off + j) = Some (((da_data d !!! k) !!! i) !!! j).

Lemma group_spec b vars (F : string -> result (DataArray A)) das t off rows cols :
  mapM F vars = Ok das ->
  (forall x d, F x = Ok d -> array_of b off rows cols x d) ->
  to_array_var_last (merge das) = Ok t ->
  group_is t b vars off rows cols.
Proof.
  intros HmapM HF. apply mapM_ok in HmapM.
  assert (map da_name das = vars) as Hnames.
  { induction HmapM as [|x d vars' das' Hd _ IH]; simpl; [reflexivity|].
    rewrite IH. f_equal. exact (proj1 (HF x d Hd)). }
  assert (forall d, In d das -> array_of b off rows cols (da_name d) d) as Hin.
  { intros d Hd. induction HmapM as [|x d' vars' das' Hd' _ IH]; [destruct Hd|].
    destruct Hd as [->|Hd].
    - rewrite (proj1 (HF x d Hd')). exact (HF x d Hd').
    - apply IH; [|exact Hd]. simpl in Hnames. congruence. }
  assert (uniform (input_batch b) rows cols das) as Hu.
  { apply Forall_forall. intros d Hd. apply list_elem_of_In in Hd.
    destruct (Hin d Hd) as (_ & ? & ? & ? & _). auto. }
  intros Ht.
  assert (merge das <> []) as Hne by (intros E; rewrite E in Ht; discriminate).
  destruct (to_array_var_last_spec _ _ _ (merge das) Hne (uniform_merge _ _ _ _ Hu))
    as (t' & Ht' & Hshape & Hcontent).
  rewrite Ht' in Ht. injection Ht as <-.
  assert (length (merge das) = length (first_occurrences vars)) as Hlen
    by (rewrite <- Hnames, <- merge_names, length_map; reflexivity).
  split; [rewrite <- Hlen; exact Hshape|]. split.
  { intros x Hx. rewrite <- Hnames in Hx. apply in_map_iff in Hx.
    destruct Hx as (d & <- & Hd).
    destruct (Hin d Hd) as (_ & _ & _ & _ & ws & Hws & _). rewrite Hws. eauto. }
  intros c x ws Hc Hws k i j Hk Hi Hj.
  rewrite <- Hnames, <- merge_names, map_fmap, list_lookup_fmap in Hc.
  destruct (merge das !! c) as [d|] eqn:Hd; [|discriminate].
  simpl in Hc. injection Hc as Hx.
  assert (In d das) as Hd_in
    by (apply merge_subset, list_elem_of_In, list_elem_of_lookup; eauto).
  destruct (Hin d Hd_in) as (_ & _ & _ & _ & ws' & Hws' & Hcells).
  rewrite Hx, Hws in Hws'. injection Hws' as <-.
  rewrite (Hcontent k i j c d Hk Hi Hj Hd), (Hcells k i j Hk Hi Hj).
  split; [reflexivity | eexists; reflexivity].
Qed.

(** [batch[x]] of a regular batch is the full window of the variable. *)
Lemma getitem_array_of b x d :
  regular b -> getitem b x = Ok d ->
  array_of b 0 (s_nlats b) (s_nlons b) x d.
Proof.
  intros Hreg. unfold getitem.
  destruct (s_vars b !! x) as [ws|] eqn:Hws; [|discriminate].
  intros [= <-]. simpl. repeat (split; [reflexivity|]).
  exists ws. split; [exact Hws|]. intros k i j Hk Hi Hj.
  destruct (Hreg x ws Hws) as [Hlen Hall].
  apply (at3_total ws _ _ _ k i j Hlen Hall Hk Hi Hj).
Qed.

Lemma positions_all_ok n (idx : list Z) ps i :
  positions n idx = Ok ps -> In i idx -> exists p, position n i = Ok p.
Proof.
  unfold positions. rewrite mapM_ok. induction 1 as [|i' p idx' ps' Hp _ IH].
  - intros [].
  - intros [->|Hin]; [eauto | apply IH, Hin].
Qed.

(** A stencil that the selection accepts has a non-negative halo. *)
Lemma stencil_positions n halo ps :
  0 < n -> 2 * halo < n ->
  positions (Z.to_nat n) (range2 halo (n - halo)) = Ok ps ->
  0 <= halo /\ ps = seq (Z.to_nat halo) (Z.to_nat (n - 2 * halo)).
Proof.
  intros Hn Hh Hps.
  assert (0 <= halo) as Hnn.
  { destruct (Z.lt_ge_cases halo 0) as [Hneg|]; [|assumption].
    destruct (positions_all_ok _ _ _ (n - halo - 1) Hps) as (p & Hp).
    - unfold range2. apply list_elem_of_In, elem_of_seqZ. lia.
    - rewrite position_raises_above in Hp by lia. discriminate. }
  split; [exact Hnn|].
  rewrite positions_range2 in Hps by lia. injection Hps as <-.
  do 2 f_equal. lia.
Qed.

(** [batch[x][sub]] of a regular batch is the window of the variable with
    [halo] points trimmed from every edge. *)
Lemma sub_array_of b x d d' (nlats nlons halo : Z) :
  regular b ->
  s_nlats b = Z.to_nat nlats -> s_nlons b = Z.to_nat nlons ->
  0 < nlats -> 0 < nlons -> 2 * halo < nlats -> 2 * halo < nlons ->
  getitem b x = Ok d -> isel_sub d (sub halo nlons nlats) = Ok d' ->
  0 <= halo /\
  array_of b (Z.to_nat halo) (Z.to_nat (nlats - 2 * halo))
           (Z.to_nat (nlons - 2 * halo)) x d'.
Proof.
  intros Hreg Hrows Hcols Hn1 Hn2 Hh1 Hh2. unfold getitem.
  destruct (s_vars b !! x) as [ws|] eqn:Hws; [|discriminate].
  intros [= <-]. unfold isel_sub. simpl. rewrite Hrows, Hcols. intros Hsel.
  apply bind_ok in Hsel. destruct Hsel as (qs & Hqs & Hsel).
  apply bind_ok in Hsel. destruct Hsel as (ps & Hps & [= <-]).
  destruct (stencil_positions _ _ _ Hn2 Hh2 Hqs) as [Hnn ->].
  destruct (stencil_positions _ _ _ Hn1 Hh1 Hps) as [_ ->].
  split; [exact Hnn|]. unfold array_of. simpl.
  rewrite !length_seq. repeat (split; [reflexivity|]).
  exists ws. split; [exact Hws|]. intros k i j Hk Hi Hj.
  destruct (Hreg x ws Hws) as [Hlen Hall].
  rewrite (at3_total ws _ _ _ k _ _ Hlen Hall Hk) by lia. f_equal.
  set (trim := fun w : grid A =>
                 map (fun row => gather row (seq (Z.to_nat halo)
                                                 (Z.to_nat (nlons - 2 * halo))))
                     (gather w (seq (Z.to_nat halo) (Z.to_nat (nlats - 2 * halo))))).
  rewrite map_fmap.
  rewrite (list_lookup_total_fmap trim ws k) by lia.
  unfold trim. rewrite map_fmap.
  rewrite (list_lookup_total_fmap
             (fun row => gather row (seq (Z.to_nat halo) (Z.to_nat (nlons - 2 * halo))))
             (gather (ws !!! k) (seq (Z.to_nat halo) (Z.to_nat (nlats - 2 * halo)))) i)
    by (unfold gather; rewrite length_map, length_seq; exact Hi).
  rewrite gather_seq_lookup by exact Hj.
  rewrite gather_seq_lookup by exact Hi. reflexivity.
Qed.

(** *** The mini-batches the generator yields *)

(** With a batch size that is not positive the loop, once entered, never
    ends normally. *)
Lemma batch_generator_from_stuck fuel b batch_size n batches :
  batch_size <= 0 -> n < Z.of_nat (input_batch b) - batch_size ->
  batch_generator_from fuel b batch_size n <> Some (Ok batches).
Proof.
  intros Hb. revert n batches. induction fuel as [|fuel IH]; intros n batches Hn.
  - discriminate.
  - simpl. destruct (n <? Z.of_nat (input_batch b) - batch_size) eqn:E;
      [|apply Z.ltb_ge in E; lia].
    destruct (isel_range b n (n + batch_size)) as [b0|e]; [|discriminate].
    destruct (batch_generator_from fuel b batch_size (n + batch_size))
      as [[bs|e]|] eqn:Hrec; try discriminate.
    exfalso. apply (IH (n + batch_size) bs); [lia | exact Hrec].
Qed.

(** Whatever the fuel, a mini-batch the generator has yielded is a slice of
    [batch_size > 0] consecutive samples that ends before the last sample. *)
Lemma batch_generator_from_yields fuel b batch_size n batches b0 :
  0 <= n ->
  batch_generator_from fuel b batch_size n = Some (Ok batches) ->
  In b0 batches ->
  0 < batch_size /\
  exists m, 0 <= m /\ m + batch_size < Z.of_nat (input_batch b) /\
            b0 = slice_at b batch_size m.
Proof.
  revert n batches. induction fuel as [|fuel IH]; intros n batches Hn Hrun Hin.
  - discriminate.
  - simpl in Hrun.
    destruct (n <? Z.of_nat (input_batch b) - batch_size) eqn:E.
    + apply Z.ltb_lt in E.
      destruct (Z.lt_ge_cases 0 batch_size) as [Hb|Hb].
      * rewrite isel_range_ok in Hrun by lia.
        destruct (batch_generator_from fuel b batch_size (n + batch_size))
          as [[bs|e]|] eqn:Hrec; try discriminate.
        injection Hrun as <-. destruct Hin as [<-|Hin].
        -- split; [exact Hb|]. exists n. repeat split; [lia | lia].
        -- apply (IH (n + batch_size) bs); [lia | exact Hrec | exact Hin].
      * exfalso.
        apply (batch_generator_from_stuck (S fuel) b batch_size n batches); [lia | lia|].
        simpl. apply Z.ltb_lt in E. rewrite E. exact Hrun.
    + injection Hrun as <-. destruct Hin.
Qed.

Lemma positions_lt n (idx : list Z) ps :
  positions n idx = Ok ps -> Forall (fun p => (p < n)%nat) ps.
Proof.
  unfold positions. rewrite mapM_ok. induction 1 as [|i p idx' ps' Hp _ IH].
  - constructor.
  - constructor; [|exact IH]. unfold position in Hp.
    destruct ((0 <=? (if i <? 0 then i + Z.of_nat n else i))
              && ((if i <? 0 then i + Z.of_nat n else i) <? Z.of_nat n)) eqn:E;
      [|discriminate].
    apply andb_true_iff in E. destruct E as [E1 E2].
    apply Z.leb_le in E1. apply Z.ltb_lt in E2. injection Hp as <-. lia.
Qed.

(** A range that has an accepted anchor has a positive stride. *)
Lemma accepted_anchor_stride n axis_len halo anchors r :
  anchor_range n axis_len halo = Ok anchors ->
  In r anchors -> n <= r < axis_len -> 2 * halo < n.
Proof.
  intros Hrange Hr Hin. unfold anchor_range in Hrange.
  destruct (Z.lt_trichotomy (stride n halo) 0) as [Hs|[Hs|Hs]].
  - rewrite range_neg_empty in Hrange by lia. injection Hrange as <-. destruct Hr.
  - rewrite Hs, range_zero_step in Hrange. discriminate.
  - unfold stride in Hs. lia.
Qed.

(** What the training loop receives: a regular batch of [batch_size]
    samples on [nlats] x [nlons] windows; and a loop that runs at all has
    windows wider than twice the halo. *)
Lemma yielded_batch (ds : Dataset A) nlats nlons halo batch0 rnds batch
    fuel batch_size batches b :
  batch_cell ds nlats nlons halo = Ok batch0 ->
  shuffle_cell rnds batch0 = Ok batch ->
  batch_generator fuel batch batch_size = Some (Ok batches) ->
  In b batches ->
  regular b /\ input_batch b = Z.to_nat batch_size /\ 0 < batch_size /\
  s_nlats b = Z.to_nat nlats /\ s_nlons b = Z.to_nat nlons /\
  0 < nlats /\ 0 < nlons /\ 2 * halo < nlats /\ 2 * halo < nlons.
Proof.
  intros Hcell Hshuffle Hgen Hb.
  apply batch_cell_ok in Hcell.
  destruct Hcell as (lat_r & lon_r & Hlat & Hlon & Hn1 & Hn2 & Hlat_in & Hlon_in & ->).
  set (kept := kept_pairs ds nlats nlons (anchor_pairs lat_r lon_r)) in *.
  unfold shuffle_cell in Hshuffle. apply bind_ok in Hshuffle.
  destruct Hshuffle as (ps & Hps & [= <-]).
  apply positions_lt in Hps.
  destruct (batch_generator_from_yields fuel _ batch_size 0 batches b
              (Z.le_refl 0) Hgen Hb)
    as (Hbs & m & Hm & Hend & ->).
  simpl in Hend.
  assert (regular (isel_batch (patches_of ds nlats nlons kept) ps)) as Hreg
    by (apply regular_isel_batch; [apply regular_patches_of | exact Hps]).
  split.
  { apply regular_isel_batch; [exact Hreg|]. simpl.
    apply Forall_forall. intros p Hp. apply list_elem_of_In, in_seq in Hp. lia. }
  split; [simpl; apply length_seq|]. split; [exact Hbs|].
  split; [reflexivity|]. split; [reflexivity|].
  split; [exact Hn1|]. split; [exact Hn2|].
  destruct ps as [|p ps']; [simpl in Hend; lia|].
  inversion Hps as [|? ? Hp _]; subst.
  change (p < length kept)%nat in Hp.
  pose proof (sublist_length _ _ (kept_pairs_sublist ds nlats nlons
                                    (anchor_pairs lat_r lon_r))) as Hle.
  fold kept in Hle. rewrite length_anchor_pairs in Hle.
  destruct lat_r as [|r lat_r'];
    [change (length (@nil Z)) with 0%nat in Hle; lia|].
  destruct lon_r as [|c lon_r'];
    [change (length (@nil Z)) with 0%nat in Hle; lia|].
  inversion Hlat_in as [|? ? Hr _]; subst.
  inversion Hlon_in as [|? ? Hc _]; subst.
  split.
  - apply (accepted_anchor_stride _ _ _ _ r Hlat); [now left | exact Hr].
  - apply (accepted_anchor_stride _ _ _ _ c Hlon); [now left | exact Hc].
Qed.

(** The three tensors built from a regular batch whose windows are wider
    than twice the halo. *)
Lemma tensors_cell_spec (sc : Scenario) b (nlats nlons halo : Z) conv inp tgt :
  regular b ->
  s_nlats b = Z.to_nat nlats -> s_nlons b = Z.to_nat nlons ->
  0 < nlats -> 0 < nlons -> 2 * halo < nlats -> 2 * halo < nlons ->
  tensors_cell sc (sub halo nlons nlats) b = Ok (conv, inp, tgt) ->
  0 <= halo /\
  group_is conv b (conv_var sc) 0 (Z.to_nat nlats) (Z.to_nat nlons) /\
  group_is inp b (input_var sc) (Z.to_nat halo)
           (Z.to_nat (nlats - 2 * halo)) (Z.to_nat (nlons - 2 * halo)) /\
  group_is tgt b (target sc) (Z.to_nat halo)
           (Z.to_nat (nlats - 2 * halo)) (Z.to_nat (nlons - 2 * halo)).
Proof.
  intros Hreg Hrows Hcols Hn1 Hn2 Hh1 Hh2 Hcell. unfold tensors_cell in Hcell.
  apply bind_ok in Hcell. destruct Hcell as (das_c & Hc & Hcell).
  apply bind_ok in Hcell. destruct Hcell as (das_i & Hi & Hcell).
  apply bind_ok in Hcell. destruct Hcell as (das_t & Ht & Hcell).
  apply bind_ok in Hcell. destruct Hcell as (conv' & Hconv & Hcell).
  apply bind_ok in Hcell. destruct Hcell as (inp' & Hinp & Hcell).
  apply bind_ok in Hcell. destruct Hcell as (tgt' & Htgt & [= <- <- <-]).
  assert (forall x d',
            (let* d := getitem b x in isel_sub d (sub halo nlons nlats)) = Ok d' ->
            0 <= halo /\
            array_of b (Z.to_nat halo) (Z.to_nat (nlats - 2 * halo))
                     (Z.to_nat (nlons - 2 * halo)) x d') as Hsub.
  { intros x d' Hx. apply bind_ok in Hx. destruct Hx as (d & Hd & Hd').
    eapply sub_array_of; eassumption. }
  split.
  { destruct das_i as [|d' das_i']; [discriminate|].
    pose proof Hi as Hi'. apply mapM_ok in Hi'.
    inversion Hi' as [|x ? ? ? Hx _]; subst. exact (proj1 (Hsub x d' Hx)). }
  split; [|split].
  - rewrite <- Hrows, <- Hcols.
    apply (group_spec b _ (getitem b) das_c); [exact Hc | | exact Hconv].
    intros x d Hd. apply getitem_array_of; assumption.
  - eapply group_spec; [exact Hi | | exact Hinp].
    intros x d' Hx. exact (proj2 (Hsub x d' Hx)).
  - eapply group_spec; [exact Ht | | exact Htgt].
    intros x d' Hx. exact (proj2 (Hsub x d' Hx)).
Qed.

End Tensors.

(** A scenario on the variables of [ds5]. *)
Definition sc_toy : Scenario :=
  {| conv_var := ["SST"%string];
     input_var := ["U"%string];
     target := ["U"%string; "SST"%string];
     name := "toy" |}.

(** C3: for every mini-batch the generator yields and every scenario, the
    convolution tensor keeps the full [nlats] x [nlons] window of every sample,
    the dense and the target tensors hold the inner window left after trimming
    [halo] points from every edge, of shape [(nlats - 2*halo)] x
    [(nlons - 2*halo)], and every tensor carries its variables on a last axis
    in the scenario's order (a name listed twice counts once, at its first
    place). *)
Theorem minibatch_tensors {A : Type} (ds : Dataset A) (sc : Scenario)
    (nlats nlons halo : Z) (rnds : list Z) (fuel : nat) (batch_size : Z)
    (batch0 batch : Stacked A) (batches : list (Stacked A)) (b : Stacked A)
    (conv inp tgt : Tensor A) :
  batch_cell ds nlats nlons halo = Ok batch0 ->
  shuffle_cell rnds batch0 = Ok batch ->
  batch_generator fuel batch batch_size = Some (Ok batches) ->
  b ∈ batches ->
  tensors_cell sc (sub halo nlons nlats) b = Ok (conv, inp, tgt) ->
  0 <= halo /\ 2 * halo < nlats /\ 2 * halo < nlons /\
  input_batch b = Z.to_nat batch_size /\
  group_is conv b (conv_var sc) 0 (Z.to_nat nlats) (Z.to_nat nlons) /\
  group_is inp b (input_var sc) (Z.to_nat halo)
           (Z.to_nat (nlats - 2 * halo)) (Z.to_nat (nlons - 2 * halo)) /\
  group_is tgt b (target sc) (Z.to_nat halo)
           (Z.to_nat (nlats - 2 * halo)) (Z.to_nat (nlons - 2 * halo)).
Proof.
  intros Hcell Hshuffle Hgen Hb Htensors. apply list_elem_of_In in Hb.
  destruct (yielded_batch ds nlats nlons halo batch0 rnds batch fuel batch_size
              batches b Hcell Hshuffle Hgen Hb)
    as (Hreg & Hsize & _ & Hrows & Hcols & Hn1 & Hn2 & Hh1 & Hh2).
  destruct (tensors_cell_spec sc b nlats nlons halo conv inp tgt
              Hreg Hrows Hcols Hn1 Hn2 Hh1 Hh2 Htensors)
    as (Hnn & Hconv & Hinp & Htgt).
  repeat (split; [assumption|]). assumption.
Qed.

Lemma minibatch_tensors_witness :
  exists batch0 batch b conv inp tgt,
    batch_cell ds5 3 3 1 = Ok batch0 /\
    shuffle_cell [2; 0; 1] batch0 = Ok batch /\
    batch_generator 4 batch 2 = Some (Ok [b]) /\
    b ∈ [b] /\
    tensors_cell sc_toy (sub 1 3 3) b = Ok (conv, inp, tgt) /\
    0 <= 1 /\ 2 * 1 < 3 /\ 2 * 1 < 3 /\
    input_batch b = Z.to_nat 2 /\
    group_is conv b (conv_var sc_toy) 0 (Z.to_nat 3) (Z.to_nat 3) /\
    group_is inp b (input_var sc_toy) (Z.to_nat 1)
             (Z.to_nat (3 - 2 * 1)) (Z.to_nat (3 - 2 * 1)) /\
    group_is tgt b (target sc_toy) (Z.to_nat 1)
             (Z.to_nat (3 - 2 * 1)) (Z.to_nat (3 - 2 * 1)).
Proof.
  do 6 eexists.
  split; [vm_compute; reflexivity|].
  split; [vm_compute; reflexivity|].
  split; [vm_compute; reflexivity|].
  split; [apply list_elem_of_here|].
  split; [vm_compute; reflexivity|].
  eapply (minibatch_tensors ds5 sc_toy 3 3 1 [2; 0; 1] 4 2).
  - vm_compute; reflexivity.
  - vm_compute; reflexivity.
  - vm_compute; reflexivity.
  - apply list_elem_of_here.
  - vm_compute; reflexivity.
Defined.

End TensorFacts.

(** ** Testing, prediction and reassembly *)

Module NotebookFacts.
Import Py Batcher Notebook PyFacts AnchorFacts GeneratorFacts BatchFacts TensorFacts.

(** *** The prediction inputs *)

Section Prediction.
Context {A : Type}.
Implicit Types (g : Globals A) (su : Setup).

Lemma test_stage_ok su g0 g1 :
  test_stage su g0 = Ok g1 ->
  exists ds batch conv inp tgt,
    ds_test g0 = Some ds /\
    batch_cell ds (su_nlats su) (su_nlons su) (su_halo_size su) = Ok batch /\
    tensors_cell (sc su) (su_sub su) batch = Ok (conv, inp, tgt) /\
    batch_test g1 = Some batch /\ ds_predict g1 = ds_predict g0 /\
    test_conv g1 = Some conv /\ test_input g1 = Some inp /\
    test_target g1 = Some tgt.
Proof.
  unfold test_stage, batch_test_cell, test_tensors_cell. intros H.
  apply bind_ok in H. destruct H as (g & Hg & H).
  apply bind_ok in Hg. destruct Hg as (ds & Hds & Hg).
  apply bind_ok in Hg. destruct Hg as (batch & Hbatch & [= <-]).
  simpl in H. apply bind_ok in H. destruct H as ([[conv inp] tgt] & Ht & [= <-]).
  destruct (ds_test g0) as [ds'|]; [|discriminate]. injection Hds as ->.
  exists ds, batch, conv, inp, tgt. simpl. repeat split; assumption.
Qed.

(** The prediction cell on a batch from which the test cell built its
    tensors: the same convolution and dense tensors. *)
Lemma predict_tensors_of_test su g (batch : Stacked A) conv inp tgt :
  batch_test g = Some batch ->
  tensors_cell (sc su) (su_sub su) batch = Ok (conv, inp, tgt) ->
  exists g',
    predict_tensors_cell su g = Ok g' /\
    predict_conv g' = Some conv /\ predict_input g' = Some inp.
Proof.
  intros Hb Ht. unfold tensors_cell in Ht.
  apply bind_ok in Ht. destruct Ht as (das_c & Hc & Ht).
  apply bind_ok in Ht. destruct Ht as (das_i & Hi & Ht).
  apply bind_ok in Ht. destruct Ht as (das_t & _ & Ht).
  apply bind_ok in Ht. destruct Ht as (conv' & Hconv & Ht).
  apply bind_ok in Ht. destruct Ht as (inp' & Hinp & Ht).
  apply bind_ok in Ht. destruct Ht as (tgt' & _ & [= <- <- <-]).
  unfold predict_tensors_cell. rewrite Hb. simpl.
  rewrite Hc. simpl. rewrite Hi. simpl. rewrite Hconv. simpl. rewrite Hinp. simpl.
  eexists. split; [reflexivity|]. split; reflexivity.
Qed.

(** C5: after the testing cells, the prediction cells hand the model the
    tensors built from [batch_test]: [predict_conv] and [predict_input] are the
    test stage's [test_conv] and [test_input], and they are the same whatever
    predict slice was loaded. *)
Theorem prediction_inputs_are_test_inputs su (dt dp : Dataset A) g1 g2 :
  test_stage su (loaded dt dp) = Ok g1 ->
  predict_stage su g1 = Ok g2 ->
  predict_conv g2 = test_conv g1 /\
  predict_input g2 = test_input g1 /\
  is_Some (predict_conv g2) /\
  forall dp' g1' g2',
    test_stage su (loaded dt dp') = Ok g1' ->
    predict_stage su g1' = Ok g2' ->
    predict_conv g2' = predict_conv g2 /\ predict_input g2' = predict_input g2.
Proof.
  assert (forall dp0 h1 h2,
            test_stage su (loaded dt dp0) = Ok h1 -> predict_stage su h1 = Ok h2 ->
            exists batch conv inp tgt,
              batch_cell dt (su_nlats su) (su_nlons su) (su_halo_size su) = Ok batch /\
              tensors_cell (sc su) (su_sub su) batch = Ok (conv, inp, tgt) /\
              test_conv h1 = Some conv /\ test_input h1 = Some inp /\
              predict_conv h2 = Some conv /\ predict_input h2 = Some inp) as Hrun.
  { intros dp0 h1 h2 Ht Hp.
    destruct (test_stage_ok _ _ _ Ht)
      as (ds & batch & conv & inp & tgt & Hds & Hbatch & Htens & Hbt & _ & Hc & Hi & _).
    simpl in Hds. injection Hds as <-.
    unfold predict_stage in Hp. apply bind_ok in Hp. destruct Hp as (h & Hh & Hp).
    unfold batch_predict_cell in Hh.
    apply bind_ok in Hh. destruct Hh as (dsp & _ & Hh).
    apply bind_ok in Hh. destruct Hh as (bp & _ & [= <-]).
    destruct (predict_tensors_of_test su
                {| ds_test := ds_test h1; ds_predict := ds_predict h1;
                   batch_test := batch_test h1; batch_predict := Some bp;
                   test_conv := test_conv h1; test_input := test_input h1;
                   test_target := test_target h1;
                   predict_conv := predict_conv h1;
                   predict_input := predict_input h1 |}
                batch conv inp tgt Hbt Htens) as (h2' & Hh2' & Hpc & Hpi).
    rewrite Hh2' in Hp. injection Hp as <-.
    exists batch, conv, inp, tgt. repeat split; assumption. }
  intros Ht Hp.
  destruct (Hrun dp g1 g2 Ht Hp)
    as (batch & conv & inp & tgt & Hbatch & Htens & Hc & Hi & Hpc & Hpi).
  split; [congruence|]. split; [congruence|]. split; [rewrite Hpc; eauto|].
  intros dp' g1' g2' Ht' Hp'.
  destruct (Hrun dp' g1' g2' Ht' Hp')
    as (batch' & conv' & inp' & tgt' & Hbatch' & Htens' & _ & _ & Hpc' & Hpi').
  rewrite Hbatch in Hbatch'. injection Hbatch' as <-.
  rewrite Htens in Htens'. injection Htens' as <- <- <-.
  split; congruence.
Qed.

End Prediction.

Lemma prediction_inputs_are_test_inputs_witness :
  exists g1 g2,
    test_stage (mkSetup sc_toy 3 3 1) (loaded ds5 ds8) = Ok g1 /\
    predict_stage (mkSetup sc_toy 3 3 1) g1 = Ok g2 /\
    predict_conv g2 = test_conv g1 /\
    predict_input g2 = test_input g1 /\
    is_Some (predict_conv g2) /\
    forall dp' g1' g2',
      test_stage (mkSetup sc_toy 3 3 1) (loaded ds5 dp') = Ok g1' ->
      predict_stage (mkSetup sc_toy 3 3 1) g1' = Ok g2' ->
      predict_conv g2' = predict_conv g2 /\ predict_input g2' = predict_input g2.
Proof.
  do 2 eexists.
  split; [vm_compute; reflexivity|]. split; [vm_compute; reflexivity|].
  eapply (prediction_inputs_are_test_inputs (mkSetup sc_toy 3 3 1) ds5 ds8).
  - vm_compute; reflexivity.
  - vm_compute; reflexivity.
Defined.

(** *** Reassembly of the predictions *)

Lemma anchor_pairs_lookup nlat_range nlon_range i j r c :
  nlat_range !! i = Some r -> nlon_range !! j = Some c ->
  anchor_pairs nlat_range nlon_range !! (i * length nlon_range + j)%nat = Some (r, c).
Proof.
  intros Hr Hc. revert i Hr. unfold anchor_pairs.
  induction nlat_range as [|r0 rs IH]; intros i Hr; [discriminate|].
  simpl. destruct i as [|i'].
  - injection Hr as ->. simpl.
    rewrite lookup_app_l by (rewrite length_map; eapply lookup_lt_Some, Hc).
    rewrite map_fmap, list_lookup_fmap, Hc. reflexivity.
  - simpl in Hr.
    rewrite lookup_app_r by (rewrite length_map; simpl; lia).
    rewrite length_map.
    replace (S i' * length nlon_range + j - length nlon_range)%nat
      with (i' * length nlon_range + j)%nat by (simpl; lia).
    apply IH, Hr.
Qed.

Lemma reshape_lookup {B : Type} (a : list B) rows cols m i j :
  reshape a rows cols = Ok m -> (i < rows)%nat -> (j < cols)%nat ->
  exists row, m !! i = Some row /\ row !! j = a !! (i * cols + j)%nat /\
              is_Some (row !! j).
Proof.
  unfold reshape. destruct (Nat.eqb (length a) (rows * cols)) eqn:E; [|discriminate].
  apply Nat.eqb_eq in E. intros [= <-] Hi Hj.
  eexists. split.
  - rewrite map_fmap, list_lookup_fmap, lookup_seq_lt by exact Hi. reflexivity.
  - simpl. rewrite lookup_take_lt, lookup_drop by exact Hj.
    split; [reflexivity|]. apply lookup_lt_is_Some. nia.
Qed.

Lemma select_from_dims {A : Type} (ds ds' : Dataset A) :
  select_from ds = Ok ds' -> latlen ds' = 550%nat /\ lonlen ds' = 350%nat.
Proof.
  unfold select_from. intros H.
  apply bind_ok in H. destruct H as (qs & Hqs & H).
  apply bind_ok in H. destruct H as (ps & Hps & [= <-]). simpl.
  unfold positions in Hps, Hqs. apply mapM_ok in Hps, Hqs.
  apply Forall2_length in Hps, Hqs. unfold range2 in Hps, Hqs.
  rewrite length_seqZ in Hps, Hqs. split; [rewrite <- Hps | rewrite <- Hqs]; reflexivity.
Qed.

End NotebookFacts.

(** ** The prepared slices and the grid fields *)

Module PrepFacts.
Import Py Prep BatchFacts.

(** Arrays as the expressions that compute them, over named arrays of a
    given shape: an instance of the array operations on which the cells can be
    run. *)
Inductive sym : Type :=
| Raw (x : string) (sh : list nat)
| Sin (a : sym)
| Cos (a : sym)
| Radians (a : sym)
| Mean (a : sym)
| Std (a : sym)
| Mul (a b : sym)
| Sub (a b : sym)
| Div (a b : sym)
| Neg (a : sym)
| IsNan (a : sym)
| Invert (a : sym)
| And (a b : sym)
| IselTime (ps : list nat) (drop : bool) (a : sym).

Fixpoint sym_shape (a : sym) : list nat :=
  match a with
  | Raw _ sh => sh
  | Sin a | Cos a | Radians a | Neg a | IsNan a | Invert a => sym_shape a
  | Mean _ | Std _ => []
  | Mul a b | Sub a b | Div a b | And a b =>
      default [] (broadcast_shapes (sym_shape a) (sym_shape b))
  | IselTime ps drop a =>
      match sym_shape a with
      | [] => []
      | _ :: rest => if drop then rest else length ps :: rest
      end
  end.

(** An arithmetic operation: defined when the shapes broadcast. *)
Definition sym_arith (op : sym -> sym -> sym) (a b : sym) : option sym :=
  match broadcast_shapes (sym_shape a) (sym_shape b) with
  | Some _ => Some (op a b)
  | None => None
  end.

#[global] Instance sym_ops : ArrayOps sym :=
  {| shape := sym_shape;
     np_sin := Sin; np_cos := Cos; np_radians := Radians;
     np_mean := Mean; np_std := Std;
     arr_mul := sym_arith Mul; arr_sub := sym_arith Sub; arr_div := sym_arith Div;
     arr_neg := Neg;
     np_isnan := IsNan; arr_invert := Invert; arr_and := And;
     arr_isel_time := IselTime |}.

Lemma sym_arith_shape (op : sym -> sym -> sym) (a b : sym) :
  (forall a b, sym_shape (op a b)
               = default [] (broadcast_shapes (sym_shape a) (sym_shape b))) ->
  sym_shape <$> sym_arith op a b = broadcast_shapes (sym_shape a) (sym_shape b).
Proof.
  intros Hop. unfold sym_arith.
  destruct (broadcast_shapes (sym_shape a) (sym_shape b)) as [sh|] eqn:Hsh;
    [|reflexivity].
  cbn [fmap option_fmap option_map]. rewrite Hop, Hsh. reflexivity.
Qed.

#[global] Instance sym_laws : ArrayLaws sym.
Proof.
  split; try reflexivity; intros a b; apply sym_arith_shape; reflexivity.
Qed.

(** The grid of the catalog: 2400 rows of latitude, 3600 columns of
    longitude; and its 1200 time steps. A variable of the catalog on the axes
    (time, nlat, nlon), and one on the grid axes only. *)
Definition on_time (x : string) : DataVar sym :=
  mkDataVar ["time"; "nlat"; "nlon"]%string (Raw x [1200; 2400; 3600]%nat).
Definition on_grid (x : string) : DataVar sym :=
  mkDataVar ["nlat"; "nlon"]%string (Raw x [2400; 3600]%nat).
Definition on_grid' (a : sym) : DataVar sym :=
  mkDataVar ["nlat"; "nlon"]%string a.

(** A dataset with the fields the catalog must offer, 1200 time steps. *)
Definition cat_ds : XDataset sym :=
  {| time_len := Some 1200%nat;
     variables :=
       list_to_map
         [("U1_1", on_time "U1_1"); ("V1_1", on_time "V1_1");
          ("TAUX_2", on_time "TAUX_2"); ("TAUY_2", on_time "TAUY_2");
          ("SSH_2", on_time "SSH_2"); ("SST", on_time "SST");
          ("ULONG", on_grid "ULONG"); ("ULAT", on_grid "ULAT");
          ("DXT", on_grid "DXT"); ("DYT", on_grid "DYT")]%string |}.

(** The scenarios of the notebook. *)
Definition sc1 : Scenario :=
  mkScenario ["SSH"] ["TAUX"; "TAUY"] ["U"; "V"] "derp"%string.
Definition sc5 : Scenario :=
  mkScenario ["SSH"; "SST"] ["X"; "TAUX"; "TAUY"] ["U"; "V"] "herp"%string.

Section Facts.
Context {arr : Type} {ops : ArrayOps arr}.
Implicit Types (ds : XDataset arr) (store : Store arr).

(** The five names [add_grid] assigns. *)
Definition grid_fields : list string := ["X"; "Y"; "Z"; "dx"; "dy"]%string.

Lemma select_vars_dom ds varList ds' :
  select_vars ds varList = Ok ds' ->
  dom (variables ds') = list_to_set varList /\ time_len ds' = time_len ds.
Proof.
  unfold select_vars. intros Hsel.
  apply bind_ok in Hsel. destruct Hsel as (vs & Hvs & [= <-]). simpl.
  split; [|reflexivity]. rewrite dom_list_to_map_L. f_equal.
  apply mapM_ok in Hvs. induction Hvs as [|x p xs ps Hp _ IH]; [reflexivity|].
  apply bind_ok in Hp. destruct Hp as (v & _ & [= <-]).
  simpl. f_equal. exact IH.
Qed.

Lemma isel_time_dom ds ix ds' :
  isel_time ds ix = Ok ds' -> dom (variables ds') = dom (variables ds).
Proof.
  unfold isel_time. destruct (time_len ds); [|discriminate]. intros Hsel.
  apply bind_ok in Hsel. destruct Hsel as (sel & _ & [= <-]). simpl.
  apply dom_fmap_L.
Qed.

Lemma prepared_dom cat sc mask_time ds :
  prepared cat sc mask_time = Ok ds ->
  dom (variables ds)
  = list_to_set (conv_var sc ++ input_var sc ++ target sc) ∪ {["mask"%string]}.
Proof.
  unfold prepared. intros Hp.
  do 5 (apply bind_ok in Hp; destruct Hp as (? & _ & Hp)).
  apply bind_ok in Hp. destruct Hp as (ds0 & Hsel & [= <-]).
  simpl. rewrite dom_insert_L. apply select_vars_dom in Hsel.
  destruct Hsel as [-> _]. apply union_comm_L.
Qed.

Lemma training_key_ne_test (n : string) :
  ("training_" +:+ n) +:+ ".zarr" <> ("test_" +:+ n) +:+ ".zarr".
Proof. simpl. discriminate. Qed.

Lemma training_key_ne_predict (n : string) :
  ("training_" +:+ n) +:+ ".zarr" <> ("predict_" +:+ n) +:+ ".zarr".
Proof. simpl. discriminate. Qed.

Lemma test_key_ne_predict (n : string) :
  ("test_" +:+ n) +:+ ".zarr" <> ("predict_" +:+ n) +:+ ".zarr".
Proof. simpl. discriminate. Qed.

(** C9: after [prepare_data] has run to its end, loading by role and
    scenario returns the slice written for that role, and its variables are
    exactly the scenario's [conv_var], [input_var] and [target] lists and the
    mask. *)
Theorem prepared_slices_round_trip (cat : XDataset arr) (sc : Scenario)
    (training_time test_time predict_time mask_time : indexer) store store' :
  prepare_data cat sc training_time test_time predict_time mask_time store
  = (store', Ok tt) ->
  exists p,
    prepared cat sc mask_time = Ok p /\
    forall role ix,
      (role, ix) ∈ [("training"%string, training_time); ("test"%string, test_time);
                    ("predict"%string, predict_time)] ->
      exists ds,
        loader store' sc role = Ok ds /\
        isel_time p ix = Ok ds /\
        dom (variables ds)
        = list_to_set (conv_var sc ++ input_var sc ++ target sc) ∪ {["mask"%string]} /\
        is_Some (variables ds !! "mask"%string).
Proof.
  unfold prepare_data. intros Hrun.
  destruct (prepared cat sc mask_time) as [p|e] eqn:Hp; [|discriminate].
  destruct (isel_time p training_time) as [d1|e] eqn:H1; [|discriminate].
  destruct (isel_time p test_time) as [d2|e] eqn:H2; [|discriminate].
  destruct (isel_time p predict_time) as [d3|e] eqn:H3; [|discriminate].
  injection Hrun as <-. exists p. split; [reflexivity|].
  assert (forall ix ds, isel_time p ix = Ok ds ->
            dom (variables ds)
            = list_to_set (conv_var sc ++ input_var sc ++ target sc) ∪ {["mask"%string]} /\
            is_Some (variables ds !! "mask"%string)) as Hdom.
  { intros ix ds Hds. apply isel_time_dom in Hds.
    rewrite <- (prepared_dom _ _ _ _ Hp), <- Hds. split; [reflexivity|].
    apply elem_of_dom. rewrite Hds, (prepared_dom _ _ _ _ Hp).
    apply elem_of_union_r, elem_of_singleton. reflexivity. }
  intros role ix Hrole. unfold loader, to_zarr, Store.
  apply elem_of_cons in Hrole. destruct Hrole as [[= -> ->]|Hrole].
  { exists d1. split; [|split; [exact H1 | exact (Hdom _ _ H1)]].
    change (("training" +:+ "_") +:+ name sc) with ("training_" +:+ name sc).
    rewrite lookup_insert_ne by (symmetry; apply training_key_ne_predict).
    rewrite lookup_insert_ne by (symmetry; apply training_key_ne_test).
    rewrite lookup_insert_eq. reflexivity. }
  apply elem_of_cons in Hrole. destruct Hrole as [[= -> ->]|Hrole].
  { exists d2. split; [|split; [exact H2 | exact (Hdom _ _ H2)]].
    change (("test" +:+ "_") +:+ name sc) with ("test_" +:+ name sc).
    rewrite lookup_insert_ne by (symmetry; apply test_key_ne_predict).
    rewrite lookup_insert_eq. reflexivity. }
  apply elem_of_cons in Hrole. destruct Hrole as [[= -> ->]|Hrole].
  { exists d3. split; [|split; [exact H3 | exact (Hdom _ _ H3)]].
    change (("predict" +:+ "_") +:+ name sc) with ("predict_" +:+ name sc).
    rewrite lookup_insert_eq. reflexivity. }
  apply elem_of_nil in Hrole. destruct Hrole.
Qed.

End Facts.

(** *** The grid fields *)

Lemma broadcast_aligned_same (s : list nat) : broadcast_aligned s s = Some s.
Proof.
  induction s as [|a s IH]; [reflexivity|].
  simpl. rewrite Nat.eqb_refl, IH. reflexivity.
Qed.

(** Equal shapes broadcast to themselves. *)
Lemma broadcast_shapes_same (s : list nat) : broadcast_shapes s s = Some s.
Proof.
  unfold broadcast_shapes. rewrite broadcast_aligned_same.
  simpl. rewrite rev_involutive. reflexivity.
Qed.

(** A value without axes broadcasts against every shape. *)
Lemma broadcast_shapes_scalar (s : list nat) : broadcast_shapes s [] = Some s.
Proof.
  unfold broadcast_shapes. change (@rev nat []) with (@nil nat).
  assert (broadcast_aligned (rev s) [] = Some (rev s)) as -> by (destruct (rev s); reflexivity).
  simpl. rewrite rev_involutive. reflexivity.
Qed.

(** The four fields [add_grid] reads. *)
Definition grid_inputs : list string := ["YU"; "XU"; "DXT"; "DYT"]%string.

Section Grid.
Context {arr : Type} {ops : ArrayOps arr}.
Implicit Types (ds : XDataset arr) (lat lon DX DY : DataVar arr).

(** [delta(a, np.mean(a), np.std(a))] *)
Definition zscore (a : arr) : option arr :=
  arr_sub a (np_mean a) ≫= fun d => arr_div d (np_std a).

(** The dataset with the five fields set, on the axes of [lon]. *)
Definition with_grid ds lon (x y z dX dY : arr) : XDataset arr :=
  setvar (setvar (setvar (setvar (setvar ds
    "X" (mkDataVar (dims lon) x)) "Y" (mkDataVar (dims lon) y))
    "Z" (mkDataVar (dims lon) z)) "dx" (mkDataVar (dims lon) dX))
    "dy" (mkDataVar (dims lon) dY).

(** The longitude variable has one axis name for each axis of its array, and
    the latitude and the two spacing arrays have the shape of the longitude
    array. *)
Definition grid_shapes_fit lat lon DX DY : Prop :=
  length (dims lon) = length (shape (data lon)) /\
  shape (data lat) = shape (data lon) /\
  shape (data DX) = shape (data lon) /\
  shape (data DY) = shape (data lon).

#[global] Instance grid_shapes_fit_dec lat lon DX DY :
  Decision (grid_shapes_fit lat lon DX DY).
Proof. unfold grid_shapes_fit. apply _. Defined.

Lemma grid_inputs_present ds lat lon DX DY :
  variables ds !! "YU"%string = Some lat ->
  variables ds !! "XU"%string = Some lon ->
  variables ds !! "DXT"%string = Some DX ->
  variables ds !! "DYT"%string = Some DY ->
  forall x, x ∈ grid_inputs -> is_Some (variables ds !! x).
Proof.
  intros H1 H2 H3 H4 x Hx. unfold grid_inputs in Hx.
  rewrite !elem_of_cons, elem_of_nil in Hx.
  destruct Hx as [->|[->|[->|[->|[]]]]]; eauto.
Qed.

(** The run of [add_grid] when everything it computes is defined and fits. *)
Lemma add_grid_run ds lat lon DX DY (y z dX dY : arr) :
  variables ds !! "YU"%string = Some lat ->
  variables ds !! "XU"%string = Some lon ->
  variables ds !! "DXT"%string = Some DX ->
  variables ds !! "DYT"%string = Some DY ->
  arr_mul (np_cos (np_radians (data lat))) (np_sin (np_radians (data lon))) = Some y ->
  arr_mul (arr_neg (np_cos (np_radians (data lat)))) (np_cos (np_radians (data lon)))
  = Some z ->
  zscore (data DX) = Some dX ->
  zscore (data DY) = Some dY ->
  fits_like lon (np_sin (np_radians (data lat))) ->
  fits_like lon y -> fits_like lon z -> fits_like lon dX -> fits_like lon dY ->
  add_grid ds = Ok (with_grid ds lon (np_sin (np_radians (data lat))) y z dX dY).
Proof.
  intros Hlat Hlon HDX HDY Hy Hz HdX HdY Fx Fy Fz FdX FdY.
  unfold zscore in HdX, HdY. unfold add_grid, getattr.
  rewrite Hlat, Hlon, HDX, HDY. cbn [bind]. rewrite Hy, Hz, HdX, HdY.
  cbn [broadcasting bind]. unfold assign_like.
  rewrite !bool_decide_eq_true_2 by assumption. reflexivity.
Qed.

(** What a successful [add_grid] has read, computed and written. *)
Lemma add_grid_inv ds ds' :
  add_grid ds = Ok ds' ->
  exists lat lon DX DY y z dX dY,
    variables ds !! "YU"%string = Some lat /\
    variables ds !! "XU"%string = Some lon /\
    variables ds !! "DXT"%string = Some DX /\
    variables ds !! "DYT"%string = Some DY /\
    arr_mul (np_cos (np_radians (data lat))) (np_sin (np_radians (data lon))) = Some y /\
    arr_mul (arr_neg (np_cos (np_radians (data lat)))) (np_cos (np_radians (data lon)))
    = Some z /\
    zscore (data DX) = Some dX /\
    zscore (data DY) = Some dY /\
    (fits_like lon (np_sin (np_radians (data lat))) /\
     fits_like lon y /\ fits_like lon z /\ fits_like lon dX /\ fits_like lon dY) /\
    ds' = with_grid ds lon (np_sin (np_radians (data lat))) y z dX dY.
Proof.
  unfold add_grid, getattr.
  destruct (variables ds !! "YU"%string) as [lat|]; [|discriminate].
  destruct (variables ds !! "XU"%string) as [lon|]; [|discriminate].
  destruct (variables ds !! "DXT"%string) as [DX|]; [|discriminate].
  destruct (variables ds !! "DYT"%string) as [DY|]; [|discriminate].
  cbn [bind]. fold (zscore (data DX)). fold (zscore (data DY)).
  destruct (arr_mul (np_cos _) (np_sin _)) as [y|] eqn:Hy; [|discriminate].
  destruct (arr_mul (arr_neg _) _) as [z|] eqn:Hz; [|discriminate].
  destruct (zscore (data DX)) as [dX|] eqn:HdX; [|discriminate].
  destruct (zscore (data DY)) as [dY|] eqn:HdY; [|discriminate].
  cbn [broadcasting bind]. unfold assign_like.
  case_bool_decide as Fx; [|discriminate]. cbn [bind].
  case_bool_decide as Fy; [|discriminate]. cbn [bind].
  case_bool_decide as Fz; [|discriminate]. cbn [bind].
  case_bool_decide as FdX; [|discriminate]. cbn [bind].
  case_bool_decide as FdY; [|discriminate]. cbn [bind].
  intros [= <-]. exists lat, lon, DX, DY, y, z, dX, dY.
  do 4 (split; [reflexivity|]).
  split; [exact Hy|]. split; [exact Hz|]. split; [exact HdX|]. split; [exact HdY|].
  split; [tauto | reflexivity].
Qed.

(** An [add_grid] that fails has missed one of its inputs, or has met arrays
    whose shapes do not go together. *)
Lemma add_grid_raise ds e :
  add_grid ds = Raise e ->
  (e = AttributeError /\ exists x, x ∈ grid_inputs /\ variables ds !! x = None)
  \/ (e = ValueError /\ forall x, x ∈ grid_inputs -> is_Some (variables ds !! x)).
Proof.
  unfold add_grid, getattr.
  destruct (variables ds !! "YU"%string) as [lat|] eqn:H1.
  2:{ intros [= <-]. left. split; [reflexivity|]. exists "YU"%string.
      split; [unfold grid_inputs; rewrite !elem_of_cons; auto | exact H1]. }
  destruct (variables ds !! "XU"%string) as [lon|] eqn:H2.
  2:{ intros [= <-]. left. split; [reflexivity|]. exists "XU"%string.
      split; [unfold grid_inputs; rewrite !elem_of_cons; auto | exact H2]. }
  destruct (variables ds !! "DXT"%string) as [DX|] eqn:H3.
  2:{ intros [= <-]. left. split; [reflexivity|]. exists "DXT"%string.
      split; [unfold grid_inputs; rewrite !elem_of_cons; auto | exact H3]. }
  destruct (variables ds !! "DYT"%string) as [DY|] eqn:H4.
  2:{ intros [= <-]. left. split; [reflexivity|]. exists "DYT"%string.
      split; [unfold grid_inputs; rewrite !elem_of_cons; auto | exact H4]. }
  cbn [bind]. intros Hraise. right.
  split; [|exact (grid_inputs_present ds lat lon DX DY H1 H2 H3 H4)].
  revert Hraise. fold (zscore (data DX)). fold (zscore (data DY)).
  destruct (arr_mul (np_cos _) (np_sin _)) as [y|]; [|intros [= <-]; reflexivity].
  destruct (arr_mul (arr_neg _) _) as [z|]; [|intros [= <-]; reflexivity].
  destruct (zscore (data DX)) as [dX|]; [|intros [= <-]; reflexivity].
  destruct (zscore (data DY)) as [dY|]; [|intros [= <-]; reflexivity].
  cbn [broadcasting bind]. unfold assign_like.
  case_bool_decide; [|intros [= <-]; reflexivity]. cbn [bind].
  case_bool_decide; [|intros [= <-]; reflexivity]. cbn [bind].
  case_bool_decide; [|intros [= <-]; reflexivity]. cbn [bind].
  case_bool_decide; [|intros [= <-]; reflexivity]. cbn [bind].
  case_bool_decide; [|intros [= <-]; reflexivity]. cbn [bind].
  discriminate.
Qed.

Lemma add_grid_frame ds ds' k :
  add_grid ds = Ok ds' -> k ∉ grid_fields ->
  variables ds' !! k = variables ds !! k /\ time_len ds' = time_len ds.
Proof.
  intros Hadd Hk. apply add_grid_inv in Hadd.
  destruct Hadd as (lat & lon & DX & DY & y & z & dX & dY & _ & _ & _ & _
                    & _ & _ & _ & _ & _ & ->).
  unfold grid_fields in Hk. rewrite !not_elem_of_cons in Hk.
  destruct Hk as (? & ? & ? & ? & ? & _).
  split; [|reflexivity]. unfold with_grid, setvar. cbn [variables].
  rewrite !lookup_insert_ne by congruence. reflexivity.
Qed.

Context {laws : ArrayLaws arr}.

(** The normalised spacing is always defined, and has the shape of the
    spacing: the mean and the deviation have no axes. *)
Lemma zscore_defined (a : arr) : exists d, zscore a = Some d /\ shape d = shape a.
Proof.
  unfold zscore.
  pose proof (shape_sub a (np_mean a)) as Hs.
  rewrite shape_mean, broadcast_shapes_scalar in Hs.
  destruct (arr_sub a (np_mean a)) as [d|]; [|discriminate].
  injection Hs as Hs. cbn [mbind option_bind].
  pose proof (shape_div d (np_std a)) as Hq.
  rewrite shape_std, broadcast_shapes_scalar in Hq.
  destruct (arr_div d (np_std a)) as [q|]; [|discriminate].
  injection Hq as Hq. exists q. split; [reflexivity | congruence].
Qed.

Lemma mul_same_shape (a b : arr) :
  shape a = shape b -> exists c, arr_mul a b = Some c /\ shape c = shape b.
Proof.
  intros Hab. pose proof (shape_mul a b) as Hm.
  rewrite Hab, broadcast_shapes_same in Hm.
  destruct (arr_mul a b) as [c|]; [|discriminate].
  injection Hm as Hm. exists c. split; [reflexivity | exact Hm].
Qed.

(** How [add_grid] ends on a dataset that has its four inputs. *)
Lemma add_grid_outcome ds lat lon DX DY :
  variables ds !! "YU"%string = Some lat ->
  variables ds !! "XU"%string = Some lon ->
  variables ds !! "DXT"%string = Some DX ->
  variables ds !! "DYT"%string = Some DY ->
  (grid_shapes_fit lat lon DX DY ->
   exists y z dX dY,
     arr_mul (np_cos (np_radians (data lat))) (np_sin (np_radians (data lon))) = Some y /\
     arr_mul (arr_neg (np_cos (np_radians (data lat)))) (np_cos (np_radians (data lon)))
     = Some z /\
     zscore (data DX) = Some dX /\
     zscore (data DY) = Some dY /\
     add_grid ds = Ok (with_grid ds lon (np_sin (np_radians (data lat))) y z dX dY)) /\
  (~ grid_shapes_fit lat lon DX DY -> add_grid ds = Raise ValueError).
Proof.
  intros Hlat Hlon HDX HDY. split.
  - intros (Hn & Hl & Hx & Hy).
    destruct (mul_same_shape (np_cos (np_radians (data lat)))
                             (np_sin (np_radians (data lon))))
      as (y & Hmy & Hsy);
      [rewrite shape_cos, shape_sin, !shape_radians; exact Hl|].
    destruct (mul_same_shape (arr_neg (np_cos (np_radians (data lat))))
                             (np_cos (np_radians (data lon))))
      as (z & Hmz & Hsz);
      [rewrite shape_neg, !shape_cos, !shape_radians; exact Hl|].
    destruct (zscore_defined (data DX)) as (dX & HdX & HsX).
    destruct (zscore_defined (data DY)) as (dY & HdY & HsY).
    rewrite shape_sin, shape_radians in Hsy. rewrite shape_cos, shape_radians in Hsz.
    exists y, z, dX, dY. repeat (split; [assumption|]).
    apply (add_grid_run ds lat lon DX DY); try assumption; unfold fits_like;
      rewrite ?shape_sin, ?shape_radians; split; congruence.
  - intros Hno. destruct (add_grid ds) as [ds'|e] eqn:Hadd.
    + exfalso. apply Hno. apply add_grid_inv in Hadd.
      destruct Hadd as (lat' & lon' & DX' & DY' & y & z & dX & dY & H1 & H2 & H3 & H4
                        & _ & _ & HdX & HdY & (Fx & _ & _ & FdX & FdY) & _).
      rewrite Hlat in H1. rewrite Hlon in H2. rewrite HDX in H3. rewrite HDY in H4.
      injection H1 as <-. injection H2 as <-. injection H3 as <-. injection H4 as <-.
      destruct (zscore_defined (data DX)) as (dX' & HdX' & HsX).
      destruct (zscore_defined (data DY)) as (dY' & HdY' & HsY).
      rewrite HdX in HdX'. rewrite HdY in HdY'.
      injection HdX' as <-. injection HdY' as <-.
      destruct Fx as [Fn Fx], FdX as [_ FdX], FdY as [_ FdY].
      rewrite shape_sin, shape_radians in Fx, Fn.
      unfold grid_shapes_fit. repeat split; congruence.
    + apply add_grid_raise in Hadd. destruct Hadd as [(_ & x & Hx & Hnone)|[-> _]];
        [|reflexivity].
      exfalso.
      destruct (grid_inputs_present ds lat lon DX DY Hlat Hlon HDX HDY x Hx) as [v Hv].
      congruence.
Qed.

(** C10, amended with two premises: none of the five names is in use, and
    the latitude and spacing arrays have the shape of the longitude array.
    [add_grid] then returns the dataset with exactly the five fields [X], [Y],
    [Z], [dx], [dy] added on the axes of the longitude array, computed by the
    stated formulas, and every field that was there is unchanged. When the
    shapes do not go together the call is a [ValueError]. *)
Theorem add_grid_extends ds lat lon DX DY :
  variables ds !! "YU"%string = Some lat ->
  variables ds !! "XU"%string = Some lon ->
  variables ds !! "DXT"%string = Some DX ->
  variables ds !! "DYT"%string = Some DY ->
  (forall x, x ∈ grid_fields -> variables ds !! x = None) ->
  (grid_shapes_fit lat lon DX DY ->
   exists y z dX dY ds',
     arr_mul (np_cos (np_radians (data lat))) (np_sin (np_radians (data lon))) = Some y /\
     arr_mul (arr_neg (np_cos (np_radians (data lat)))) (np_cos (np_radians (data lon)))
     = Some z /\
     (exists d, arr_sub (data DX) (np_mean (data DX)) = Some d /\
                arr_div d (np_std (data DX)) = Some dX) /\
     (exists d, arr_sub (data DY) (np_mean (data DY)) = Some d /\
                arr_div d (np_std (data DY)) = Some dY) /\
     add_grid ds = Ok ds' /\
     variables ds' !! "X"%string
     = Some (mkDataVar (dims lon) (np_sin (np_radians (data lat)))) /\
     variables ds' !! "Y"%string = Some (mkDataVar (dims lon) y) /\
     variables ds' !! "Z"%string = Some (mkDataVar (dims lon) z) /\
     variables ds' !! "dx"%string = Some (mkDataVar (dims lon) dX) /\
     variables ds' !! "dy"%string = Some (mkDataVar (dims lon) dY) /\
     (forall x v, variables ds !! x = Some v -> variables ds' !! x = Some v) /\
     dom (variables ds') = dom (variables ds) ∪ list_to_set grid_fields /\
     size (variables ds') = (size (variables ds) + 5)%nat /\
     time_len ds' = time_len ds) /\
  (~ grid_shapes_fit lat lon DX DY -> add_grid ds = Raise ValueError).
Proof.
  intros Hlat Hlon HDX HDY Hfresh.
  destruct (add_grid_outcome ds lat lon DX DY Hlat Hlon HDX HDY) as [Hok Hbad].
  split; [|exact Hbad]. intros Hfit.
  destruct (Hok Hfit) as (y & z & dX & dY & Hy & Hz & HdX & HdY & Hadd).
  assert (forall x, In x grid_fields -> variables ds !! x = None) as Hfresh'
    by (intros x Hx; apply Hfresh, list_elem_of_In, Hx).
  assert (variables ds !! "X"%string = None) as HX by (apply Hfresh'; simpl; tauto).
  assert (variables ds !! "Y"%string = None) as HY by (apply Hfresh'; simpl; tauto).
  assert (variables ds !! "Z"%string = None) as HZ by (apply Hfresh'; simpl; tauto).
  assert (variables ds !! "dx"%string = None) as Hdx by (apply Hfresh'; simpl; tauto).
  assert (variables ds !! "dy"%string = None) as Hdy by (apply Hfresh'; simpl; tauto).
  assert (forall a b, zscore a = Some b ->
            exists d, arr_sub a (np_mean a) = Some d /\ arr_div d (np_std a) = Some b)
    as Hz'.
  { intros a b. unfold zscore. destruct (arr_sub a (np_mean a)) as [d|]; [|discriminate].
    cbn [mbind option_bind]. intros Hd. exists d. split; [reflexivity | exact Hd]. }
  exists y, z, dX, dY. eexists.
  split; [exact Hy|]. split; [exact Hz|].
  split; [exact (Hz' _ _ HdX)|]. split; [exact (Hz' _ _ HdY)|].
  split; [exact Hadd|]. unfold with_grid, setvar. cbn [variables time_len].
  split; [by simplify_map_eq|]. split; [by simplify_map_eq|].
  split; [by simplify_map_eq|]. split; [by simplify_map_eq|].
  split; [by simplify_map_eq|]. split; [|split; [|split; [|reflexivity]]].
  - intros x v Hx.
    assert (x <> "X"%string /\ x <> "Y"%string /\ x <> "Z"%string /\
            x <> "dx"%string /\ x <> "dy"%string) as (? & ? & ? & ? & ?)
      by (repeat split; intros ->; congruence).
    rewrite !lookup_insert_ne by congruence. exact Hx.
  - rewrite !dom_insert_L. unfold grid_fields. simpl. apply set_eq. intros k.
    rewrite !elem_of_union, !elem_of_singleton, elem_of_empty. tauto.
  - rewrite !map_size_insert_None; [lia | | | | |]; by simplify_map_eq.
Qed.

End Grid.

(** A dataset that has the four inputs of [add_grid] and, already, a field
    named [X]. *)
Definition ds_with_X : XDataset sym :=
  {| time_len := Some 1200%nat;
     variables :=
       list_to_map
         [("YU", on_grid "ULAT"); ("XU", on_grid "ULONG");
          ("DXT", on_grid "DXT"); ("DYT", on_grid "DYT");
          ("X", on_time "X_before")]%string |}.

(** C10 fails as stated: on a dataset that already has a field [X],
    [add_grid] replaces that field and so adds four new fields, not five. *)
Lemma add_grid_overwrites_existing_field :
  variables ds_with_X !! "X"%string = Some (on_time "X_before") /\
  exists ds',
    add_grid ds_with_X = Ok ds' /\
    variables ds' !! "X"%string
    = Some (on_grid' (np_sin (np_radians (data (on_grid "ULAT"))))) /\
    on_grid' (np_sin (np_radians (data (on_grid "ULAT")))) <> on_time "X_before" /\
    size (variables ds') = (size (variables ds_with_X) + 4)%nat.
Proof.
  split; [reflexivity|]. eexists. split; [vm_compute; reflexivity|].
  split; [reflexivity|]. split; [discriminate | reflexivity].
Qed.

(** The catalog dataset after the renaming step of [prepare_data]. *)
Definition ds_renamed : XDataset sym :=
  {| time_len := Some 1200%nat;
     variables :=
       list_to_map
         [("U", on_time "U1_1"); ("V", on_time "V1_1");
          ("TAUX", on_time "TAUX_2"); ("TAUY", on_time "TAUY_2");
          ("SSH", on_time "SSH_2"); ("SST", on_time "SST");
          ("XU", on_grid "ULONG"); ("YU", on_grid "ULAT");
          ("DXT", on_grid "DXT"); ("DYT", on_grid "DYT")]%string |}.

Example rename_cat_ds :
  Prep.rename cat_ds
    [("U1_1", "U"); ("V1_1", "V"); ("TAUX_2", "TAUX"); ("TAUY_2", "TAUY");
     ("SSH_2", "SSH"); ("ULONG", "XU"); ("ULAT", "YU")]%string = Ok ds_renamed.
Proof. vm_compute. reflexivity. Qed.

(** The same dataset with a spacing field that has kept a time axis. *)
Definition ds_DXT_on_time : XDataset sym :=
  setvar ds_renamed "DXT" (on_time "DXT").

(** A dataset whose latitudes and longitudes are the two axes of the grid,
    one array of 2400 values and one of 3600. *)
Definition ds_axes : XDataset sym :=
  {| time_len := None;
     variables :=
       list_to_map
         [("YU", mkDataVar ["nlat"] (Raw "lat" [2400%nat]));
          ("XU", mkDataVar ["nlon"] (Raw "lon" [3600%nat]));
          ("DXT", on_grid "DXT"); ("DYT", on_grid "DYT")]%string |}.

(** On such axes the products of [Y] and [Z] do not broadcast. *)
Example add_grid_on_axes : add_grid ds_axes = Raise ValueError.
Proof. vm_compute. reflexivity. Qed.

Lemma add_grid_extends_witness :
  (variables ds_renamed !! "YU"%string = Some (on_grid "ULAT") /\
   variables ds_renamed !! "XU"%string = Some (on_grid "ULONG") /\
   variables ds_renamed !! "DXT"%string = Some (on_grid "DXT") /\
   variables ds_renamed !! "DYT"%string = Some (on_grid "DYT") /\
   (forall x, x ∈ grid_fields -> variables ds_renamed !! x = None) /\
   grid_shapes_fit (on_grid "ULAT") (on_grid "ULONG") (on_grid "DXT") (on_grid "DYT") /\
   exists ds',
     add_grid ds_renamed = Ok ds' /\
     variables ds' !! "X"%string = Some (on_grid' (Sin (Radians (Raw "ULAT" [2400; 3600]%nat)))) /\
     variables ds' !! "dx"%string
     = Some (on_grid' (Div (Sub (Raw "DXT" [2400; 3600]%nat)
                                (Mean (Raw "DXT" [2400; 3600]%nat)))
                           (Std (Raw "DXT" [2400; 3600]%nat)))) /\
     size (variables ds') = 15%nat) /\
  (variables ds_DXT_on_time !! "DXT"%string = Some (on_time "DXT") /\
   ~ grid_shapes_fit (on_grid "ULAT") (on_grid "ULONG") (on_time "DXT") (on_grid "DYT") /\
   add_grid ds_DXT_on_time = Raise ValueError).
Proof.
  assert (forall x, x ∈ grid_fields -> variables ds_renamed !! x = None) as Hfresh.
  { intros x Hx. unfold grid_fields in Hx.
    repeat (apply elem_of_cons in Hx; destruct Hx as [->|Hx]; [reflexivity|]).
    apply elem_of_nil in Hx. destruct Hx. }
  assert (grid_shapes_fit (on_grid "ULAT") (on_grid "ULONG") (on_grid "DXT")
                          (on_grid "DYT")) as Hfit
    by (repeat split; reflexivity).
  assert (~ grid_shapes_fit (on_grid "ULAT") (on_grid "ULONG") (on_time "DXT")
                            (on_grid "DYT")) as Hno.
  { intros (_ & _ & H & _). apply (f_equal length) in H. discriminate H. }
  split.
  - split; [reflexivity|]. split; [reflexivity|].
    split; [reflexivity|]. split; [reflexivity|]. split; [exact Hfresh|].
    split; [exact Hfit|].
    destruct (add_grid_extends ds_renamed (on_grid "ULAT") (on_grid "ULONG")
                (on_grid "DXT") (on_grid "DYT")
                eq_refl eq_refl eq_refl eq_refl Hfresh) as [Hok _].
    destruct (Hok Hfit)
      as (y & z & dX & dY & ds' & _ & _ & (d1 & Hd1 & HdX) & _ & Hadd & HX & _ & _
          & Hdx & _ & _ & _ & Hsize & _).
    exists ds'. split; [exact Hadd|]. split; [exact HX|].
    split; [|exact Hsize].
    rewrite Hdx. injection Hd1 as <-. injection HdX as <-. reflexivity.
  - split; [reflexivity|]. split; [exact Hno|].
    apply (add_grid_extends ds_DXT_on_time (on_grid "ULAT") (on_grid "ULONG")
             (on_time "DXT") (on_grid "DYT"));
      [reflexivity | reflexivity | reflexivity | reflexivity | | exact Hno].
    intros x Hx. unfold grid_fields in Hx.
    repeat (apply elem_of_cons in Hx; destruct Hx as [->|Hx]; [reflexivity|]).
    apply elem_of_nil in Hx. destruct Hx.
Defined.

Lemma prepared_slices_round_trip_witness :
  exists store',
    prepare_data cat_ds sc5 (Int 200) (Int 1000) (Int 1000) (Int 200) ∅
    = (store', Ok tt) /\
    exists p,
      prepared cat_ds sc5 (Int 200) = Ok p /\
      forall role ix,
        (role, ix) ∈ [("training"%string, Int 200); ("test"%string, Int 1000);
                      ("predict"%string, Int 1000)] ->
        exists ds,
          loader store' sc5 role = Ok ds /\
          isel_time p ix = Ok ds /\
          dom (variables ds)
          = list_to_set (conv_var sc5 ++ input_var sc5 ++ target sc5) ∪ {["mask"%string]} /\
          is_Some (variables ds !! "mask"%string).
Proof.
  eexists. split; [vm_compute; reflexivity|].
  apply (prepared_slices_round_trip cat_ds sc5 (Int 200) (Int 1000) (Int 1000) (Int 200) ∅).
  vm_compute. reflexivity.
Defined.

End PrepFacts.

(** ** More on the generator and the shuffle *)

Module GeneratorMore.
Import Py Batcher PyFacts AnchorFacts GeneratorFacts BatchFacts TensorFacts.

Lemma gather_seq_take_drop {B : Type} `{Inhabited B} (xs : list B) (a n : nat) :
  (a + n <= length xs)%nat -> gather xs (seq a n) = take n (drop a xs).
Proof.
  revert a. induction n as [|n IH]; intros a Hlen; [reflexivity|].
  unfold gather in *. simpl.
  assert (xs !! a = Some (xs !!! a)) as Ha
    by (apply list_lookup_lookup_total_lt; lia).
  rewrite (drop_S xs (xs !!! a) a Ha). simpl. f_equal. apply IH. lia.
Qed.

Lemma gather_seq_all {B : Type} `{Inhabited B} (xs : list B) :
  gather xs (seq 0 (length xs)) = xs.
Proof.
  rewrite gather_seq_take_drop by (simpl; lia). rewrite drop_0. apply firstn_all.
Qed.

Section Generator.
Context {A : Type}.
Implicit Types batch_set : Stacked A.

(** The first [k] values the generator yields from the counter value [n],
    or fewer when the loop ends before: the same loop as
    [batch_generator_from], read lazily. *)
Fixpoint first_yields (k : nat) batch_set (batch_size n : Z)
  : result (list (Stacked A)) :=
  match k with
  | O => Ok []
  | S k' =>
      if n <? Z.of_nat (input_batch batch_set) - batch_size then
        let* b := isel_range batch_set n (n + batch_size) in
        let* bs := first_yields k' batch_set batch_size (n + batch_size) in
        Ok (b :: bs)
      else Ok []
  end.

Lemma slice_at_lookup batch_set batch_size m v ws :
  regular batch_set -> 0 <= m -> 0 <= batch_size ->
  m + batch_size <= Z.of_nat (input_batch batch_set) ->
  s_vars batch_set !! v = Some ws ->
  s_vars (slice_at batch_set batch_size m) !! v
  = Some (take (Z.to_nat batch_size) (drop (Z.to_nat m) ws)).
Proof.
  intros Hreg Hm Hb Hend Hws. unfold slice_at, isel_batch. simpl.
  rewrite lookup_fmap, Hws. simpl. f_equal.
  apply gather_seq_take_drop. destruct (Hreg v ws Hws) as [-> _]. lia.
Qed.

(** X1: with a positive batch size the generator ends, and yields
    [(N - 1) / batch_size] mini-batches (none for [N = 0]); the [k]-th holds,
    for every variable, the [batch_size] samples from [k * batch_size] on, on
    the same windows. Between one and [batch_size] trailing samples of a
    non-empty batch are in no mini-batch. *)
Theorem generator_yields_consecutive_slices (fuel : nat) batch_set (batch_size : Z) :
  0 < batch_size -> (input_batch batch_set < fuel)%nat -> regular batch_set ->
  exists batches,
    batch_generator fuel batch_set batch_size = Some (Ok batches) /\
    length batches = Z.to_nat ((Z.of_nat (input_batch batch_set) - 1) / batch_size) /\
    (forall k b, batches !! k = Some b ->
       input_batch b = Z.to_nat batch_size /\
       s_nlats b = s_nlats batch_set /\ s_nlons b = s_nlons batch_set /\
       forall v ws, s_vars batch_set !! v = Some ws ->
         s_vars b !! v
         = Some (take (Z.to_nat batch_size) (drop (k * Z.to_nat batch_size) ws))) /\
    (1 <= Z.of_nat (input_batch batch_set) ->
     1 <= Z.of_nat (input_batch batch_set) - Z.of_nat (length batches) * batch_size
       <= batch_size).
Proof.
  intros Hb Hfuel Hreg.
  destruct (batch_generator_total fuel batch_set batch_size Hb Hfuel)
    as (batches & Hrun & Hbatches & Hlen).
  set (N := Z.of_nat (input_batch batch_set)) in *.
  exists batches. split; [exact Hrun|].
  assert (length batches = Z.to_nat ((N - 1) / batch_size)) as Hcount.
  { destruct (Z.le_gt_cases 1 N) as [HN|HN].
    - rewrite <- (Hlen HN). lia.
    - assert (N = 0) as -> by lia. rewrite Hbatches.
      rewrite !length_map, length_seqZ. unfold range_len.
      destruct (0 <? batch_size) eqn:E; [|apply Z.ltb_ge in E; lia].
      destruct (0 <? 0 - batch_size) eqn:E1; [apply Z.ltb_lt in E1; lia|].
      assert ((0 - 1) / batch_size < 0) by (apply Z.div_lt_upper_bound; lia). lia. }
  split; [exact Hcount|]. split.
  - intros k b Hk. rewrite Hbatches, !map_fmap, !list_lookup_fmap in Hk.
    destruct (seqZ 0 (range_len 0 (N - batch_size) batch_size) !! k) as [z|] eqn:Hz;
      [|discriminate].
    apply lookup_seqZ in Hz. destruct Hz as [-> Hlt].
    simpl in Hk. injection Hk as <-.
    pose proof (proj1 (range_len_pos_spec 0 (N - batch_size) batch_size
                         (Z.of_nat k) Hb ltac:(lia)) Hlt) as Hend.
    split; [simpl; apply length_seq|]. split; [reflexivity|]. split; [reflexivity|].
    intros v ws Hws.
    rewrite (slice_at_lookup batch_set batch_size _ v ws Hreg) by (fold N; lia || exact Hws).
    do 3 f_equal. lia.
  - intros HN. rewrite (Hlen HN).
    pose proof (Z.div_mod (N - 1) batch_size ltac:(lia)) as Hdm.
    pose proof (Z.mod_pos_bound (N - 1) batch_size Hb) as Hbound. nia.
Qed.

End Generator.

Lemma generator_yields_consecutive_slices_witness :
  0 < 4 /\ (input_batch samples8 < 9)%nat /\ regular samples8 /\
  exists batches,
    batch_generator 9 samples8 4 = Some (Ok batches) /\
    length batches = Z.to_nat ((Z.of_nat (input_batch samples8) - 1) / 4) /\
    (forall k b, batches !! k = Some b ->
       input_batch b = Z.to_nat 4 /\
       s_nlats b = s_nlats samples8 /\ s_nlons b = s_nlons samples8 /\
       forall v ws, s_vars samples8 !! v = Some ws ->
         s_vars b !! v = Some (take (Z.to_nat 4) (drop (k * Z.to_nat 4) ws))) /\
    (1 <= Z.of_nat (input_batch samples8) ->
     1 <= Z.of_nat (input_batch samples8) - Z.of_nat (length batches) * 4 <= 4).
Proof.
  assert (regular samples8) as Hreg.
  { intros v ws Hws. unfold samples8 in Hws. simpl in Hws.
    apply lookup_singleton_Some in Hws. destruct Hws as [_ <-].
    split; [reflexivity|]. repeat constructor. }
  split; [lia|]. split; [simpl; lia|]. split; [exact Hreg|].
  apply (generator_yields_consecutive_slices 9 samples8 4); [lia | simpl; lia | exact Hreg].
Defined.

Section Endless.
Context {A : Type}.
Implicit Types batch_set batch : Stacked A.

Lemma isel_range_empty batch_set n m :
  m <= n -> isel_range batch_set n m = Ok (isel_batch batch_set []).
Proof.
  intros Hmn. unfold isel_range, range2.
  replace (Z.max 0 (m - n)) with 0 by lia. reflexivity.
Qed.

Lemma batch_generator_from_endless fuel batch_set batch_size n :
  batch_size <= 0 -> batch_size < Z.of_nat (input_batch batch_set) -> n <= 0 ->
  batch_generator_from fuel batch_set batch_size n = None.
Proof.
  intros Hb HN. revert n. induction fuel as [|fuel IH]; intros n Hn; [reflexivity|].
  simpl. destruct (n <? Z.of_nat (input_batch batch_set) - batch_size) eqn:E;
    [|apply Z.ltb_ge in E; lia].
  rewrite isel_range_empty by lia. rewrite IH by lia. reflexivity.
Qed.

Lemma first_yields_endless k batch_set batch_size n :
  batch_size <= 0 -> batch_size < Z.of_nat (input_batch batch_set) -> n <= 0 ->
  first_yields k batch_set batch_size n = Ok (replicate k (isel_batch batch_set [])).
Proof.
  intros Hb HN. revert n. induction k as [|k IH]; intros n Hn; [reflexivity|].
  simpl. destruct (n <? Z.of_nat (input_batch batch_set) - batch_size) eqn:E;
    [|apply Z.ltb_ge in E; lia].
  rewrite isel_range_empty by lia. simpl. rewrite IH by lia. reflexivity.
Qed.

(** The lazy reading agrees with the run to the end: when the generator
    ends, its first [k] values are the first [k] of the list. *)
Lemma first_yields_prefix fuel k batch_set batch_size n batches :
  batch_generator_from fuel batch_set batch_size n = Some (Ok batches) ->
  first_yields k batch_set batch_size n = Ok (take k batches).
Proof.
  revert k n batches. induction fuel as [|fuel IH]; intros k n batches; [discriminate|].
  simpl. destruct k as [|k]; [intros _; reflexivity|]. simpl.
  destruct (n <? Z.of_nat (input_batch batch_set) - batch_size).
  - destruct (isel_range batch_set n (n + batch_size)) as [b|e]; [|discriminate].
    destruct (batch_generator_from fuel batch_set batch_size (n + batch_size))
      as [[bs|e]|] eqn:Hrest; try discriminate.
    intros [= <-]. simpl. rewrite (IH k _ bs Hrest). reflexivity.
  - intros [= <-]. reflexivity.
Qed.

(** X2: a batch size that is zero or negative is not refused. Unless the
    batch is empty and the size zero, the loop never ends, whatever the
    number of iterations allowed, and every value it yields is a mini-batch
    without samples: no error is raised. *)
Theorem generator_nonpositive_size_never_ends (fuel k : nat) batch_set (batch_size : Z) :
  batch_size <= 0 -> batch_size < Z.of_nat (input_batch batch_set) ->
  batch_generator fuel batch_set batch_size = None /\
  exists batches,
    first_yields k batch_set batch_size 0 = Ok batches /\
    length batches = k /\
    Forall (fun b => input_batch b = 0%nat /\
                     forall v ws, s_vars b !! v = Some ws -> ws = []) batches.
Proof.
  intros Hb HN. split.
  - apply batch_generator_from_endless; lia.
  - exists (replicate k (isel_batch batch_set [])).
    split; [apply first_yields_endless; lia|].
    split; [apply length_replicate|].
    apply Forall_replicate. split; [reflexivity|].
    intros v ws Hws. simpl in Hws. rewrite lookup_fmap in Hws.
    destruct (s_vars batch_set !! v); [|discriminate].
    simpl in Hws. injection Hws as <-. reflexivity.
Qed.

(** X3: when [rnds] is a rearrangement of the positions of the batch, as
    [np.random.shuffle] leaves it, the selection succeeds and keeps the number
    of samples and the window shape; every variable is rearranged by the same
    positions, sample [i] of the result being sample [rnds[i]] of the batch,
    so the variables of one sample stay together and none is lost or
    repeated. *)
Theorem shuffle_cell_permutes (rnds : list Z) batch :
  regular batch ->
  Permutation rnds (seqZ 0 (Z.of_nat (input_batch batch))) ->
  exists shuffled,
    shuffle_cell rnds batch = Ok shuffled /\
    input_batch shuffled = input_batch batch /\
    s_nlats shuffled = s_nlats batch /\ s_nlons shuffled = s_nlons batch /\
    regular shuffled /\
    forall v ws, s_vars batch !! v = Some ws ->
      exists ws', s_vars shuffled !! v = Some ws' /\
        Permutation ws' ws /\
        forall i r, rnds !! i = Some r -> ws' !! i = ws !! Z.to_nat r.
Proof.
  intros Hreg Hperm.
  assert (Forall (fun i => 0 <= i < Z.of_nat (input_batch batch)) rnds) as Hall.
  { apply Forall_forall. intros i Hi. rewrite Hperm in Hi.
    apply elem_of_seqZ in Hi. lia. }
  assert (Permutation (map Z.to_nat rnds) (seq 0 (input_batch batch))) as Hps.
  { rewrite map_fmap, Hperm, <- map_fmap, to_nat_seqZ by lia.
    rewrite Nat2Z.id. reflexivity. }
  exists (isel_batch batch (map Z.to_nat rnds)).
  split; [unfold shuffle_cell; rewrite (positions_ok _ _ Hall); reflexivity|].
  split. { simpl. rewrite length_map, Hperm, length_seqZ. lia. }
  split; [reflexivity|]. split; [reflexivity|]. split.
  { apply regular_isel_batch; [exact Hreg|].
    apply Forall_forall. intros p Hp. rewrite map_fmap, Hps in Hp.
    apply elem_of_seq in Hp. lia. }
  intros v ws Hws. destruct (Hreg v ws Hws) as [Hlen _].
  exists (gather ws (map Z.to_nat rnds)). split.
  { simpl. rewrite lookup_fmap, Hws. reflexivity. }
  split.
  - unfold gather. rewrite !map_fmap. rewrite <- map_fmap at 1.
    rewrite Hps, <- Hlen. rewrite <- (gather_seq_all ws) at 2. reflexivity.
  - intros i r Hr. unfold gather. rewrite !map_fmap, !list_lookup_fmap, Hr. simpl.
    symmetry. apply list_lookup_lookup_total_lt.
    rewrite Forall_forall in Hall.
    assert (r ∈ rnds) as Hin by (eapply list_elem_of_lookup_2; exact Hr).
    specialize (Hall r Hin). lia.
Qed.

End Endless.

Lemma generator_nonpositive_size_never_ends_witness :
  (-4) <= 0 /\ (-4) < Z.of_nat (input_batch samples8) /\
  batch_generator 100 samples8 (-4) = None /\
  exists batches,
    first_yields 3 samples8 (-4) 0 = Ok batches /\
    length batches = 3%nat /\
    Forall (fun b => input_batch b = 0%nat /\
                     forall v ws, s_vars b !! v = Some ws -> ws = []) batches.
Proof.
  split; [lia|]. split; [simpl; lia|].
  apply (generator_nonpositive_size_never_ends 100 3 samples8 (-4)); simpl; lia.
Defined.

Lemma regular_samples8 : regular samples8.
Proof.
  intros v ws Hws. unfold samples8 in Hws. simpl in Hws.
  apply lookup_singleton_Some in Hws. destruct Hws as [_ <-].
  split; [reflexivity|]. repeat constructor.
Defined.

Definition rnds8 : list Z := [3; 0; 7; 1; 6; 2; 5; 4].

Lemma rnds8_shuffled : Permutation rnds8 (seqZ 0 (Z.of_nat (input_batch samples8))).
Proof.
  change (seqZ 0 (Z.of_nat (input_batch samples8))) with [0;1;2;3;4;5;6;7].
  unfold rnds8. apply (bool_decide_unpack _). vm_compute. reflexivity.
Defined.

Lemma shuffle_cell_permutes_witness :
  regular samples8 /\
  Permutation rnds8 (seqZ 0 (Z.of_nat (input_batch samples8))) /\
  exists shuffled,
    shuffle_cell rnds8 samples8 = Ok shuffled /\
    input_batch shuffled = input_batch samples8 /\
    s_nlats shuffled = s_nlats samples8 /\ s_nlons shuffled = s_nlons samples8 /\
    regular shuffled /\
    forall v ws, s_vars samples8 !! v = Some ws ->
      exists ws', s_vars shuffled !! v = Some ws' /\
        Permutation ws' ws /\
        forall i r, rnds8 !! i = Some r -> ws' !! i = ws !! Z.to_nat r.
Proof.
  split; [exact regular_samples8|]. split; [exact rnds8_shuffled|].
  apply (shuffle_cell_permutes rnds8 samples8 regular_samples8 rnds8_shuffled).
Defined.

End GeneratorMore.

(** ** More on the batch cell *)

Module BatchMore.
Import Py Batcher Notebook PyFacts AnchorFacts GeneratorFacts BatchFacts TensorFacts.

Lemma sublist_same_length {B : Type} (l1 l2 : list B) :
  l1 `sublist_of` l2 -> length l1 = length l2 -> l1 = l2.
Proof.
  induction 1 as [|x l1 l2 Hsub IH|x l1 l2 Hsub IH]; simpl; intros Hlen.
  - reflexivity.
  - f_equal. apply IH. lia.
  - apply sublist_length in Hsub. lia.
Qed.

Lemma concat_seqZ_blocks (start s : Z) (c : nat) :
  0 <= s ->
  concat (map (fun k => seqZ (start + k * s) s) (seqZ 0 (Z.of_nat c)))
  = seqZ start (Z.of_nat c * s).
Proof.
  intros Hs. induction c as [|c IH]; [reflexivity|].
  rewrite seqZ_S, map_app, concat_app, IH. simpl. rewrite app_nil_r.
  replace (Z.of_nat (S c) * s) with (Z.of_nat c * s + s) by lia.
  rewrite seqZ_app by nia. do 2 f_equal.
Qed.

(** The grid rows (or columns) that stay of the window ending at [r] once
    the stencil [sub] has trimmed [halo] points from both ends. *)
Definition inner_rows (n halo r : Z) : list Z :=
  map (fun a => r - (n - 1) + a) (range2 halo (n - halo)).

Lemma inner_rows_seqZ n halo r :
  inner_rows n halo r = seqZ (r - n + 1 + halo) (Z.max 0 (stride n halo)).
Proof.
  unfold inner_rows, range2, stride, seqZ.
  replace (n - halo - halo) with (n - 2 * halo) by lia.
  rewrite !map_fmap, <- list_fmap_compose. apply list_fmap_ext.
  intros _ i _. simpl. lia.
Qed.

Section Cell.
Context {A : Type}.
Implicit Types (ds : Dataset A) (g : grid A).

(** Two datasets on one grid with the same variables, which agree on every
    cell outside row 0 and column 0. *)
Definition same_inside ds ds' : Prop :=
  latlen ds = latlen ds' /\ lonlen ds = lonlen ds' /\
  (forall v, data_vars ds !! v = None <-> data_vars ds' !! v = None) /\
  forall v g g', data_vars ds !! v = Some g -> data_vars ds' !! v = Some g' ->
    forall y x, 1 <= y < Z.of_nat (latlen ds) -> 1 <= x < Z.of_nat (lonlen ds) ->
      cell_at g y x = cell_at g' y x.

Lemma patches_of_same_inside ds ds' nlats nlons pairs :
  same_inside ds ds' ->
  Forall (fun rc => nlats <= rc.1 < Z.of_nat (latlen ds) /\
                    nlons <= rc.2 < Z.of_nat (lonlen ds)) pairs ->
  patches_of ds nlats nlons pairs = patches_of ds' nlats nlons pairs.
Proof.
  intros (_ & _ & Hdom & Hcells) Hpairs. unfold patches_of. f_equal.
  apply map_eq. intros v. rewrite !lookup_fmap.
  destruct (data_vars ds !! v) as [g|] eqn:Hg;
    destruct (data_vars ds' !! v) as [g'|] eqn:Hg'; simpl.
  - f_equal. apply map_ext_in. intros rc Hrc.
    rewrite Forall_forall in Hpairs.
    destruct (Hpairs rc (proj2 (list_elem_of_In _ _) Hrc)) as [Hr Hc].
    unfold patch, window_at. apply map_ext_in. intros a Ha.
    apply map_ext_in. intros b Hb.
    apply list_elem_of_In, elem_of_seqZ in Ha, Hb.
    apply (Hcells v g g' Hg Hg'); lia.
  - apply Hdom in Hg'. congruence.
  - apply Hdom in Hg. congruence.
  - reflexivity.
Qed.

Lemma Forall_anchor_pairs (P Q : Z -> Prop) nlat_range nlon_range :
  Forall P nlat_range -> Forall Q nlon_range ->
  Forall (fun rc => P rc.1 /\ Q rc.2) (anchor_pairs nlat_range nlon_range).
Proof.
  intros HP HQ. apply Forall_forall. intros [r c] Hrc.
  apply elem_of_anchor_pairs in Hrc. destruct Hrc as [Hr Hc].
  rewrite Forall_forall in HP, HQ. split; [apply HP, Hr | apply HQ, Hc].
Qed.

(** X4: no patch covers row 0 or column 0 of the grid (the first anchor is
    the window size itself, and a window ends at its anchor): a dataset that
    differs from [ds] only there gives the same batch. *)
Theorem batch_cell_ignores_first_row_and_column ds ds' (nlats nlons halo : Z)
    (batch : Stacked A) :
  same_inside ds ds' ->
  batch_cell ds nlats nlons halo = Ok batch ->
  batch_cell ds' nlats nlons halo = Ok batch.
Proof.
  intros Hsame Hcell. pose proof Hsame as (Hlat & Hlon & _).
  apply batch_cell_ok in Hcell.
  destruct Hcell as (lat_r & lon_r & Hlat_r & Hlon_r & Hn1 & Hn2 & Hlat_in & Hlon_in & ->).
  apply batch_cell_ok. exists lat_r, lon_r. rewrite <- Hlat, <- Hlon.
  repeat (split; [assumption|]).
  set (pairs := anchor_pairs lat_r lon_r).
  assert (Forall (fun rc => nlats <= rc.1 < Z.of_nat (latlen ds) /\
                            nlons <= rc.2 < Z.of_nat (lonlen ds)) pairs) as Hpairs
    by (exact (Forall_anchor_pairs (fun r => nlats <= r < Z.of_nat (latlen ds))
                 (fun c => nlons <= c < Z.of_nat (lonlen ds)) _ _ Hlat_in Hlon_in)).
  assert (kept_pairs ds' nlats nlons pairs = kept_pairs ds nlats nlons pairs) as ->.
  { unfold kept_pairs.
    rewrite (patches_of_same_inside ds ds' nlats nlons pairs Hsame Hpairs).
    reflexivity. }
  apply patches_of_same_inside; [exact Hsame|].
  apply Forall_forall. intros rc Hrc. rewrite Forall_forall in Hpairs.
  apply Hpairs. eapply elem_of_sublist; [exact Hrc | apply kept_pairs_sublist].
Qed.

(** X5: a positive window and a positive stride always give a batch, on any
    grid; its samples are [nlats] x [nlons] windows, at most one per anchor
    pair. On a grid that is not larger than the window along an axis the batch
    is empty: a grid of exactly the window size has no anchor, its one full
    window is not taken. *)
Theorem batch_cell_succeeds ds (nlats nlons halo : Z) :
  0 < nlats -> 0 < nlons -> 2 * halo < nlats -> 2 * halo < nlons ->
  exists batch,
    batch_cell ds nlats nlons halo = Ok batch /\
    regular batch /\
    s_nlats batch = Z.to_nat nlats /\ s_nlons batch = Z.to_nat nlons /\
    (input_batch batch
     <= Z.to_nat (range_len nlats (Z.of_nat (latlen ds)) (stride nlats halo))
        * Z.to_nat (range_len nlons (Z.of_nat (lonlen ds)) (stride nlons halo)))%nat /\
    (Z.of_nat (latlen ds) <= nlats \/ Z.of_nat (lonlen ds) <= nlons ->
     input_batch batch = 0%nat).
Proof.
  intros Hn1 Hn2 Hh1 Hh2.
  assert (0 < stride nlats halo) as Hs1 by (unfold stride; lia).
  assert (0 < stride nlons halo) as Hs2 by (unfold stride; lia).
  set (lat_r := map (fun k => nlats + k * stride nlats halo)
                    (seqZ 0 (range_len nlats (Z.of_nat (latlen ds)) (stride nlats halo)))).
  set (lon_r := map (fun k => nlons + k * stride nlons halo)
                    (seqZ 0 (range_len nlons (Z.of_nat (lonlen ds)) (stride nlons halo)))).
  set (pairs := anchor_pairs lat_r lon_r).
  exists (patches_of ds nlats nlons (kept_pairs ds nlats nlons pairs)).
  assert (length (kept_pairs ds nlats nlons pairs)
          <= length lat_r * length lon_r)%nat as Hle.
  { rewrite <- length_anchor_pairs. apply sublist_length, kept_pairs_sublist. }
  unfold lat_r, lon_r in Hle. rewrite !length_map, !length_seqZ in Hle.
  split; [|split; [apply regular_patches_of|split; [reflexivity|split; [reflexivity|]]]].
  - apply batch_cell_ok. exists lat_r, lon_r.
    split; [apply range_pos, Hs1|]. split; [apply range_pos, Hs2|].
    split; [exact Hn1|]. split; [exact Hn2|].
    split; [|split; [|reflexivity]].
    + apply Forall_forall. intros r Hr. apply elem_of_range_pos in Hr; [|exact Hs1].
      destruct Hr as (k & Hk & -> & Hlt). nia.
    + apply Forall_forall. intros c Hc. apply elem_of_range_pos in Hc; [|exact Hs2].
      destruct Hc as (k & Hk & -> & Hlt). nia.
  - split; [exact Hle|]. simpl. intros Hsmall.
    assert (range_len nlats (Z.of_nat (latlen ds)) (stride nlats halo) = 0
            \/ range_len nlons (Z.of_nat (lonlen ds)) (stride nlons halo) = 0) as Hz.
    { unfold range_len.
      destruct (0 <? stride nlats halo) eqn:E1; [|apply Z.ltb_ge in E1; lia].
      destruct (0 <? stride nlons halo) eqn:E2; [|apply Z.ltb_ge in E2; lia].
      destruct Hsmall as [Hsmall|Hsmall]; [left|right].
      - destruct (nlats <? Z.of_nat (latlen ds)) eqn:E; [apply Z.ltb_lt in E; lia|reflexivity].
      - destruct (nlons <? Z.of_nat (lonlen ds)) eqn:E; [apply Z.ltb_lt in E; lia|reflexivity]. }
    destruct Hz as [Hz|Hz]; rewrite Hz in Hle; simpl in Hle; lia.
Qed.

Lemma dropna_keep_all ds nlats nlons pairs :
  (forall rc, rc ∈ pairs -> patch_defined ds nlats nlons rc.1 rc.2) ->
  kept_pairs ds nlats nlons pairs = pairs.
Proof.
  intros Hdef. unfold kept_pairs, dropna_keep.
  rewrite filter_id.
  - simpl. apply GeneratorMore.gather_seq_all.
  - intros k Hk. apply in_seq in Hk. simpl in Hk. apply Nat.eqb_eq.
    destruct (lookup_lt_is_Some_2 pairs k ltac:(lia)) as [rc Hrc].
    apply (keep_iff_defined ds nlats nlons pairs k rc Hrc).
    apply Hdef. eapply list_elem_of_lookup_2, Hrc.
Qed.

(** X6: the batch has one sample per anchor pair exactly when no window of
    an anchor pair has a not-a-number in any variable, and then it lists the
    patches of all anchor pairs row by row. Otherwise it is shorter, and one
    value per sample no longer reshapes to (row anchors, column anchors):
    [reshape] raises [ValueError]. *)
Theorem batch_complete_iff_all_defined ds (nlats nlons halo : Z) (batch : Stacked A)
    (nlat_range nlon_range : list Z) :
  batch_cell ds nlats nlons halo = Ok batch ->
  anchor_range nlats (Z.of_nat (latlen ds)) halo = Ok nlat_range ->
  anchor_range nlons (Z.of_nat (lonlen ds)) halo = Ok nlon_range ->
  (input_batch batch <= length nlat_range * length nlon_range)%nat /\
  (input_batch batch = (length nlat_range * length nlon_range)%nat
   <-> forall r c, r ∈ nlat_range -> c ∈ nlon_range ->
                   patch_defined ds nlats nlons r c) /\
  (input_batch batch = (length nlat_range * length nlon_range)%nat ->
   batch = patches_of ds nlats nlons (anchor_pairs nlat_range nlon_range)) /\
  (input_batch batch <> (length nlat_range * length nlon_range)%nat ->
   forall (B : Type) (preds : list B), length preds = input_batch batch ->
     reshape preds (length nlat_range) (length nlon_range) = Raise ValueError).
Proof.
  intros Hcell Hlat Hlon. apply batch_cell_ok in Hcell.
  destruct Hcell as (lat_r & lon_r & Hlat_r & Hlon_r & _ & _ & _ & _ & ->).
  rewrite Hlat in Hlat_r. rewrite Hlon in Hlon_r.
  injection Hlat_r as <-. injection Hlon_r as <-.
  set (pairs := anchor_pairs nlat_range nlon_range).
  pose proof (kept_pairs_sublist ds nlats nlons pairs) as Hsub.
  simpl. rewrite <- length_anchor_pairs. fold pairs.
  split; [apply sublist_length, Hsub|]. split; [|split].
  - split.
    + intros Hlen r c Hr Hc.
      apply (elem_of_kept_pairs ds nlats nlons pairs (r, c)).
      * apply elem_of_anchor_pairs. auto.
      * rewrite (sublist_same_length _ _ Hsub Hlen).
        apply elem_of_anchor_pairs. auto.
    + intros Hdef. rewrite dropna_keep_all; [reflexivity|].
      intros [r c] Hrc. apply elem_of_anchor_pairs in Hrc. apply Hdef; tauto.
  - intros Hlen. rewrite (sublist_same_length _ _ Hsub Hlen). reflexivity.
  - intros Hne B preds Hpreds. unfold reshape.
    rewrite <- length_anchor_pairs. fold pairs. rewrite Hpreds.
    destruct (Nat.eqb_spec (length (kept_pairs ds nlats nlons pairs)) (length pairs));
      [contradiction | reflexivity].
Qed.

End Cell.

(** What the stencil keeps of a window, as grid cells. *)
Lemma trimmed_window_cells {A : Type} (g : grid A) (n m halo r c : Z)
    (ps qs : list nat) :
  0 <= halo -> 2 * halo < n -> 2 * halo < m ->
  positions (Z.to_nat n) (sub_nlat (sub halo m n)) = Ok ps ->
  positions (Z.to_nat m) (sub_nlon (sub halo m n)) = Ok qs ->
  map (fun row => gather row qs) (gather (window_at n m g r c) ps)
  = map (fun y => map (fun x => cell_at g y x) (inner_rows m halo c))
        (inner_rows n halo r).
Proof.
  intros Hh Hn Hm Hps Hqs. unfold sub in Hps, Hqs. simpl in Hps, Hqs.
  rewrite positions_ok in Hps
    by (apply Forall_forall; intros i Hi; apply elem_of_seqZ in Hi; lia).
  rewrite positions_ok in Hqs
    by (apply Forall_forall; intros i Hi; apply elem_of_seqZ in Hi; lia).
  injection Hps as <-. injection Hqs as <-.
  unfold window_at, inner_rows.
  replace (seqZ 0 n) with (seqZ 0 (Z.of_nat (Z.to_nat n)))
    by (rewrite Z2Nat.id; [reflexivity | lia]).
  rewrite gather_tabulate
    by (apply Forall_forall; intros i Hi; apply elem_of_seqZ in Hi; lia).
  rewrite !map_map. apply map_ext. intros a.
  replace (seqZ 0 m) with (seqZ 0 (Z.of_nat (Z.to_nat m)))
    by (rewrite Z2Nat.id; [reflexivity | lia]).
  rewrite gather_tabulate
    by (apply Forall_forall; intros i Hi; apply elem_of_seqZ in Hi; lia).
  rewrite map_map. reflexivity.
Qed.

(** X7: with a halo that is not negative and a window wider than twice the
    halo, what the stencil [sub] keeps of the window ending at [(r, c)] are
    the grid cells of the rows [inner_rows nlats halo r] and the columns
    [inner_rows nlons halo c]; and along an axis these rows, taken anchor
    after anchor, are the consecutive rows from [1 + halo] on: the trimmed
    windows of neighbouring anchors touch and never overlap. *)
Theorem trimmed_windows_tile (n halo axis_len : Z) (anchors : list Z) :
  0 <= halo -> 2 * halo < n ->
  anchor_range n axis_len halo = Ok anchors ->
  concat (map (inner_rows n halo) anchors)
  = seqZ (1 + halo) (Z.of_nat (length anchors) * stride n halo) /\
  forall (A : Type) (g : grid A) (m r c : Z) (ps qs : list nat),
    2 * halo < m ->
    positions (Z.to_nat n) (sub_nlat (sub halo m n)) = Ok ps ->
    positions (Z.to_nat m) (sub_nlon (sub halo m n)) = Ok qs ->
    map (fun row => gather row qs) (gather (window_at n m g r c) ps)
    = map (fun y => map (fun x => cell_at g y x) (inner_rows m halo c))
          (inner_rows n halo r).
Proof.
  intros Hh Hn Hrange.
  assert (0 < stride n halo) as Hs by (unfold stride; lia).
  unfold anchor_range in Hrange. rewrite (range_pos _ _ _ Hs) in Hrange.
  injection Hrange as <-. split.
  - rewrite length_map, length_seqZ, map_map.
    pose proof (range_len_nonneg n axis_len (stride n halo) ltac:(lia)) as Hlen.
    rewrite <- (concat_seqZ_blocks (1 + halo) (stride n halo)
                  (Z.to_nat (range_len n axis_len (stride n halo)))) by lia.
    rewrite Z2Nat.id by exact Hlen. f_equal. apply map_ext. intros k.
    rewrite inner_rows_seqZ. f_equal; lia.
  - intros A g m r c ps qs Hm Hps Hqs.
    apply (trimmed_window_cells g n m halo r c ps qs Hh Hn Hm Hps Hqs).
Qed.

(** A 3 x 3 dataset and the same with row 0 and column 0 blanked. *)
Definition ds3 : Dataset Z :=
  {| latlen := 3;
     lonlen := 3;
     data_vars := {[ "SSH"%string := grid_of 3 3 (fun i j => Some (10 * i + j)) ]} |}.

Definition ds3_blank : Dataset Z :=
  {| latlen := 3;
     lonlen := 3;
     data_vars :=
       {[ "SSH"%string :=
            grid_of 3 3 (fun i j =>
              if (i =? 0) || (j =? 0) then None else Some (10 * i + j)) ]} |}.

Lemma same_inside_ds3 : same_inside ds3 ds3_blank.
Proof.
  split; [reflexivity|]. split; [reflexivity|]. split.
  - intros v. unfold ds3, ds3_blank. simpl. rewrite !lookup_singleton_None. tauto.
  - intros v g g' Hg Hg' y x Hy Hx. unfold ds3, ds3_blank in *. simpl in *.
    apply lookup_singleton_Some in Hg, Hg'.
    destruct Hg as [_ <-]. destruct Hg' as [_ <-].
    assert (y = 1 \/ y = 2) as [-> | ->] by lia;
      assert (x = 1 \/ x = 2) as [-> | ->] by lia; reflexivity.
Defined.

Lemma batch_cell_ignores_first_row_and_column_witness :
  same_inside ds3 ds3_blank /\
  exists batch,
    batch_cell ds3 2 2 0 = Ok batch /\ batch_cell ds3_blank 2 2 0 = Ok batch.
Proof.
  split; [exact same_inside_ds3|]. eexists. split; [vm_compute; reflexivity|].
  apply (batch_cell_ignores_first_row_and_column ds3 ds3_blank 2 2 0);
    [exact same_inside_ds3 | vm_compute; reflexivity].
Defined.

Lemma batch_cell_succeeds_witness :
  0 < 2 /\ 0 < 2 /\ 2 * 0 < 2 /\ 2 * 0 < 2 /\
  (exists batch,
     batch_cell ds5 2 2 0 = Ok batch /\
     regular batch /\
     s_nlats batch = Z.to_nat 2 /\ s_nlons batch = Z.to_nat 2 /\
     (input_batch batch
      <= Z.to_nat (range_len 2 (Z.of_nat (latlen ds5)) (stride 2 0))
         * Z.to_nat (range_len 2 (Z.of_nat (lonlen ds5)) (stride 2 0)))%nat /\
     (Z.of_nat (latlen ds5) <= 2 \/ Z.of_nat (lonlen ds5) <= 2 ->
      input_batch batch = 0%nat)) /\
  (exists batch,
     batch_cell ds5 2 2 0 = Ok batch /\ input_batch batch = 3%nat /\
     (Z.to_nat (range_len 2 (Z.of_nat (latlen ds5)) (stride 2 0))
      * Z.to_nat (range_len 2 (Z.of_nat (lonlen ds5)) (stride 2 0)))%nat = 4%nat) /\
  (exists batch,
     batch_cell ds5 5 5 2 = Ok batch /\ input_batch batch = 0%nat).
Proof.
  split; [lia|]. split; [lia|]. split; [lia|]. split; [lia|].
  split; [apply (batch_cell_succeeds ds5 2 2 0); lia|].
  split; [eexists; split; [vm_compute; reflexivity | split; reflexivity]|].
  destruct (batch_cell_succeeds ds5 5 5 2 ltac:(lia) ltac:(lia) ltac:(lia) ltac:(lia))
    as (batch & Hbatch & _ & _ & _ & _ & Hzero).
  exists batch. split; [exact Hbatch|]. apply Hzero. simpl. lia.
Defined.

Lemma batch_complete_iff_all_defined_witness :
  exists batch nlat_range nlon_range,
    batch_cell ds5 2 2 0 = Ok batch /\
    anchor_range 2 (Z.of_nat (latlen ds5)) 0 = Ok nlat_range /\
    anchor_range 2 (Z.of_nat (lonlen ds5)) 0 = Ok nlon_range /\
    (input_batch batch <= length nlat_range * length nlon_range)%nat /\
    (input_batch batch = (length nlat_range * length nlon_range)%nat
     <-> forall r c, r ∈ nlat_range -> c ∈ nlon_range -> patch_defined ds5 2 2 r c) /\
    (input_batch batch = (length nlat_range * length nlon_range)%nat ->
     batch = patches_of ds5 2 2 (anchor_pairs nlat_range nlon_range)) /\
    (input_batch batch <> (length nlat_range * length nlon_range)%nat ->
     forall (B : Type) (preds : list B), length preds = input_batch batch ->
       reshape preds (length nlat_range) (length nlon_range) = Raise ValueError).
Proof.
  do 3 eexists.
  split; [vm_compute; reflexivity|].
  split; [vm_compute; reflexivity|].
  split; [vm_compute; reflexivity|].
  apply (batch_complete_iff_all_defined ds5 2 2 0); vm_compute; reflexivity.
Defined.

Lemma trimmed_windows_tile_witness :
  0 <= 2 /\ 2 * 2 < 5 /\
  exists anchors,
    anchor_range 5 12 2 = Ok anchors /\
    concat (map (inner_rows 5 2) anchors)
    = seqZ (1 + 2) (Z.of_nat (length anchors) * stride 5 2) /\
    forall (A : Type) (g : grid A) (m r c : Z) (ps qs : list nat),
      2 * 2 < m ->
      positions (Z.to_nat 5) (sub_nlat (sub 2 m 5)) = Ok ps ->
      positions (Z.to_nat m) (sub_nlon (sub 2 m 5)) = Ok qs ->
      map (fun row => gather row qs) (gather (window_at 5 m g r c) ps)
      = map (fun y => map (fun x => cell_at g y x) (inner_rows m 2 c))
            (inner_rows 5 2 r).
Proof.
  split; [lia|]. split; [lia|]. eexists. split; [vm_compute; reflexivity|].
  apply (trimmed_windows_tile 5 2 12); [lia | lia | vm_compute; reflexivity].
Defined.

End BatchMore.

(** ** The outcomes of the tensor cell *)

Module TensorMore.
Import Py Batcher PyFacts AnchorFacts GeneratorFacts BatchFacts TensorFacts.

Section Outcome.
Context {A : Type}.
Implicit Types (b : Stacked A) (d : DataArray A).






End Outcome.




End TensorMore.

(** ** More on the cells around the model *)

Module NotebookMore.
Import Py Batcher Notebook PyFacts AnchorFacts GeneratorFacts BatchFacts TensorFacts.

Lemma position_raises_IndexError n i e : position n i = Raise e -> e = IndexError.
Proof.
  unfold position.
  destruct ((0 <=? (if i <? 0 then i + Z.of_nat n else i))
            && ((if i <? 0 then i + Z.of_nat n else i) <? Z.of_nat n));
    [discriminate | congruence].
Qed.

Lemma positions_raises_IndexError n idx e : positions n idx = Raise e -> e = IndexError.
Proof.
  unfold positions. induction idx as [|i idx IH]; simpl; [discriminate|].
  destruct (position n i) as [p|e'] eqn:Hp; simpl.
  - destruct (mapM (position n) idx) as [ps|e'']; simpl; [discriminate|].
    intros [= <-]. apply IH. reflexivity.
  - intros [= <-]. eapply position_raises_IndexError, Hp.
Qed.

Lemma positions_range2_short n a b :
  0 <= a -> a < b -> Z.of_nat n < b -> positions n (range2 a b) = Raise IndexError.
Proof.
  intros Ha Hab Hn. destruct (positions n (range2 a b)) as [ps|e] eqn:Hps.
  - apply positions_inv in Hps.
    + destruct Hps as [_ Hall]. rewrite Forall_forall in Hall.
      specialize (Hall (b - 1)). unfold range2 in Hall.
      rewrite elem_of_seqZ in Hall. lia.
    + apply Forall_forall. intros i Hi. unfold range2 in Hi.
      apply elem_of_seqZ in Hi. lia.
  - f_equal. eapply positions_raises_IndexError, Hps.
Qed.

Lemma cell_at_total {A : Type} (g : grid A) (y x : Z) :
  0 <= y -> 0 <= x -> cell_at g y x = (g !!! Z.to_nat y) !!! Z.to_nat x.
Proof.
  intros Hy Hx. unfold cell_at.
  destruct (0 <=? y) eqn:E1; [|apply Z.leb_gt in E1; lia].
  destruct (0 <=? x) eqn:E2; [|apply Z.leb_gt in E2; lia].
  simpl. rewrite !list_lookup_total_alt.
  destruct (g !! Z.to_nat y) as [row|]; simpl; [|reflexivity].
  destruct (row !! Z.to_nat x); reflexivity.
Qed.

Lemma concat_reshape_rows {B : Type} (a : list B) (rows cols : nat) :
  length a = (rows * cols)%nat ->
  concat (map (fun i => take cols (drop (i * cols) a)) (seq 0 rows)) = a.
Proof.
  revert a. induction rows as [|rows IH]; intros a Hlen.
  - destruct a; [reflexivity | discriminate].
  - change (seq 0 (S rows)) with (0%nat :: seq 1 rows).
    rewrite <- seq_shift. cbn [map concat]. rewrite map_map.
    change (drop (0 * cols) a) with a.
    transitivity (take cols a ++ drop cols a); [|apply take_drop]. f_equal.
    rewrite <- (IH (drop cols a)) by (rewrite length_drop; lia).
    f_equal. apply map_ext. intros i. rewrite drop_drop. reflexivity.
Qed.

(** X9: [reshape] succeeds exactly when the length is [rows * cols] and
    raises [ValueError] otherwise; the result has [rows] rows of [cols] items,
    and reading it row after row gives the array back. *)
Theorem reshape_round_trip {B : Type} (a : list B) (rows cols : nat) :
  (length a = (rows * cols)%nat ->
   exists m, reshape a rows cols = Ok m /\
             length m = rows /\ Forall (fun row => length row = cols) m /\
             concat m = a) /\
  (length a <> (rows * cols)%nat -> reshape a rows cols = Raise ValueError).
Proof.
  unfold reshape. split; intros Hlen.
  - rewrite (proj2 (Nat.eqb_eq _ _) Hlen). eexists. split; [reflexivity|].
    split; [rewrite length_map, length_seq; reflexivity|].
    split; [|apply concat_reshape_rows, Hlen].
    apply Forall_forall. intros row Hrow.
    apply list_elem_of_In, in_map_iff in Hrow. destruct Hrow as (i & <- & Hi).
    apply in_seq in Hi. rewrite length_take, length_drop. nia.
  - rewrite (proj2 (Nat.eqb_neq _ _) Hlen). reflexivity.
Qed.

Section Cells.
Context {A : Type}.

(** X10: [select_from] needs a grid of at least 1050 rows and 2200 columns
    and raises [IndexError] on a smaller one; the result is the 550 x 350
    block whose cell [(i, j)] is the cell [(500 + i, 1850 + j)] of the
    dataset, for every variable. *)
Theorem select_from_crops (ds : Dataset A) :
  ((1050 <= latlen ds)%nat /\ (2200 <= lonlen ds)%nat ->
   exists ds',
     select_from ds = Ok ds' /\ latlen ds' = 550%nat /\ lonlen ds' = 350%nat /\
     forall v, data_vars ds' !! v = None <-> data_vars ds !! v = None) /\
  ((latlen ds < 1050)%nat \/ (lonlen ds < 2200)%nat ->
   select_from ds = Raise IndexError) /\
  (forall ds' v g,
     select_from ds = Ok ds' -> data_vars ds !! v = Some g ->
     exists g', data_vars ds' !! v = Some g' /\
       length g' = 550%nat /\ Forall (fun row => length row = 350%nat) g' /\
       forall i j, 0 <= i < 550 -> 0 <= j < 350 ->
         cell_at g' i j = cell_at g (500 + i) (1850 + j)).
Proof.
  split; [|split].
  - intros [Hlat Hlon]. unfold select_from.
    rewrite (positions_range2 (lonlen ds) 1850 2200) by lia.
    rewrite (positions_range2 (latlen ds) 500 1050) by lia.
    cbn [bind]. eexists. split; [reflexivity|].
    cbn [latlen lonlen data_vars]. rewrite !length_seq.
    split; [reflexivity|]. split; [reflexivity|].
    intros v. rewrite lookup_fmap.
    destruct (data_vars ds !! v); cbn [fmap option_fmap option_map];
      split; congruence.
  - intros Hsmall. unfold select_from.
    destruct (Nat.lt_ge_cases (lonlen ds) 2200) as [Hlon|Hlon].
    + rewrite (positions_range2_short (lonlen ds)) by lia. reflexivity.
    + rewrite (positions_range2 (lonlen ds)) by lia. cbn [bind].
      rewrite (positions_range2_short (latlen ds)) by lia. reflexivity.
  - intros ds' v g Hsel Hg. unfold select_from in Hsel.
    apply bind_ok in Hsel. destruct Hsel as (qs & Hqs & Hsel).
    apply bind_ok in Hsel. destruct Hsel as (ps & Hps & [= <-]).
    cbn [data_vars].
    assert (Forall (fun i => 0 <= i) (range2 1850 2200) /\
            Forall (fun i => 0 <= i) (range2 500 1050)) as [Hnn1 Hnn2].
    { split; apply Forall_forall; intros i Hi; unfold range2 in Hi;
        apply elem_of_seqZ in Hi; lia. }
    destruct (positions_inv _ _ _ Hqs Hnn1) as [-> _].
    destruct (positions_inv _ _ _ Hps Hnn2) as [-> _].
    unfold range2. rewrite !to_nat_seqZ by lia.
    set (r0 := Z.to_nat 500). set (c0 := Z.to_nat 1850).
    set (nr := Z.to_nat (Z.max 0 (1050 - 500))).
    set (nc := Z.to_nat (Z.max 0 (2200 - 1850))).
    assert (nr = 550%nat) as Hnr by reflexivity.
    assert (nc = 350%nat) as Hnc by reflexivity.
    rewrite lookup_fmap, Hg. cbn [fmap option_fmap option_map].
    eexists. split; [reflexivity|].
    split; [unfold gather; rewrite !length_map, length_seq; exact Hnr|]. split.
    + apply Forall_forall. intros row Hrow.
      apply list_elem_of_In, in_map_iff in Hrow. destruct Hrow as (r & <- & _).
      unfold gather. rewrite length_map, length_seq. exact Hnc.
    + intros i j Hi Hj. rewrite !cell_at_total by lia.
      rewrite map_fmap.
      rewrite (list_lookup_total_fmap (fun row => gather row (seq c0 nc))
                 (gather g (seq r0 nr)) (Z.to_nat i))
        by (unfold gather; rewrite length_map, length_seq; lia).
      rewrite !gather_seq_lookup by lia. unfold r0, c0. do 2 f_equal; lia.
Qed.

(** X11: the loop [for batch in bgen] leaves the name [batch] bound to the
    last mini-batch. A generator made from any mini-batch the generator has
    yielded (as when the generator cell is run again after the loop) ends at
    once and yields nothing, without an error. *)
Theorem generator_of_minibatch_is_empty (fuel fuel' : nat) (batch : Stacked A)
    (batch_size : Z) (batches : list (Stacked A)) (b : Stacked A) :
  batch_generator fuel batch batch_size = Some (Ok batches) ->
  b ∈ batches ->
  batch_generator (S fuel') b batch_size = Some (Ok []).
Proof.
  intros Hgen Hb. apply list_elem_of_In in Hb.
  destruct (batch_generator_from_yields fuel batch batch_size 0 batches b
              (Z.le_refl 0) Hgen Hb) as (Hpos & m & Hm & Hend & ->).
  unfold batch_generator. simpl. rewrite length_seq.
  destruct (0 <? Z.of_nat (Z.to_nat batch_size) - batch_size) eqn:E;
    [apply Z.ltb_lt in E; lia | reflexivity].
Qed.

End Cells.

(** The bound of a slice on an axis of length [n], as Python and numpy
    read it: a negative bound counts from the end, and both are clamped to
    the axis. *)
Definition clamp_index (n i : Z) : Z :=
  if i <? 0 then Z.max 0 (i + n) else Z.min i n.

(** The positions of [a[start:stop]] on an axis of length [n]. *)
Definition py_slice (n : nat) (start stop : Z) : list Z :=
  let lo := clamp_index (Z.of_nat n) start in
  let hi := clamp_index (Z.of_nat n) stop in
  seqZ lo (Z.max 0 (hi - lo)).

(** [U[a:b, c:d]] on a variable with the axes [(nlat, nlon)]. *)
Definition getitem_slices {A : Type} (g : grid A) (latlen lonlen : nat)
    (a b c d : Z) : grid A :=
  map (fun y => map (fun x => cell_at g y x) (py_slice lonlen c d))
      (py_slice latlen a b).

Lemma window_centres (halo : Z) (axis_len : nat) (anchors : list Z) :
  1 <= halo ->
  anchor_range (2 * halo + 1) (Z.of_nat axis_len) halo = Ok anchors ->
  map (fun r => r - halo) anchors = py_slice axis_len (1 + halo) (- halo).
Proof.
  intros Hh Hrange. unfold anchor_range in Hrange.
  assert (stride (2 * halo + 1) halo = 1) as Hs by (unfold stride; lia).
  rewrite Hs, (range_pos _ _ 1) in Hrange by lia. injection Hrange as <-.
  unfold py_slice, clamp_index.
  destruct (1 + halo <? 0) eqn:E1; [apply Z.ltb_lt in E1; lia|].
  destruct (- halo <? 0) eqn:E2; [|apply Z.ltb_ge in E2; lia].
  assert (range_len (2 * halo + 1) (Z.of_nat axis_len) 1
          = Z.max 0 (Z.of_nat axis_len - (2 * halo + 1))) as ->.
  { unfold range_len. change (0 <? 1) with true. cbv iota.
    destruct (2 * halo + 1 <? Z.of_nat axis_len) eqn:E.
    - apply Z.ltb_lt in E. rewrite Z.div_1_r. lia.
    - apply Z.ltb_ge in E. lia. }
  destruct (Z.le_gt_cases (Z.of_nat axis_len) (2 * halo + 1)) as [Hsmall|Hbig].
  - rewrite (seqZ_nil 0) by lia. rewrite seqZ_nil by lia. reflexivity.
  - replace (Z.min (1 + halo) (Z.of_nat axis_len)) with (1 + halo) by lia.
    replace (Z.max 0 (Z.max 0 (- halo + Z.of_nat axis_len) - (1 + halo)))
      with (Z.max 0 (Z.of_nat axis_len - (2 * halo + 1))) by lia.
    rewrite map_map. unfold seqZ. rewrite !map_fmap, <- list_fmap_compose.
    apply list_fmap_ext. intros _ k _. simpl. lia.
Qed.

(** X21: for a window of [2 * halo + 1] points with [halo >= 1] (the
    notebook's 5 and 2), what the stencil keeps of the window of an anchor
    pair [(r, c)] is the one cell [(r - halo, c - halo)] of the grid; and the
    slice [U[1 + halo : -halo, 1 + halo : -halo]] (the notebook's
    [U[3:-2,3:-2]]) is, row by row, that cell of every anchor pair: it has the
    layout of the reshaped predictions it is subtracted from. *)
Theorem comparison_slice_is_window_centres {A : Type} (g : grid A) (halo : Z)
    (latlen lonlen : nat) (lat_r lon_r : list Z) :
  1 <= halo ->
  anchor_range (2 * halo + 1) (Z.of_nat latlen) halo = Ok lat_r ->
  anchor_range (2 * halo + 1) (Z.of_nat lonlen) halo = Ok lon_r ->
  getitem_slices g latlen lonlen (1 + halo) (- halo) (1 + halo) (- halo)
  = map (fun r => map (fun c => cell_at g (r - halo) (c - halo)) lon_r) lat_r /\
  forall r c ps qs,
    positions (Z.to_nat (2 * halo + 1))
      (sub_nlat (sub halo (2 * halo + 1) (2 * halo + 1))) = Ok ps ->
    positions (Z.to_nat (2 * halo + 1))
      (sub_nlon (sub halo (2 * halo + 1) (2 * halo + 1))) = Ok qs ->
    map (fun row => gather row qs)
        (gather (window_at (2 * halo + 1) (2 * halo + 1) g r c) ps)
    = [[cell_at g (r - halo) (c - halo)]].
Proof.
  intros Hh Hlat Hlon. split.
  - unfold getitem_slices.
    rewrite <- (window_centres halo latlen lat_r Hh Hlat).
    rewrite <- (window_centres halo lonlen lon_r Hh Hlon).
    rewrite !map_map. apply map_ext. intros r. rewrite map_map. reflexivity.
  - intros r c ps qs Hps Hqs.
    rewrite (BatchMore.trimmed_window_cells g _ _ halo r c ps qs) by (lia || assumption).
    rewrite !BatchMore.inner_rows_seqZ.
    assert (stride (2 * halo + 1) halo = 1) as -> by (unfold stride; lia).
    assert (forall a, seqZ a (Z.max 0 1) = [a]) as Hone
      by (intros a; unfold seqZ; simpl; f_equal; lia).
    rewrite !Hone. simpl. repeat f_equal; lia.
Qed.

Lemma comparison_slice_is_window_centres_witness :
  1 <= 2 /\
  exists lat_r lon_r,
    anchor_range (2 * 2 + 1) (Z.of_nat 8) 2 = Ok lat_r /\
    anchor_range (2 * 2 + 1) (Z.of_nat 8) 2 = Ok lon_r /\
    getitem_slices (grid_of 8 8 (fun i j => Some (10 * i + j))) 8 8
      (1 + 2) (- 2) (1 + 2) (- 2)
    = map (fun r => map (fun c =>
             cell_at (grid_of 8 8 (fun i j => Some (10 * i + j))) (r - 2) (c - 2))
           lon_r) lat_r /\
    forall r c ps qs,
      positions (Z.to_nat (2 * 2 + 1)) (sub_nlat (sub 2 (2 * 2 + 1) (2 * 2 + 1))) = Ok ps ->
      positions (Z.to_nat (2 * 2 + 1)) (sub_nlon (sub 2 (2 * 2 + 1) (2 * 2 + 1))) = Ok qs ->
      map (fun row => gather row qs)
          (gather (window_at (2 * 2 + 1) (2 * 2 + 1)
                     (grid_of 8 8 (fun i j => Some (10 * i + j))) r c) ps)
      = [[cell_at (grid_of 8 8 (fun i j => Some (10 * i + j))) (r - 2) (c - 2)]].
Proof.
  split; [lia|]. do 2 eexists.
  split; [vm_compute; reflexivity|]. split; [vm_compute; reflexivity|].
  apply (comparison_slice_is_window_centres
           (grid_of 8 8 (fun i j => Some (10 * i + j))) 2 8 8);
    [lia | vm_compute; reflexivity | vm_compute; reflexivity].
Defined.

Lemma generator_of_minibatch_is_empty_witness :
  exists b,
    batch_generator 9 samples8 4 = Some (Ok [b]) /\ b ∈ [b] /\
    batch_generator 1 b 4 = Some (Ok []).
Proof.
  eexists. split; [vm_compute; reflexivity|].
  split; [apply list_elem_of_here|].
  eapply (generator_of_minibatch_is_empty 9 0 samples8 4);
    [vm_compute; reflexivity | apply list_elem_of_here].
Defined.

End NotebookMore.

(** ** More on the preparation notebook: the store *)

Module PrepMore.
Import Py Prep BatchFacts PrepFacts.

Lemma append_cons (c : Ascii.ascii) (a s : string) :
  String c a +:+ s = String c (a +:+ s).
Proof. reflexivity. Qed.

Lemma string_length_append (a s : string) :
  String.length (a +:+ s) = (String.length a + String.length s)%nat.
Proof.
  induction a as [|c a IH]; [reflexivity|].
  rewrite append_cons. simpl. rewrite IH. reflexivity.
Qed.

Lemma append_inv_tail (a b s : string) : a +:+ s = b +:+ s -> a = b.
Proof.
  revert b. induction a as [|c a IH]; intros [|c' b] H.
  - reflexivity.
  - apply (f_equal String.length) in H.
    rewrite !string_length_append in H. simpl in H. lia.
  - apply (f_equal String.length) in H.
    rewrite !string_length_append in H. simpl in H. lia.
  - rewrite !append_cons in H. injection H as -> H. f_equal. apply IH, H.
Qed.

(** The groups [prepare_data] writes for a scenario. *)
Definition training_key (sc : Scenario) : string := ("training_" +:+ name sc) +:+ ".zarr".
Definition test_key (sc : Scenario) : string := ("test_" +:+ name sc) +:+ ".zarr".
Definition predict_key (sc : Scenario) : string := ("predict_" +:+ name sc) +:+ ".zarr".

Definition scenario_keys (sc : Scenario) : list string :=
  [training_key sc; test_key sc; predict_key sc].

Lemma scenario_keys_distinct sc :
  training_key sc <> test_key sc /\ training_key sc <> predict_key sc /\
  test_key sc <> predict_key sc.
Proof.
  unfold training_key, test_key, predict_key. simpl.
  repeat split; discriminate.
Qed.

Lemma scenario_keys_disjoint sc sc' k :
  name sc <> name sc' -> k ∈ scenario_keys sc -> k ∉ scenario_keys sc'.
Proof.
  intros Hne Hk Hk'. unfold scenario_keys in *.
  assert (forall p : string, (p +:+ name sc) +:+ ".zarr" = (p +:+ name sc') +:+ ".zarr"
                             -> False) as Hsame.
  { intros p H. apply append_inv_tail, String.app_inj in H. contradiction. }
  rewrite !elem_of_cons, elem_of_nil in Hk, Hk'.
  unfold training_key, test_key, predict_key in *.
  destruct Hk as [->|[->|[->|[]]]]; destruct Hk' as [H|[H|[H|[]]]];
    try (simpl in H; discriminate H);
    exact (Hsame _ H).
Qed.

Section Store.
Context {arr : Type} {ops : ArrayOps arr}.
Implicit Types (cat ds : XDataset arr) (store : Store arr).

Ltac store_lookups :=
  unfold to_zarr, Store in *; rewrite ?lookup_insert; repeat case_decide;
  try congruence; try reflexivity.

Lemma prepare_data_frame cat sc (training_time test_time predict_time mask_time : indexer)
    store k :
  k ∉ scenario_keys sc ->
  (prepare_data cat sc training_time test_time predict_time mask_time store).1 !! k
  = store !! k.
Proof.
  intros Hk. unfold scenario_keys in Hk.
  rewrite !not_elem_of_cons in Hk. destruct Hk as (H1 & H2 & H3 & _).
  unfold training_key, test_key, predict_key in *. unfold prepare_data.
  destruct (prepared cat sc mask_time) as [p|e]; [|reflexivity].
  destruct (isel_time p training_time) as [d1|e]; [|reflexivity].
  destruct (isel_time p test_time) as [d2|e]; [simpl|simpl; store_lookups].
  destruct (isel_time p predict_time) as [d3|e]; simpl; store_lookups.
Qed.

(** X12: [prepare_data] touches no group of the store but the three of its
    scenario, however it ends; and it writes them in the order training,
    test, predict: a call that ends with an error has written nothing, or the
    training slice only, or the training and the test slices. *)
Theorem prepare_data_writes_in_order cat (sc : Scenario)
    (training_time test_time predict_time mask_time : indexer) store :
  (forall k, k ∉ scenario_keys sc ->
     (prepare_data cat sc training_time test_time predict_time mask_time store).1 !! k
     = store !! k) /\
  (forall e,
     (prepare_data cat sc training_time test_time predict_time mask_time store).2
     = Raise e ->
     (prepare_data cat sc training_time test_time predict_time mask_time store).1 = store
     \/ exists p d1,
          prepared cat sc mask_time = Ok p /\ isel_time p training_time = Ok d1 /\
          ((prepare_data cat sc training_time test_time predict_time mask_time store).1
           = <[training_key sc := d1]> store
           \/ exists d2,
                isel_time p test_time = Ok d2 /\
                (prepare_data cat sc training_time test_time predict_time mask_time store).1
                = <[test_key sc := d2]> (<[training_key sc := d1]> store))).
Proof.
  split; [intros k Hk; apply prepare_data_frame, Hk|].
  intros e. unfold prepare_data.
  destruct (prepared cat sc mask_time) as [p|e0]; [|left; reflexivity].
  destruct (isel_time p training_time) as [d1|e1] eqn:H1; [|left; reflexivity].
  destruct (isel_time p test_time) as [d2|e2] eqn:H2.
  - destruct (isel_time p predict_time) as [d3|e3]; simpl; [discriminate|].
    intros _. right. exists p, d1. split; [reflexivity|]. split; [exact H1|].
    right. exists d2. split; [exact H2 | reflexivity].
  - simpl. intros _. right. exists p, d1. split; [reflexivity|]. split; [exact H1|].
    left. reflexivity.
Qed.

(** X13: running [prepare_data] again with the same arguments on the store
    it left changes nothing and ends the same way ([mode = 'w'] replaces a
    group by what is written). *)
Theorem prepare_data_idempotent cat (sc : Scenario)
    (training_time test_time predict_time mask_time : indexer) store :
  prepare_data cat sc training_time test_time predict_time mask_time
    (prepare_data cat sc training_time test_time predict_time mask_time store).1
  = prepare_data cat sc training_time test_time predict_time mask_time store.
Proof.
  unfold prepare_data.
  destruct (prepared cat sc mask_time) as [p|e]; [|reflexivity].
  destruct (isel_time p training_time) as [d1|e]; [|reflexivity].
  destruct (isel_time p test_time) as [d2|e]; simpl.
  - destruct (isel_time p predict_time) as [d3|e]; simpl; f_equal;
      apply (map_eq (M := gmap string)); intros k; store_lookups.
  - f_equal. apply (map_eq (M := gmap string)). intros k. store_lookups.
Qed.

(** X14: preparing one scenario leaves the slices of every scenario with
    another name as they were: each of the three loaders returns for the
    other scenario what it returned before (or fails as before). *)
Theorem other_scenario_slices_untouched cat (sc sc' : Scenario)
    (training_time test_time predict_time mask_time : indexer) store :
  name sc <> name sc' ->
  load_training_data
    (prepare_data cat sc training_time test_time predict_time mask_time store).1 sc'
  = load_training_data store sc' /\
  load_test_data
    (prepare_data cat sc training_time test_time predict_time mask_time store).1 sc'
  = load_test_data store sc' /\
  load_predict_data
    (prepare_data cat sc training_time test_time predict_time mask_time store).1 sc'
  = load_predict_data store sc'.
Proof.
  intros Hne.
  assert (forall k, k ∈ scenario_keys sc' ->
            (prepare_data cat sc training_time test_time predict_time mask_time store).1
              !! k = store !! k) as Hframe.
  { intros k Hk. apply prepare_data_frame. intros Hk'.
    exact (scenario_keys_disjoint sc sc' k Hne Hk' Hk). }
  unfold load_training_data, load_test_data, load_predict_data, loader.
  rewrite !Hframe; [auto | | | ];
    unfold scenario_keys, training_key, test_key, predict_key;
    rewrite !elem_of_cons;
    first [ left; reflexivity | right; left; reflexivity
          | right; right; left; reflexivity ].
Qed.

(** X15: when the test time and the prediction time are the same indexer (as
    in the notebook's call [prepare_data(sc5, 200, 1000, 1000, 200)]), the
    test data and the prediction data that are loaded afterwards are the same
    dataset. *)
Theorem same_time_same_slice cat (sc : Scenario)
    (training_time time mask_time : indexer) store store' :
  prepare_data cat sc training_time time time mask_time store = (store', Ok tt) ->
  exists ds,
    load_test_data store' sc = Ok ds /\ load_predict_data store' sc = Ok ds.
Proof.
  unfold prepare_data.
  destruct (prepared cat sc mask_time) as [p|e]; [|discriminate].
  destruct (isel_time p training_time) as [d1|e]; [|discriminate].
  destruct (isel_time p time) as [d2|e]; [|discriminate].
  intros [= <-]. exists d2.
  destruct (scenario_keys_distinct sc) as (_ & _ & Hne).
  unfold load_test_data, load_predict_data, loader.
  change (("test" +:+ "_") +:+ name sc) with ("test_" +:+ name sc).
  change (("predict" +:+ "_") +:+ name sc) with ("predict_" +:+ name sc).
  unfold test_key, predict_key in Hne. unfold to_zarr, Store.
  rewrite lookup_insert_eq.
  rewrite lookup_insert_ne by (intros H; apply Hne; symmetry; exact H).
  rewrite lookup_insert_eq. split; reflexivity.
Qed.

End Store.

(** The store once the first scenario of the notebook has been prepared. *)
Definition store_sc1 : Store sym :=
  (prepare_data cat_ds sc1 (Int 200) (Int 1000) (Int 1000) (Int 200) ∅).1.

Lemma other_scenario_slices_untouched_witness :
  name sc5 <> name sc1 /\
  (raises (load_training_data store_sc1 sc1) = false /\
   raises (load_test_data store_sc1 sc1) = false /\
   raises (load_predict_data store_sc1 sc1) = false) /\
  (prepare_data cat_ds sc5 (Int 200) (Int 1000) (Int 1000) (Int 200) store_sc1).2
  = Ok tt /\
  load_training_data
    (prepare_data cat_ds sc5 (Int 200) (Int 1000) (Int 1000) (Int 200) store_sc1).1 sc1
  = load_training_data store_sc1 sc1 /\
  load_test_data
    (prepare_data cat_ds sc5 (Int 200) (Int 1000) (Int 1000) (Int 200) store_sc1).1 sc1
  = load_test_data store_sc1 sc1 /\
  load_predict_data
    (prepare_data cat_ds sc5 (Int 200) (Int 1000) (Int 1000) (Int 200) store_sc1).1 sc1
  = load_predict_data store_sc1 sc1.
Proof.
  split; [unfold sc5, sc1; simpl; discriminate|].
  split; [repeat split; vm_compute; reflexivity|].
  split; [vm_compute; reflexivity|].
  apply (other_scenario_slices_untouched cat_ds sc5 sc1).
  unfold sc5, sc1. simpl. discriminate.
Defined.

Lemma same_time_same_slice_witness :
  exists store',
    prepare_data cat_ds sc5 (Int 200) (Int 1000) (Int 1000) (Int 200) ∅
    = (store', Ok tt) /\
    exists ds,
      load_test_data store' sc5 = Ok ds /\ load_predict_data store' sc5 = Ok ds.
Proof.
  eexists. split; [vm_compute; reflexivity|].
  apply (same_time_same_slice cat_ds sc5 (Int 200) (Int 1000) (Int 200) ∅).
  vm_compute. reflexivity.
Defined.

(** *** Renaming, the grid fields and the mask *)

(** The renaming [prepare_data] asks for. *)
Definition raw_names : list (string * string) :=
  [("U1_1", "U"); ("V1_1", "V"); ("TAUX_2", "TAUX"); ("TAUY_2", "TAUY");
   ("SSH_2", "SSH"); ("ULONG", "XU"); ("ULAT", "YU")]%string.

Lemma NoDup_raw_names : NoDup (raw_names.*1 ++ raw_names.*2).
Proof. apply (bool_decide_unpack _). vm_compute. reflexivity. Qed.

Lemma NoDup_names_cons (o n : string) (os ns : list string) :
  NoDup ((o :: os) ++ n :: ns) ->
  o <> n /\ (o ∉ os) /\ (o ∉ ns) /\ (n ∉ os) /\ (n ∉ ns) /\ NoDup (os ++ ns).
Proof.
  simpl. rewrite NoDup_cons. intros [Ho Hnd].
  rewrite <- Permutation_middle in Hnd. rewrite NoDup_cons in Hnd.
  destruct Hnd as [Hn Hnd].
  rewrite elem_of_app, elem_of_cons in Ho. rewrite elem_of_app in Hn.
  repeat split; try tauto; try (intros ->; tauto).
Qed.

Section Fields.
Context {arr : Type} {ops : ArrayOps arr}.
Implicit Types (cat ds : XDataset arr) (store : Store arr).

(** [rename] with a dictionary whose old and new names are all different:
    either every old name is a variable and no new name is, and then every
    variable moves to its new name and the others stay; or the call is a
    [ValueError]. *)
Lemma rename_spec ds (name_dict : list (string * string)) :
  NoDup (name_dict.*1 ++ name_dict.*2) ->
  (exists ds',
     rename ds name_dict = Ok ds' /\ time_len ds' = time_len ds /\
     (forall o n, (o, n) ∈ name_dict ->
        is_Some (variables ds !! o) /\ variables ds !! n = None /\
        variables ds' !! n = variables ds !! o /\ variables ds' !! o = None) /\
     (forall k, k ∉ name_dict.*1 -> k ∉ name_dict.*2 ->
        variables ds' !! k = variables ds !! k))
  \/ (rename ds name_dict = Raise ValueError /\
      exists o n, (o, n) ∈ name_dict /\
        (variables ds !! o = None \/ is_Some (variables ds !! n))).
Proof.
  revert ds. induction name_dict as [|[o n] rest IH]; intros ds Hnd.
  - left. exists ds. split; [reflexivity|]. split; [reflexivity|].
    split; [intros o n H; inversion H | reflexivity].
  - rewrite !fmap_cons in Hnd. simpl fst in Hnd. simpl snd in Hnd.
    apply NoDup_names_cons in Hnd.
    destruct Hnd as (Hon & Ho1 & Ho2 & Hn1 & Hn2 & Hnd).
    simpl. unfold rename_one. simpl.
    destruct (variables ds !! o) as [v|] eqn:Hv; simpl.
    2:{ right. split; [reflexivity|]. exists o, n. split; [left | left; exact Hv]. }
    rewrite lookup_delete_ne by exact Hon.
    destruct (variables ds !! n) as [w|] eqn:Hw; simpl.
    { right. split; [reflexivity|]. exists o, n.
      split; [left | right; rewrite Hw; eauto]. }
    set (ds1 := {| time_len := time_len ds;
                   variables := <[n := v]> (delete o (variables ds)) |}).
    assert (forall k, k <> o -> k <> n -> variables ds1 !! k = variables ds !! k) as Hsame.
    { intros k Hko Hkn. simpl.
      rewrite lookup_insert_ne by congruence.
      rewrite lookup_delete_ne by congruence. reflexivity. }
    assert (forall o' n', (o', n') ∈ rest ->
              o' <> o /\ o' <> n /\ n' <> o /\ n' <> n) as Hrest.
    { intros o' n' Hin.
      assert (o' ∈ rest.*1) as H1 by (apply (list_elem_of_fmap_2 fst _ _ Hin)).
      assert (n' ∈ rest.*2) as H2 by (apply (list_elem_of_fmap_2 snd _ _ Hin)).
      repeat split; intros ->; tauto. }
    destruct (IH ds1 Hnd) as [(ds' & -> & Htime & Hmoved & Hframe)
                             | (-> & o' & n' & Hin & Hbad)].
    + left. exists ds'. split; [reflexivity|]. split; [exact Htime|]. split.
      * intros o' n' Hin. apply elem_of_cons in Hin.
        destruct Hin as [[= -> ->]|Hin].
        -- rewrite Hv, Hw. split; [eauto|]. split; [reflexivity|].
           rewrite !Hframe by assumption. simpl.
           rewrite lookup_insert_eq.
           rewrite lookup_insert_ne by congruence.
           rewrite lookup_delete_eq. split; reflexivity.
        -- destruct (Hrest o' n' Hin) as (? & ? & ? & ?).
           destruct (Hmoved o' n' Hin) as (Ha & Hb & Hc & Hd).
           rewrite !Hsame in Ha, Hb, Hc by assumption. auto.
      * intros k Hk1 Hk2. rewrite ?fmap_cons in Hk1, Hk2.
        simpl in Hk1, Hk2. rewrite not_elem_of_cons in Hk1, Hk2.
        rewrite Hframe by tauto. apply Hsame; tauto.
    + right. split; [reflexivity|]. exists o', n'. split; [now right|].
      destruct (Hrest o' n' Hin) as (? & ? & ? & ?).
      rewrite !Hsame in Hbad by assumption. exact Hbad.
Qed.

(** X16: [prepare_data] needs the seven raw names of the catalog to be
    variables and none of their short names to be one: otherwise it ends with
    a [ValueError] before anything is written. When they are, the renaming
    succeeds, every raw variable is found under its short name and under
    that name only, and every other variable stays. *)
Theorem prepare_data_needs_raw_names cat (sc : Scenario)
    (training_time test_time predict_time mask_time : indexer) store :
  ((exists o n, (o, n) ∈ raw_names /\
      (variables cat !! o = None \/ is_Some (variables cat !! n))) ->
   prepare_data cat sc training_time test_time predict_time mask_time store
   = (store, Raise ValueError)) /\
  ((forall o n, (o, n) ∈ raw_names ->
      is_Some (variables cat !! o) /\ variables cat !! n = None) ->
   exists ds,
     rename cat raw_names = Ok ds /\
     (forall o n, (o, n) ∈ raw_names ->
        variables ds !! n = variables cat !! o /\ variables ds !! o = None) /\
     (forall k, k ∉ raw_names.*1 -> k ∉ raw_names.*2 ->
        variables ds !! k = variables cat !! k)).
Proof.
  destruct (rename_spec cat raw_names NoDup_raw_names)
    as [(ds & Hren & _ & Hmoved & Hframe) | (Hren & o & n & Hin & Hbad)].
  - split.
    + intros (o & n & Hin & Hbad). exfalso.
      destruct (Hmoved o n Hin) as (Hsome & Hnone & _).
      destruct Hbad as [Hbad|Hbad].
      * rewrite Hbad in Hsome. destruct Hsome as [? [=]].
      * rewrite Hnone in Hbad. destruct Hbad as [? [=]].
    + intros _. exists ds. split; [exact Hren|]. split; [|exact Hframe].
      intros o n Hin. destruct (Hmoved o n Hin) as (_ & _ & H1 & H2). auto.
  - split.
    + intros _. unfold prepare_data, prepared. fold raw_names.
      rewrite Hren. reflexivity.
    + intros Hall. exfalso. destruct (Hall o n Hin) as [Hsome Hnone].
      destruct Hbad as [Hbad|Hbad].
      * rewrite Hbad in Hsome. destruct Hsome as [? [=]].
      * rewrite Hnone in Hbad. destruct Hbad as [? [=]].
Qed.

(** The entry of a field's not-a-number mask at one time step. *)
Definition mask_entry (pos : nat) (v : DataVar arr) : DataVar arr :=
  {| dims := List.filter (fun d => bool_decide (d <> "time"%string)) (dims v);
     data := arr_isel_time [pos] true (arr_invert (np_isnan (data v))) |}.

Lemma mask_at_int ds x i m :
  mask_at ds x (Int i) = Ok m ->
  exists n pos v,
    time_len ds = Some n /\ position n i = Ok pos /\
    variables ds !! x = Some v /\ m = mask_entry pos v.
Proof.
  unfold mask_at, getvar.
  destruct (variables ds !! x) as [v|] eqn:Hv; [|discriminate]. cbn [bind dims data].
  destruct (time_len ds) as [n|] eqn:Hn; [|discriminate].
  destruct (bool_decide ("time"%string ∈ dims v)) eqn:Ht; [|discriminate].
  unfold indexer_positions.
  destruct (position n i) as [pos|e] eqn:Hpos; [|discriminate]. cbn [bind].
  unfold var_isel_time. cbn [dims data fst snd]. rewrite Ht.
  intros [= <-]. exists n, pos, v.
  split; [reflexivity|]. split; [exact Hpos|]. split; reflexivity.
Qed.

Lemma mask_entry_no_time pos v : "time"%string ∉ dims (mask_entry pos v).
Proof.
  unfold mask_entry. cbn [dims]. intros Hin.
  apply list_elem_of_In, filter_In in Hin. destruct Hin as [_ Hin].
  apply bool_decide_eq_true in Hin. congruence.
Qed.

(** X18: with an integer [mask_time], the mask of a prepared dataset is
    computed from the raw catalog fields [SSH_2], [TAUY_2] and [U1_1] at that
    one time step, combined with [&]; it has no [time] axis, so that the
    training, test and prediction slices all carry this same mask, whatever
    their own time indexer. *)
Theorem mask_from_raw_fields cat (sc : Scenario) (i : Z) (p : XDataset arr) :
  prepared cat sc (Int i) = Ok p ->
  exists n pos ssh tauy u m,
    time_len cat = Some n /\ position n i = Ok pos /\
    variables cat !! "SSH_2"%string = Some ssh /\
    variables cat !! "TAUY_2"%string = Some tauy /\
    variables cat !! "U1_1"%string = Some u /\
    variables p !! "mask"%string = Some m /\
    data m = arr_and (arr_and (data (mask_entry pos ssh)) (data (mask_entry pos tauy)))
                     (data (mask_entry pos u)) /\
    ("time"%string ∉ dims m) /\
    forall ix ds, isel_time p ix = Ok ds -> variables ds !! "mask"%string = Some m.
Proof.
  unfold prepared. fold raw_names. intros Hp.
  apply bind_ok in Hp. destruct Hp as (ds1 & Hren & Hp).
  apply bind_ok in Hp. destruct Hp as (ds2 & Hadd & Hp).
  apply bind_ok in Hp. destruct Hp as (m1 & Hm1 & Hp).
  apply bind_ok in Hp. destruct Hp as (m2 & Hm2 & Hp).
  apply bind_ok in Hp. destruct Hp as (m3 & Hm3 & Hp).
  apply bind_ok in Hp. destruct Hp as (ds3 & Hsel & [= <-]).
  destruct (rename_spec cat raw_names NoDup_raw_names)
    as [(ds1' & Hren' & Htime & Hmoved & _) | (Hren' & _)];
    [|rewrite Hren' in Hren; discriminate].
  rewrite Hren' in Hren. injection Hren as ->.
  assert (forall o n, (o, n) ∈ raw_names -> n ∉ grid_fields ->
            variables ds2 !! n = variables cat !! o) as Hraw.
  { intros o n Hin Hn. rewrite (proj1 (add_grid_frame ds1 ds2 n Hadd Hn)).
    exact (proj1 (proj2 (proj2 (Hmoved o n Hin)))). }
  assert (time_len ds2 = time_len cat) as Htime2.
  { rewrite <- Htime. apply (add_grid_frame ds1 ds2 "SSH"%string Hadd).
    unfold grid_fields. rewrite !not_elem_of_cons.
    repeat split; try discriminate. apply not_elem_of_nil. }
  assert (forall n : string, n ∈ ["SSH"; "TAUY"; "U"]%string -> n ∉ grid_fields) as Hng.
  { intros n Hn. unfold grid_fields. rewrite !elem_of_cons, elem_of_nil in Hn.
    rewrite !not_elem_of_cons.
    destruct Hn as [->|[->|[->|[]]]];
      repeat split; try discriminate; apply not_elem_of_nil. }
  apply mask_at_int in Hm1, Hm2, Hm3.
  destruct Hm1 as (n & pos & ssh & Hn & Hpos & Hssh & ->).
  destruct Hm2 as (n2 & pos2 & tauy & Hn2 & Hpos2 & Htauy & ->).
  destruct Hm3 as (n3 & pos3 & u & Hn3 & Hpos3 & Hu & ->).
  rewrite Hn in Hn2, Hn3. injection Hn2 as <-. injection Hn3 as <-.
  rewrite Hpos in Hpos2, Hpos3. injection Hpos2 as <-. injection Hpos3 as <-.
  rewrite (Hraw "SSH_2"%string "SSH"%string) in Hssh;
    [| unfold raw_names; rewrite ?elem_of_cons; auto 10
     | apply Hng; rewrite !elem_of_cons; auto ].
  rewrite (Hraw "TAUY_2"%string "TAUY"%string) in Htauy;
    [| unfold raw_names; rewrite ?elem_of_cons; auto 10
     | apply Hng; rewrite !elem_of_cons; auto ].
  rewrite (Hraw "U1_1"%string "U"%string) in Hu;
    [| unfold raw_names; rewrite ?elem_of_cons; auto 10
     | apply Hng; rewrite !elem_of_cons; auto ].
  set (m := mask_and (mask_and (mask_entry pos ssh) (mask_entry pos tauy))
                     (mask_entry pos u)).
  assert ("time"%string ∉ dims m) as Hnotime.
  { unfold m, mask_and. cbn [dims]. rewrite !elem_of_app.
    intros [[H|H]|H].
    - exact (mask_entry_no_time _ _ H).
    - apply list_elem_of_In, filter_In in H. destruct H as [H _].
      exact (mask_entry_no_time _ _ (proj2 (list_elem_of_In _ _) H)).
    - apply list_elem_of_In, filter_In in H. destruct H as [H _].
      exact (mask_entry_no_time _ _ (proj2 (list_elem_of_In _ _) H)). }
  exists n, pos, ssh, tauy, u, m.
  split; [rewrite <- Htime2; exact Hn|]. split; [exact Hpos|].
  split; [exact Hssh|]. split; [exact Htauy|]. split; [exact Hu|].
  split; [unfold setvar; cbn [variables]; apply lookup_insert_eq|].
  split; [reflexivity|]. split; [exact Hnotime|].
  intros ix ds Hds. unfold isel_time in Hds. cbn [setvar time_len] in Hds.
  destruct (time_len ds3) as [n3|]; [|discriminate].
  apply bind_ok in Hds. destruct Hds as (sel & _ & [= <-]).
  cbn [variables setvar]. rewrite lookup_fmap, lookup_insert_eq.
  cbn [fmap option_fmap option_map]. f_equal.
  unfold var_isel_time. fold m.
  rewrite (bool_decide_eq_false_2 _ Hnotime). reflexivity.
Qed.

Lemma select_vars_lookup ds (varList : list string) ds' :
  select_vars ds varList = Ok ds' ->
  (forall x, x ∈ varList -> is_Some (variables ds !! x)) /\
  (forall x, variables ds' !! x
             = if decide (x ∈ varList) then variables ds !! x else None).
Proof.
  unfold select_vars. intros Hsel.
  apply bind_ok in Hsel. destruct Hsel as (vs & Hvs & [= <-]). cbn [variables].
  apply mapM_ok in Hvs.
  induction Hvs as [|x pr xs prs Hpr _ [IH1 IH2]].
  - split; [intros x Hx; inversion Hx|]. intros x.
    rewrite decide_False by apply not_elem_of_nil. apply lookup_empty.
  - unfold getvar in Hpr.
    destruct (variables ds !! x) as [v|] eqn:Hv; [|discriminate].
    cbn [bind] in Hpr. injection Hpr as <-. split.
    + intros y Hy. apply elem_of_cons in Hy.
      destruct Hy as [->|Hy]; [rewrite Hv; eauto | apply IH1, Hy].
    + intros y. cbn [list_to_map foldr]. simpl.
      destruct (decide (y = x)) as [->|Hne].
      * rewrite lookup_insert_eq, decide_True by left. symmetry. exact Hv.
      * rewrite lookup_insert_ne by congruence. rewrite IH2.
        destruct (decide (y ∈ xs)) as [Hy|Hy].
        -- rewrite decide_True by (now right). reflexivity.
        -- rewrite decide_False; [reflexivity|]. rewrite elem_of_cons. tauto.
Qed.

(** X20: where the variables of a prepared dataset come from. A scenario
    variable that is a short name is the catalog's variable of the matching
    raw name; a raw name itself cannot be listed (the renaming has removed
    it: the preparation would have ended with a [KeyError]); any other name
    that is not a grid field is the catalog's variable of that name; and
    nothing but the scenario's variables and the mask is kept. *)
Theorem prepared_variables_provenance cat (sc : Scenario) (mask_time : indexer)
    (p : XDataset arr) :
  prepared cat sc mask_time = Ok p ->
  (forall x, x ∈ conv_var sc ++ input_var sc ++ target sc ->
     x <> "mask"%string -> x ∉ grid_fields ->
     (x ∉ raw_names.*1) /\
     (forall o, (o, x) ∈ raw_names ->
        variables p !! x = variables cat !! o /\ is_Some (variables cat !! o)) /\
     (x ∉ raw_names.*2 ->
        variables p !! x = variables cat !! x /\ is_Some (variables cat !! x))) /\
  (forall x, x ∉ conv_var sc ++ input_var sc ++ target sc ->
     x <> "mask"%string -> variables p !! x = None).
Proof.
  unfold prepared. fold raw_names. intros Hp.
  apply bind_ok in Hp. destruct Hp as (ds1 & Hren & Hp).
  apply bind_ok in Hp. destruct Hp as (ds2 & Hadd & Hp).
  apply bind_ok in Hp. destruct Hp as (m1 & _ & Hp).
  apply bind_ok in Hp. destruct Hp as (m2 & _ & Hp).
  apply bind_ok in Hp. destruct Hp as (m3 & _ & Hp).
  apply bind_ok in Hp. destruct Hp as (ds3 & Hsel & [= <-]).
  destruct (rename_spec cat raw_names NoDup_raw_names)
    as [(ds1' & Hren' & _ & Hmoved & Hframe) | (Hren' & _)];
    [|rewrite Hren' in Hren; discriminate].
  rewrite Hren' in Hren. injection Hren as ->.
  destruct (select_vars_lookup _ _ _ Hsel) as [Hpresent Hlookup].
  assert (forall x, x <> "mask"%string ->
            variables (setvar ds3 "mask" (mask_and (mask_and m1 m2) m3)) !! x
            = variables ds3 !! x) as Hset.
  { intros x Hx. unfold setvar. cbn [variables].
    apply lookup_insert_ne. congruence. }
  split.
  - intros x Hx Hmask Hgrid.
    pose proof (Hpresent x Hx) as Hsome.
    rewrite (proj1 (add_grid_frame ds1 ds2 x Hadd Hgrid)) in Hsome.
    rewrite (Hset x Hmask), Hlookup, decide_True by exact Hx.
    rewrite (proj1 (add_grid_frame ds1 ds2 x Hadd Hgrid)).
    split; [|split].
    + intros Hin. apply list_elem_of_fmap in Hin.
      destruct Hin as ([o n] & -> & Hin).
      destruct (Hmoved o n Hin) as (_ & _ & _ & Hgone).
      simpl in Hsome. rewrite Hgone in Hsome. destruct Hsome as [? [=]].
    + intros o Hin. destruct (Hmoved o x Hin) as (Ho & _ & Heq & _).
      rewrite Heq. split; [reflexivity | exact Ho].
    + intros Hnew.
      assert (x ∉ raw_names.*1) as Hold.
      { intros Hin. apply list_elem_of_fmap in Hin.
        destruct Hin as ([o n] & -> & Hin).
        destruct (Hmoved o n Hin) as (_ & _ & _ & Hgone).
        simpl in Hsome. rewrite Hgone in Hsome. destruct Hsome as [? [=]]. }
      rewrite (Hframe x Hold Hnew) in Hsome |- *. split; [reflexivity | exact Hsome].
  - intros x Hx Hmask. rewrite (Hset x Hmask), Hlookup.
    rewrite decide_False by exact Hx. reflexivity.
Qed.

End Fields.

Section GridOutcome.
Context {arr : Type} {ops : ArrayOps arr} {laws : ArrayLaws arr}.
Implicit Types (ds : XDataset arr).

(** X17: how [add_grid] ends. It raises an [AttributeError] exactly when one
    of [YU], [XU], [DXT], [DYT] is missing. On a dataset that has the four, it
    succeeds exactly when the latitude and the two spacing arrays have the
    shape of the longitude array (whose axes are all named), and is a
    [ValueError] otherwise: there is no other error. Applied to its own result
    it returns that result again: the five fields are computed from fields it
    does not write. *)
Theorem add_grid_idempotent ds :
  (forall ds', add_grid ds = Ok ds' -> add_grid ds' = Ok ds') /\
  (add_grid ds = Raise AttributeError
   <-> exists x, x ∈ grid_inputs /\ variables ds !! x = None) /\
  (forall lat lon DX DY,
     variables ds !! "YU"%string = Some lat ->
     variables ds !! "XU"%string = Some lon ->
     variables ds !! "DXT"%string = Some DX ->
     variables ds !! "DYT"%string = Some DY ->
     ((exists ds', add_grid ds = Ok ds') <-> grid_shapes_fit lat lon DX DY) /\
     (add_grid ds = Raise ValueError <-> ~ grid_shapes_fit lat lon DX DY)) /\
  (forall e, add_grid ds = Raise e -> e = AttributeError \/ e = ValueError).
Proof.
  split; [|split; [|split]].
  - intros ds' Hadd. pose proof (add_grid_inv ds ds' Hadd)
      as (lat & lon & DX & DY & y & z & dX & dY
          & Hlat & Hlon & HDX & HDY & Hy & Hz & HdX & HdY
          & (Fx & Fy & Fz & FdX & FdY) & Hds').
    assert (forall k v, k ∈ grid_inputs ->
              variables ds !! k = Some v -> variables ds' !! k = Some v) as Hkeep.
    { intros k v Hk Hv. rewrite <- Hv. apply (add_grid_frame ds ds' k Hadd).
      unfold grid_fields. unfold grid_inputs in Hk.
      rewrite !elem_of_cons, elem_of_nil in Hk. rewrite !not_elem_of_cons.
      destruct Hk as [->|[->|[->|[->|[]]]]];
        repeat split; try discriminate; apply not_elem_of_nil. }
    assert (forall k : string, k ∈ grid_inputs -> k ∈ grid_inputs) as Hin by auto.
    rewrite (add_grid_run ds' lat lon DX DY y z dX dY); try assumption.
    + f_equal. subst ds'. unfold with_grid, setvar. cbn [time_len variables]. f_equal.
      apply map_eq. intros k. rewrite !lookup_insert.
      repeat case_decide; reflexivity.
    + apply Hkeep; [unfold grid_inputs; rewrite !elem_of_cons; auto | exact Hlat].
    + apply Hkeep; [unfold grid_inputs; rewrite !elem_of_cons; auto | exact Hlon].
    + apply Hkeep; [unfold grid_inputs; rewrite !elem_of_cons; auto | exact HDX].
    + apply Hkeep; [unfold grid_inputs; rewrite !elem_of_cons; auto | exact HDY].
  - split.
    + intros Hadd. apply add_grid_raise in Hadd.
      destruct Hadd as [[_ Hmiss]|[Hne _]]; [exact Hmiss | discriminate Hne].
    + intros (x & Hx & Hnone). destruct (add_grid ds) as [ds'|e] eqn:Hadd.
      * exfalso. apply add_grid_inv in Hadd.
        destruct Hadd as (lat & lon & DX & DY & y & z & dX & dY
                          & Hlat & Hlon & HDX & HDY & _).
        destruct (grid_inputs_present ds lat lon DX DY Hlat Hlon HDX HDY x Hx) as [v Hv].
        congruence.
      * apply add_grid_raise in Hadd. destruct Hadd as [[-> _]|[_ Hall]]; [reflexivity|].
        exfalso. destruct (Hall x Hx) as [v Hv]. congruence.
  - intros lat lon DX DY Hlat Hlon HDX HDY.
    destruct (add_grid_outcome ds lat lon DX DY Hlat Hlon HDX HDY) as [Hok Hbad].
    destruct (decide (grid_shapes_fit lat lon DX DY)) as [Hfit|Hno].
    + destruct (Hok Hfit) as (y & z & dX & dY & _ & _ & _ & _ & Hadd). split.
      * split; [intros _; exact Hfit | intros _; eauto].
      * split; [rewrite Hadd; discriminate | intros Hno; contradiction].
    + pose proof (Hbad Hno) as Hadd. split.
      * split; [intros [ds' Hds']; rewrite Hadd in Hds'; discriminate
               | intros Hfit; contradiction].
      * split; [intros _; exact Hno | intros _; exact Hadd].
  - intros e Hadd. apply add_grid_raise in Hadd.
    destruct Hadd as [[-> _]|[-> _]]; [left | right]; reflexivity.
Qed.

End GridOutcome.

(** The catalog dataset itself has no field [YU]: the renaming comes first. *)
Lemma add_grid_idempotent_witness :
  (exists ds', add_grid ds_renamed = Ok ds' /\ add_grid ds' = Ok ds') /\
  add_grid cat_ds = Raise AttributeError /\
  add_grid ds_DXT_on_time = Raise ValueError.
Proof.
  assert (grid_shapes_fit (on_grid "ULAT") (on_grid "ULONG") (on_grid "DXT")
                          (on_grid "DYT")) as Hfit
    by (repeat split; reflexivity).
  assert (~ grid_shapes_fit (on_grid "ULAT") (on_grid "ULONG") (on_time "DXT")
                            (on_grid "DYT")) as Hno.
  { intros (_ & _ & H & _). apply (f_equal length) in H. discriminate H. }
  split; [|split].
  - destruct (add_grid_idempotent ds_renamed) as (Hidem & _ & Hcases & _).
    destruct (Hcases (on_grid "ULAT") (on_grid "ULONG") (on_grid "DXT") (on_grid "DYT")
                eq_refl eq_refl eq_refl eq_refl) as [[_ Hok] _].
    destruct (Hok Hfit) as [ds' Hds']. exists ds'. split; [exact Hds' | exact (Hidem ds' Hds')].
  - destruct (add_grid_idempotent cat_ds) as (_ & [_ Hmiss] & _).
    apply Hmiss. exists "YU"%string.
    split; [unfold grid_inputs; rewrite !elem_of_cons; auto | reflexivity].
  - destruct (add_grid_idempotent ds_DXT_on_time) as (_ & _ & Hcases & _).
    destruct (Hcases (on_grid "ULAT") (on_grid "ULONG") (on_time "DXT") (on_grid "DYT")
                eq_refl eq_refl eq_refl eq_refl) as [_ [_ Hbad]].
    exact (Hbad Hno).
Defined.

Lemma mask_from_raw_fields_witness :
  exists p,
    prepared cat_ds sc5 (Int 200) = Ok p /\
    exists n pos ssh tauy u m,
      time_len cat_ds = Some n /\ position n 200 = Ok pos /\
      variables cat_ds !! "SSH_2"%string = Some ssh /\
      variables cat_ds !! "TAUY_2"%string = Some tauy /\
      variables cat_ds !! "U1_1"%string = Some u /\
      variables p !! "mask"%string = Some m /\
      data m = arr_and (arr_and (data (mask_entry pos ssh)) (data (mask_entry pos tauy)))
                       (data (mask_entry pos u)) /\
      ("time"%string ∉ dims m) /\
      forall ix ds, isel_time p ix = Ok ds -> variables ds !! "mask"%string = Some m.
Proof.
  eexists. split; [vm_compute; reflexivity|].
  apply (mask_from_raw_fields cat_ds sc5 200). vm_compute. reflexivity.
Defined.

Lemma prepared_variables_provenance_witness :
  exists p,
    prepared cat_ds sc5 (Int 200) = Ok p /\
    (forall x, x ∈ conv_var sc5 ++ input_var sc5 ++ target sc5 ->
       x <> "mask"%string -> x ∉ grid_fields ->
       (x ∉ raw_names.*1) /\
       (forall o, (o, x) ∈ raw_names ->
          variables p !! x = variables cat_ds !! o /\ is_Some (variables cat_ds !! o)) /\
       (x ∉ raw_names.*2 ->
          variables p !! x = variables cat_ds !! x /\ is_Some (variables cat_ds !! x))) /\
    (forall x, x ∉ conv_var sc5 ++ input_var sc5 ++ target sc5 ->
       x <> "mask"%string -> variables p !! x = None).
Proof.
  eexists. split; [vm_compute; reflexivity|].
  apply (prepared_variables_provenance cat_ds sc5 (Int 200)). vm_compute. reflexivity.
Defined.

End PrepMore.

(** ** [just_the_data] *)

Module Labelled.
Import Py.

Section Labelled.
Context {arr attr : Type}.

(** A variable as [xr.open_zarr] returns it: axes, values and attributes. *)
Record LVar : Type := mkLVar {
  lv_dims : list string;
  lv_data : arr;
  lv_attrs : gmap string attr
}.

(** A dataset with its labels: the variables, the names of those that are
    coordinates, and the attributes of the dataset. *)
Record LDataset : Type := mkLDataset {
  l_variables : gmap string LVar;
  l_coords : gset string;
  l_attrs : gmap string attr
}.

(** [del d[k]] *)
Definition del_item (d : gmap string attr) (k : string) : result (gmap string attr) :=
  match d !! k with
  | Some _ => Ok (delete k d)
  | None => Raise KeyError
  end.

(** [for k in ks: del d[k]] *)
Fixpoint del_each (ks : list string) (d : gmap string attr) : result (gmap string attr) :=
  match ks with
  | [] => Ok d
  | k :: ks' => let* d := del_item d k in del_each ks' d
  end.

(** [for attr in list(d.keys()): del d[attr]] *)
Definition del_all (d : gmap string attr) : result (gmap string attr) :=
  del_each (map_to_list d).*1 d.

(** [ds.drop_vars(names)]: every name must be a variable. *)
Definition drop_vars (ds : LDataset) (names : list string) : result LDataset :=
  if forallb (fun x => bool_decide (is_Some (l_variables ds !! x))) names then
    Ok {| l_variables := foldr delete (l_variables ds) names;
          l_coords := l_coords ds ∖ list_to_set names;
          l_attrs := l_attrs ds |}
  else Raise ValueError.

(** [for var in vs: for attr in list(ds[var].attrs.keys()): del ds[var].attrs[attr]] *)
Fixpoint del_var_attrs (vs : list string) (m : gmap string LVar)
  : result (gmap string LVar) :=
  match vs with
  | [] => Ok m
  | x :: vs' =>
      match m !! x with
      | None => Raise KeyError
      | Some v =>
          let* a := del_all (lv_attrs v) in
          del_var_attrs vs' (<[x := mkLVar (lv_dims v) (lv_data v) a]> m)
      end
  end.

(** [just_the_data(ds)] *)
Definition just_the_data (ds : LDataset) : result LDataset :=
  let* ds := drop_vars ds (elements (l_coords ds)) in
  let* attrs := del_all (l_attrs ds) in
  let* vars := del_var_attrs (map_to_list (l_variables ds)).*1 (l_variables ds) in
  Ok {| l_variables := vars; l_coords := l_coords ds; l_attrs := attrs |}.

(** A variable without its attributes. *)
Definition bare (v : LVar) : LVar := mkLVar (lv_dims v) (lv_data v) ∅.

Lemma del_each_spec (ks : list string) (d : gmap string attr) :
  NoDup ks -> (forall k, k ∈ ks -> is_Some (d !! k)) ->
  del_each ks d = Ok (foldr delete d ks).
Proof.
  revert d. induction ks as [|k ks IH]; intros d Hnd Hin; [reflexivity|].
  apply NoDup_cons in Hnd. destruct Hnd as [Hk Hnd].
  simpl. unfold del_item.
  destruct (Hin k ltac:(left)) as [a ->]. simpl.
  rewrite IH.
  - f_equal. symmetry. apply delete_foldr_delete.
  - exact Hnd.
  - intros k' Hk'. rewrite lookup_delete_ne by (intros ->; contradiction).
    apply Hin. now right.
Qed.

Lemma del_all_empty (d : gmap string attr) : del_all d = Ok ∅.
Proof.
  unfold del_all. rewrite del_each_spec.
  - f_equal. apply map_eq. intros k. rewrite lookup_empty.
    destruct (d !! k) as [a|] eqn:Hk.
    + apply lookup_foldr_delete.
      apply (list_elem_of_fmap_2 fst _ (k, a)), elem_of_map_to_list, Hk.
    + rewrite lookup_foldr_delete_not_elem_of; [exact Hk|].
      intros Hin. apply list_elem_of_fmap in Hin.
      destruct Hin as ([k' a] & -> & Hin). apply elem_of_map_to_list in Hin.
      simpl in Hk. congruence.
  - apply NoDup_fst_map_to_list.
  - intros k Hin. apply list_elem_of_fmap in Hin.
    destruct Hin as ([k' a] & -> & Hin). apply elem_of_map_to_list in Hin.
    simpl. rewrite Hin. eauto.
Qed.

Lemma del_var_attrs_spec (vs : list string) (m : gmap string LVar) :
  NoDup vs -> (forall x, x ∈ vs -> is_Some (m !! x)) ->
  exists m',
    del_var_attrs vs m = Ok m' /\
    forall x, m' !! x = if decide (x ∈ vs) then bare <$> m !! x else m !! x.
Proof.
  revert m. induction vs as [|x vs IH]; intros m Hnd Hin.
  - exists m. split; [reflexivity|]. intros x.
    destruct (decide (x ∈ [])) as [H|_]; [inversion H | reflexivity].
  - apply NoDup_cons in Hnd. destruct Hnd as [Hx Hnd]. simpl.
    destruct (Hin x ltac:(left)) as [v Hv]. rewrite Hv, del_all_empty. simpl.
    destruct (IH (<[x := mkLVar (lv_dims v) (lv_data v) ∅]> m) Hnd) as (m' & -> & Hm').
    { intros y Hy. rewrite lookup_insert_ne by (intros ->; contradiction).
      apply Hin. now right. }
    exists m'. split; [reflexivity|]. intros y. rewrite Hm'.
    destruct (decide (y = x)) as [->|Hne].
    + rewrite decide_False by exact Hx. rewrite decide_True by left.
      rewrite lookup_insert_eq, Hv. reflexivity.
    + rewrite lookup_insert_ne by congruence.
      destruct (decide (y ∈ vs)) as [Hy|Hy].
      * rewrite decide_True by (now right). reflexivity.
      * rewrite decide_False; [reflexivity|].
        rewrite elem_of_cons. tauto.
Qed.

End Labelled.

Arguments LVar arr attr : clear implicits.
Arguments LDataset arr attr : clear implicits.

End Labelled.

Module LabelledFacts.
Import Py Labelled.

Section JustTheData.
Context {arr attr : Type}.
Implicit Types ds : LDataset arr attr.

(** X19: on a dataset whose coordinates are among its variables
    [just_the_data] never raises. What it returns has no coordinate and no
    attribute, on the dataset or on any variable; its variables are the
    variables that were not coordinates, with their axes and values as they
    were; and applying it again returns the same dataset. *)
Theorem just_the_data_strips_labels ds :
  (forall x, x ∈ l_coords ds -> is_Some (l_variables ds !! x)) ->
  exists ds',
    just_the_data ds = Ok ds' /\
    l_coords ds' = ∅ /\ l_attrs ds' = ∅ /\
    (forall x, l_variables ds' !! x
               = if decide (x ∈ l_coords ds) then None
                 else bare <$> l_variables ds !! x) /\
    just_the_data ds' = Ok ds'.
Proof.
  assert (forall ds0 : LDataset arr attr,
            (forall x, x ∈ l_coords ds0 -> is_Some (l_variables ds0 !! x)) ->
            just_the_data ds0
            = Ok {| l_variables :=
                      bare <$> foldr delete (l_variables ds0) (elements (l_coords ds0));
                    l_coords := ∅; l_attrs := ∅ |}) as Hrun.
  { intros ds0 Hwf. unfold just_the_data, drop_vars.
    assert (forallb (fun x => bool_decide (is_Some (l_variables ds0 !! x)))
                    (elements (l_coords ds0)) = true) as ->.
    { apply forallb_forall. intros x Hx. apply bool_decide_eq_true, Hwf.
      apply elem_of_elements, list_elem_of_In, Hx. }
    cbn [bind l_variables l_coords l_attrs]. rewrite del_all_empty. cbn [bind].
    set (m := foldr delete (l_variables ds0) (elements (l_coords ds0))).
    destruct (del_var_attrs_spec (map_to_list m).*1 m) as (m' & -> & Hm').
    - apply NoDup_fst_map_to_list.
    - intros x Hin. apply list_elem_of_fmap in Hin.
      destruct Hin as ([x' v] & -> & Hin). apply elem_of_map_to_list in Hin.
      simpl. rewrite Hin. eauto.
    - cbn [bind]. f_equal. f_equal.
      + apply map_eq. intros x. rewrite Hm', lookup_fmap.
        destruct (decide (x ∈ (map_to_list m).*1)) as [Hx|Hx]; [reflexivity|].
        destruct (m !! x) as [v|] eqn:Hv; [|reflexivity].
        exfalso. apply Hx.
        apply (list_elem_of_fmap_2 fst _ (x, v)), elem_of_map_to_list, Hv.
      + apply set_eq. intros x.
        rewrite elem_of_difference, elem_of_list_to_set, elem_of_elements,
          elem_of_empty. tauto. }
  intros Hwf. eexists. split; [apply Hrun, Hwf|].
  cbn [l_coords l_attrs l_variables].
  split; [reflexivity|]. split; [reflexivity|]. split.
  - intros x. rewrite lookup_fmap.
    destruct (decide (x ∈ l_coords ds)) as [Hx|Hx].
    + rewrite lookup_foldr_delete by (apply elem_of_elements, Hx). reflexivity.
    + rewrite lookup_foldr_delete_not_elem_of
        by (rewrite elem_of_elements; exact Hx).
      reflexivity.
  - rewrite Hrun.
    + cbn [l_coords l_attrs l_variables]. rewrite elements_empty.
      cbn [foldr]. f_equal. f_equal.
      rewrite <- map_fmap_compose. apply map_fmap_ext. intros x v _. reflexivity.
    + cbn [l_coords]. intros x Hx. apply elem_of_empty in Hx. destruct Hx.
Qed.

End JustTheData.

(** A dataset with one coordinate, and attributes on the dataset and on its
    variables. *)
Definition labelled_toy : LDataset Z string :=
  {| l_variables :=
       {[ "SSH"%string := mkLVar ["nlat"; "nlon"]%string 1
                            {[ "units"%string := "cm"%string ]};
          "TLAT"%string := mkLVar ["nlat"; "nlon"]%string 2
                             {[ "units"%string := "degrees"%string ]} ]};
     l_coords := {[ "TLAT"%string ]};
     l_attrs := {[ "title"%string := "run"%string ]} |}.

Lemma just_the_data_strips_labels_witness :
  (forall x, x ∈ l_coords labelled_toy -> is_Some (l_variables labelled_toy !! x)) /\
  exists ds',
    just_the_data labelled_toy = Ok ds' /\
    l_coords ds' = ∅ /\ l_attrs ds' = ∅ /\
    (forall x, l_variables ds' !! x
               = if decide (x ∈ l_coords labelled_toy) then None
                 else bare <$> l_variables labelled_toy !! x) /\
    just_the_data ds' = Ok ds'.
Proof.
  assert (forall x, x ∈ l_coords labelled_toy ->
                    is_Some (l_variables labelled_toy !! x)) as Hwf.
  { intros x Hx. unfold labelled_toy in *. cbn [l_coords l_variables] in *.
    apply elem_of_singleton in Hx. subst x. vm_compute. eauto. }
  split; [exact Hwf|]. apply (just_the_data_strips_labels labelled_toy Hwf).
Defined.

End LabelledFacts.

(** ** The testing and prediction stages run *)

Module StageFacts.
Import Py Batcher Notebook PyFacts AnchorFacts GeneratorFacts BatchFacts
  TensorFacts NotebookFacts.

Section Stages.
Context {A : Type}.
Implicit Types (ds dt dp : Dataset A) (b : Stacked A).

Lemma batch_cell_total_patches ds (nlats nlons halo : Z) :
  0 < nlats -> 0 < nlons -> 2 * halo < nlats -> 2 * halo < nlons ->
  exists pairs, batch_cell ds nlats nlons halo = Ok (patches_of ds nlats nlons pairs).
Proof.
  intros Hn1 Hn2 Hh1 Hh2.
  assert (0 < stride nlats halo) as Hs1 by (unfold stride; lia).
  assert (0 < stride nlons halo) as Hs2 by (unfold stride; lia).
  eexists. apply batch_cell_ok. do 2 eexists.
  split; [apply range_pos, Hs1|]. split; [apply range_pos, Hs2|].
  split; [exact Hn1|]. split; [exact Hn2|]. split; [|split; [|reflexivity]].
  - apply Forall_forall. intros r Hr. apply elem_of_range_pos in Hr; [|exact Hs1].
    destruct Hr as (k & Hk & -> & Hlt). nia.
  - apply Forall_forall. intros c Hc. apply elem_of_range_pos in Hc; [|exact Hs2].
    destruct Hc as (k & Hk & -> & Hlt). nia.
Qed.

Lemma tensors_cell_total (sc : Scenario) b (nlats nlons halo : Z) :
  s_nlats b = Z.to_nat nlats -> s_nlons b = Z.to_nat nlons ->
  0 <= halo -> 2 * halo < nlats -> 2 * halo < nlons ->
  conv_var sc <> [] -> input_var sc <> [] -> target sc <> [] ->
  (forall x, x ∈ conv_var sc ++ input_var sc ++ target sc -> is_Some (s_vars b !! x)) ->
  exists conv inp tgt, tensors_cell sc (sub halo nlons nlats) b = Ok (conv, inp, tgt).
Proof.
  intros Hrows Hcols Hh Hn1 Hn2 Hnc Hni Hnt Hall.
  assert (forall (f : string -> result (DataArray A)) xs,
            xs <> [] ->
            (forall x, x ∈ xs -> exists d, f x = Ok d) ->
            exists das, mapM f xs = Ok das /\ das <> []) as HmapM.
  { intros f xs Hne Hf.
    assert (exists das, mapM f xs = Ok das /\ length das = length xs)
      as (das & Hdas & Hlen).
    { clear Hne. induction xs as [|x xs IH]; [exists []; auto|].
      destruct (Hf x ltac:(left)) as (d & Hd).
      destruct IH as (das & Hdas & Hlen); [intros y Hy; apply Hf; now right|].
      exists (d :: das). simpl. rewrite Hd. simpl. rewrite Hdas. simpl.
      split; [reflexivity | congruence]. }
    exists das. split; [exact Hdas|]. intros ->. destruct xs; [congruence|discriminate]. }
  assert (forall das : list (DataArray A), das <> [] ->
            exists t, to_array_var_last (merge das) = Ok t) as Hstack.
  { intros [|d das] Hne; [congruence|]. simpl. eauto. }
  destruct (HmapM (getitem b) (conv_var sc) Hnc) as (das_c & Hc & Hc').
  { intros x Hx. unfold getitem.
    destruct (Hall x ltac:(rewrite !elem_of_app; auto)) as [ws ->]. eauto. }
  assert (forall x, is_Some (s_vars b !! x) ->
            exists d, (let* d := getitem b x in isel_sub d (sub halo nlons nlats)) = Ok d)
    as Hsub.
  { intros x [ws Hws]. unfold getitem. rewrite Hws. simpl.
    unfold isel_sub, sub. simpl. rewrite Hrows, Hcols.
    rewrite !positions_range2 by lia. simpl. eauto. }
  destruct (HmapM (fun x => let* d := getitem b x in isel_sub d (sub halo nlons nlats))
              (input_var sc) Hni) as (das_i & Hi & Hi').
  { intros x Hx. apply Hsub, Hall. rewrite !elem_of_app. auto. }
  destruct (HmapM (fun x => let* d := getitem b x in isel_sub d (sub halo nlons nlats))
              (target sc) Hnt) as (das_t & Ht & Ht').
  { intros x Hx. apply Hsub, Hall. rewrite !elem_of_app. auto. }
  destruct (Hstack das_c Hc') as (tc & Htc).
  destruct (Hstack das_i Hi') as (ti & Hti).
  destruct (Hstack das_t Ht') as (tt' & Htt).
  unfold tensors_cell. rewrite Hc. cbn [bind]. rewrite Hi. cbn [bind].
  rewrite Ht. cbn [bind]. rewrite Htc. cbn [bind]. rewrite Hti. cbn [bind].
  rewrite Htt. cbn [bind]. eauto.
Qed.

(** X22: with positive windows, a halo that is not negative and below half
    of each window, a scenario without an empty group, and a test dataset that
    has every scenario variable, the testing cells run to their end, and after
    them the prediction cells do too, whatever the prediction dataset is
    (it need not have any of the scenario's variables: its batch is built and
    stored in [batch_predict], the tensors are built from [batch_test]). Run
    before the testing cells, the prediction cells end with a [NameError]. *)
Theorem stages_run (su : Setup) dt dp :
  0 < su_nlats su -> 0 < su_nlons su -> 0 <= su_halo_size su ->
  2 * su_halo_size su < su_nlats su -> 2 * su_halo_size su < su_nlons su ->
  conv_var (sc su) <> [] -> input_var (sc su) <> [] -> target (sc su) <> [] ->
  (forall x, x ∈ conv_var (sc su) ++ input_var (sc su) ++ target (sc su) ->
             is_Some (data_vars dt !! x)) ->
  predict_stage su (loaded dt dp) = Raise NameError /\
  exists g1 g2 bt bp,
    test_stage su (loaded dt dp) = Ok g1 /\
    predict_stage su g1 = Ok g2 /\
    batch_cell dt (su_nlats su) (su_nlons su) (su_halo_size su) = Ok bt /\
    batch_test g2 = Some bt /\
    batch_cell dp (su_nlats su) (su_nlons su) (su_halo_size su) = Ok bp /\
    batch_predict g2 = Some bp /\
    is_Some (test_target g2) /\
    is_Some (predict_conv g2) /\ is_Some (predict_input g2).
Proof.
  intros Hn1 Hn2 Hh Hh1 Hh2 Hnc Hni Hnt Hall.
  destruct (batch_cell_total_patches dt _ _ _ Hn1 Hn2 Hh1 Hh2) as (pt & Hbt).
  destruct (batch_cell_total_patches dp _ _ _ Hn1 Hn2 Hh1 Hh2) as (pp & Hbp).
  set (bt := patches_of dt (su_nlats su) (su_nlons su) pt) in *.
  set (bp := patches_of dp (su_nlats su) (su_nlons su) pp) in *.
  destruct (tensors_cell_total (sc su) bt (su_nlats su) (su_nlons su) (su_halo_size su)
              eq_refl eq_refl Hh Hh1 Hh2 Hnc Hni Hnt)
    as (conv & inp & tgt & Htens).
  { intros x Hx. unfold bt. rewrite patches_of_lookup.
    destruct (Hall x Hx) as [g ->]. simpl. eauto. }
  split.
  - unfold predict_stage, batch_predict_cell, loaded. cbn [ds_predict read bind].
    rewrite Hbp. reflexivity.
  - assert (exists g1, test_stage su (loaded dt dp) = Ok g1 /\
                       batch_test g1 = Some bt /\ ds_predict g1 = Some dp /\
                       is_Some (test_target g1)) as (g1 & Hg1 & Hb1 & Hd1 & Ht1).
    { unfold test_stage, batch_test_cell, test_tensors_cell, loaded.
      cbn [ds_test read bind]. rewrite Hbt. cbn [bind batch_test read].
      fold (su_sub su) in Htens. rewrite Htens. cbn [bind fst snd].
      eexists. split; [reflexivity|].
      cbn [batch_test ds_predict test_target]. eauto. }
    set (g := {| ds_test := ds_test g1; ds_predict := ds_predict g1;
                 batch_test := batch_test g1; batch_predict := Some bp;
                 test_conv := test_conv g1; test_input := test_input g1;
                 test_target := test_target g1;
                 predict_conv := predict_conv g1;
                 predict_input := predict_input g1 |}).
    destruct (predict_tensors_of_test su g bt conv inp tgt Hb1 Htens)
      as (g2 & Hg2 & Hpc & Hpi).
    exists g1, g2, bt, bp. split; [exact Hg1|]. split.
    { unfold predict_stage, batch_predict_cell. unfold g in Hg2.
      rewrite Hd1 in Hg2 |- *. cbn [read bind].
      rewrite Hbp. cbn [bind]. exact Hg2. }
    split; [exact Hbt|].
    unfold predict_tensors_cell in Hg2.
    apply bind_ok in Hg2. destruct Hg2 as (? & _ & Hg2).
    apply bind_ok in Hg2. destruct Hg2 as (? & _ & Hg2).
    apply bind_ok in Hg2. destruct Hg2 as (? & _ & Hg2).
    apply bind_ok in Hg2. destruct Hg2 as (? & _ & Hg2).
    apply bind_ok in Hg2. destruct Hg2 as (? & _ & [= <-]).
    cbn [batch_test batch_predict test_target predict_conv predict_input g].
    split; [exact Hb1|]. split; [exact Hbp|]. split; [reflexivity|].
    split; [exact Ht1|]. eauto.
Qed.

End Stages.

Lemma stages_run_witness :
  0 < 3 /\ 0 < 3 /\ 0 <= 1 /\ 2 * 1 < 3 /\ 2 * 1 < 3 /\
  conv_var sc_toy <> [] /\ input_var sc_toy <> [] /\ target sc_toy <> [] /\
  (forall x, x ∈ conv_var sc_toy ++ input_var sc_toy ++ target sc_toy ->
             is_Some (data_vars ds5 !! x)) /\
  predict_stage (mkSetup sc_toy 3 3 1) (loaded ds5 ds8) = Raise NameError /\
  exists g1 g2 bt bp,
    test_stage (mkSetup sc_toy 3 3 1) (loaded ds5 ds8) = Ok g1 /\
    predict_stage (mkSetup sc_toy 3 3 1) g1 = Ok g2 /\
    batch_cell ds5 3 3 1 = Ok bt /\ batch_test g2 = Some bt /\
    batch_cell ds8 3 3 1 = Ok bp /\ batch_predict g2 = Some bp /\
    is_Some (test_target g2) /\
    is_Some (predict_conv g2) /\ is_Some (predict_input g2).
Proof.
  assert (forall x, x ∈ conv_var sc_toy ++ input_var sc_toy ++ target sc_toy ->
                    is_Some (data_vars ds5 !! x)) as Hall.
  { intros x Hx. simpl in Hx. rewrite !elem_of_cons, elem_of_nil in Hx.
    destruct Hx as [->|[->|[->|[->|[]]]]]; vm_compute; eauto. }
  split; [lia|]. split; [lia|]. split; [lia|]. split; [lia|]. split; [lia|].
  split; [discriminate|]. split; [discriminate|]. split; [discriminate|].
  split; [exact Hall|].
  apply (stages_run (mkSetup sc_toy 3 3 1) ds5 ds8);
    [simpl; lia | simpl; lia | simpl; lia | simpl; lia | simpl; lia
    | discriminate | discriminate | discriminate | exact Hall].
Defined.

End StageFacts.

(** ** The reassembly of the predictions *)

Module ReassemblyFacts.
Import Py Batcher Notebook PyFacts AnchorFacts GeneratorFacts BatchFacts TensorFacts
       NotebookFacts.

(** [sample[0,0,c]]: the value of channel [c] at the one point of a
    prediction. *)
Definition point {B : Type} (sample : list (list (list B))) (c : nat) : option B :=
  sample !! 0%nat ≫= fun m => m !! 0%nat ≫= fun row => row !! c.

(** A grid of 2400 x 3600 points with one variable, defined everywhere: every
    cell holds its own position. *)
Definition globe : Dataset Z :=
  {| latlen := 2400;
     lonlen := 3600;
     data_vars := {[ "U"%string := grid_of 2400 3600 (fun i j => Some (3600 * i + j)) ]} |}.

(** One prediction per anchor pair of the cropped grid, of shape
    [(1, 1, 2)]: sample [k] predicts [k] and [-k]. *)
Definition toy_predictions : list (list (list (list Z))) :=
  map (fun k => [[[Z.of_nat k; - Z.of_nat k]]]) (seq 0 (545 * 345)).

Lemma item_lookup {B : Type} (xs : list B) (i : nat) (x : B) :
  xs !! i = Some x -> item xs (Z.of_nat i) = Ok x.
Proof.
  intros Hx. unfold item.
  rewrite position_ok by (apply lookup_lt_Some in Hx; lia).
  cbn [bind]. rewrite Nat2Z.id, Hx. reflexivity.
Qed.

(** [predict_target[:,0,0,c]] on predictions that all have the point: one
    value per sample, in the order of the samples. *)
Lemma select_point_lookup {B : Type} (predict_target : list (list (list (list B))))
    (c : nat) :
  (forall sample, sample ∈ predict_target -> is_Some (point sample c)) ->
  exists u,
    select_point predict_target (Z.of_nat c) = Ok u /\
    length u = length predict_target /\
    forall k sample, predict_target !! k = Some sample -> u !! k = point sample c.
Proof.
  unfold select_point.
  induction predict_target as [|s rest IH]; intros Hpts.
  - exists []. split; [reflexivity|]. split; [reflexivity|]. intros k sample [=].
  - destruct IH as (u & Hu & Hlen & Hlook).
    { intros sample Hin. apply Hpts. now right. }
    destruct (Hpts s ltac:(left)) as [p Hp].
    assert ((let* m := item s 0 in let* row := item m 0 in item row (Z.of_nat c)) = Ok p)
      as Hitem.
    { unfold point in Hp.
      destruct (s !! 0%nat) as [m|] eqn:Hm; [|discriminate].
      cbn [mbind option_bind] in Hp.
      destruct (m !! 0%nat) as [row|] eqn:Hrow; [|discriminate].
      cbn [mbind option_bind] in Hp.
      assert (item s 0 = Ok m) as -> by exact (item_lookup s 0%nat m Hm).
      cbn [bind].
      assert (item m 0 = Ok row) as -> by exact (item_lookup m 0%nat row Hrow).
      cbn [bind]. apply item_lookup, Hp. }
    exists (p :: u). cbn [mapM]. rewrite Hitem. cbn [bind]. rewrite Hu. cbn [bind].
    split; [reflexivity|]. split; [simpl; rewrite Hlen; reflexivity|].
    intros [|k] sample Hk.
    + injection Hk as <-. symmetry. exact Hp.
    + apply Hlook, Hk.
Qed.

(** The anchors of a range of stride one. *)
Lemma anchors_unit_stride (n axis_len halo : Z) (anchors : list Z) :
  stride n halo = 1 ->
  anchor_range n axis_len halo = Ok anchors ->
  length anchors = Z.to_nat (axis_len - n) /\
  forall i r, anchors !! i = Some r -> r = n + Z.of_nat i.
Proof.
  intros Hs. unfold anchor_range. rewrite Hs, range_pos by lia. intros [= <-].
  assert (range_len n axis_len 1 = Z.max 0 (axis_len - n)) as ->.
  { unfold range_len. change (0 <? 1) with true. cbv iota.
    destruct (n <? axis_len) eqn:E.
    - apply Z.ltb_lt in E. rewrite Z.div_1_r. lia.
    - apply Z.ltb_ge in E. lia. }
  split; [rewrite length_map, length_seqZ; lia|].
  intros i r Hr. rewrite map_fmap, list_lookup_fmap in Hr.
  destruct (seqZ 0 (Z.max 0 (axis_len - n)) !! i) as [k|] eqn:Hk; [|discriminate].
  apply lookup_seqZ in Hk. injection Hr as <-. lia.
Qed.

(** The anchors of a positive stride lie in [[n, axis_len)]. *)
Lemma anchors_in_bounds (n axis_len halo : Z) (anchors : list Z) :
  2 * halo < n ->
  anchor_range n axis_len halo = Ok anchors ->
  Forall (fun r => n <= r < axis_len) anchors.
Proof.
  intros Hpos. unfold anchor_range.
  assert (0 < stride n halo) as Hs by (unfold stride; lia).
  rewrite range_pos by exact Hs. intros [= <-].
  apply Forall_forall. intros x Hx.
  rewrite map_fmap in Hx. apply list_elem_of_fmap in Hx. destruct Hx as (k & -> & Hk).
  apply elem_of_seqZ in Hk.
  pose proof (range_len_pos_spec n axis_len (stride n halo) k Hs ltac:(lia)) as Hspec.
  split; [nia|]. apply Hspec. lia.
Qed.


Lemma cell_at_grid_of {A : Type} (n m : Z) (f : Z -> Z -> cell A) (y x : Z) :
  0 <= y < n -> 0 <= x < m -> cell_at (grid_of n m f) y x = f y x.
Proof.
  intros Hy Hx. unfold cell_at, grid_of.
  destruct (0 <=? y) eqn:E1; [|apply Z.leb_gt in E1; lia].
  destruct (0 <=? x) eqn:E2; [|apply Z.leb_gt in E2; lia].
  cbn [andb]. rewrite !map_fmap, list_lookup_fmap.
  rewrite (lookup_seqZ_lt 0 n (Z.to_nat y)) by lia. cbn [fmap option_fmap option_map].
  rewrite list_lookup_fmap.
  rewrite (lookup_seqZ_lt 0 m (Z.to_nat x)) by lia. cbn [fmap option_fmap option_map].
  f_equal; lia.
Qed.

(** [select_from] succeeds on a grid that reaches row 1050 and column 2200. *)
Lemma select_from_ok {A : Type} (ds : Dataset A) :
  (1050 <= latlen ds)%nat -> (2200 <= lonlen ds)%nat ->
  exists ds', select_from ds = Ok ds'.
Proof.
  intros Hlat Hlon. unfold select_from.
  rewrite (positions_range2 (lonlen ds) 1850 2200) by lia.
  rewrite (positions_range2 (latlen ds) 500 1050) by lia.
  cbn [bind]. eexists. reflexivity.
Qed.

(** The crop keeps the variables, and holds at [(i, j)] the cell
    [(500 + i, 1850 + j)] of the dataset. *)
Lemma select_from_lookup {A : Type} (ds ds' : Dataset A) (v : string) :
  select_from ds = Ok ds' ->
  match data_vars ds !! v, data_vars ds' !! v with
  | Some g, Some g' =>
      forall i j, 0 <= i < 550 -> 0 <= j < 350 ->
                  cell_at g' i j = cell_at g (500 + i) (1850 + j)
  | None, None => True
  | _, _ => False
  end.
Proof.
  intros Hsel. unfold select_from in Hsel.
  apply bind_ok in Hsel. destruct Hsel as (qs & Hqs & Hsel).
  apply bind_ok in Hsel. destruct Hsel as (ps & Hps & [= <-]).
  cbn [data_vars]. rewrite lookup_fmap.
  destruct (data_vars ds !! v) as [g|]; cbn [fmap option_fmap option_map]; [|exact I].
  assert (Forall (fun i => 0 <= i) (range2 1850 2200) /\
          Forall (fun i => 0 <= i) (range2 500 1050)) as [Hnn1 Hnn2].
  { split; apply Forall_forall; intros i Hi; unfold range2 in Hi;
      apply elem_of_seqZ in Hi; lia. }
  destruct (positions_inv _ _ _ Hqs Hnn1) as [-> _].
  destruct (positions_inv _ _ _ Hps Hnn2) as [-> _].
  unfold range2. rewrite !to_nat_seqZ by lia.
  set (r0 := Z.to_nat 500). set (c0 := Z.to_nat 1850).
  set (nr := Z.to_nat (Z.max 0 (1050 - 500))).
  set (nc := Z.to_nat (Z.max 0 (2200 - 1850))).
  assert (nr = 550%nat) as Hnr by reflexivity.
  assert (nc = 350%nat) as Hnc by reflexivity.
  intros i j Hi Hj. rewrite !NotebookMore.cell_at_total by lia.
  rewrite map_fmap.
  rewrite (list_lookup_total_fmap (fun row => gather row (seq c0 nc))
             (gather g (seq r0 nr)) (Z.to_nat i))
    by (unfold gather; rewrite length_map, length_seq; lia).
  rewrite !gather_seq_lookup by lia. unfold r0, c0. do 2 f_equal; lia.
Qed.

Lemma toy_predictions_lookup (k : nat) :
  (k < 545 * 345)%nat ->
  toy_predictions !! k = Some [[[Z.of_nat k; - Z.of_nat k]]].
Proof.
  intros Hk. unfold toy_predictions.
  rewrite map_fmap, list_lookup_fmap, lookup_seq_lt by exact Hk. reflexivity.
Qed.

Lemma toy_predictions_points (sample : list (list (list Z))) :
  sample ∈ toy_predictions -> is_Some (point sample 0) /\ is_Some (point sample 1).
Proof.
  unfold toy_predictions. rewrite map_fmap. intros Hin.
  apply list_elem_of_fmap in Hin. destruct Hin as (k & -> & _).
  split; eexists; reflexivity.
Qed.

Lemma length_toy_predictions : length toy_predictions = (545 * 345)%nat.
Proof. unfold toy_predictions. rewrite length_map, length_seq. reflexivity. Qed.

Section Reassembly.
Context {A B : Type}.
Implicit Types (ds : Dataset A) (predict_target : list (list (list (list B)))).

(** C8: on a grid whose anchor windows hold no not-a-number, the batch has
    one sample per anchor pair, row by row; with one prediction per sample,
    [predict_target[:,0,0,c]] reshaped to (number of row anchors, number of
    column anchors) holds at row [i], column [j] the prediction of the sample
    whose window ends at the [i]-th row anchor and the [j]-th column anchor.
    In the notebook's configuration (the crop of [select_from], window (5,5),
    one kernel of 5, so halo 2 and stride 1) the anchors are [5 + i] and
    [5 + j], there are 545 and 345 of them, and [U_pred] and [V_pred], which
    reshape to the literals (545, 345), are these two arrays. *)
Theorem reshape_places_predictions ds (nlats nlons halo : Z)
    (nlat_range nlon_range : list Z) predict_target :
  0 < nlats -> 0 < nlons -> 2 * halo < nlats -> 2 * halo < nlons ->
  anchor_range nlats (Z.of_nat (latlen ds)) halo = Ok nlat_range ->
  anchor_range nlons (Z.of_nat (lonlen ds)) halo = Ok nlon_range ->
  (forall r c, r ∈ nlat_range -> c ∈ nlon_range -> patch_defined ds nlats nlons r c) ->
  length predict_target = (length nlat_range * length nlon_range)%nat ->
  (forall sample, sample ∈ predict_target ->
     is_Some (point sample 0) /\ is_Some (point sample 1)) ->
  exists batch u v mu mv,
    batch_cell ds nlats nlons halo = Ok batch /\
    input_batch batch = length predict_target /\
    select_point predict_target 0 = Ok u /\
    select_point predict_target 1 = Ok v /\
    reshape u (length nlat_range) (length nlon_range) = Ok mu /\
    reshape v (length nlat_range) (length nlon_range) = Ok mv /\
    (forall i j r c,
       nlat_range !! i = Some r -> nlon_range !! j = Some c ->
       exists sample pu pv,
         predict_target !! (i * length nlon_range + j)%nat = Some sample /\
         point sample 0 = Some pu /\ point sample 1 = Some pv /\
         mu !! i ≫= (.!! j) = Some pu /\
         mv !! i ≫= (.!! j) = Some pv /\
         forall x g, data_vars ds !! x = Some g ->
           exists ws,
             s_vars batch !! x = Some ws /\
             ws !! (i * length nlon_range + j)%nat
             = Some (window_at nlats nlons g r c)) /\
    (forall ds0,
       select_from ds0 = Ok ds ->
       nlats = Notebook.nlats -> nlons = Notebook.nlons ->
       halo_size conv_kernels = Ok halo ->
       halo = 2 /\ stride nlats halo = 1 /\ stride nlons halo = 1 /\
       length nlat_range = 545%nat /\ length nlon_range = 345%nat /\
       (forall i r, nlat_range !! i = Some r -> r = 5 + Z.of_nat i) /\
       (forall j c, nlon_range !! j = Some c -> c = 5 + Z.of_nat j) /\
       U_pred predict_target = Ok mu /\ V_pred predict_target = Ok mv).
Proof.
  intros Hn1 Hn2 Hh1 Hh2 Hlat Hlon Hdef Hlen Hpts.
  set (pairs := anchor_pairs nlat_range nlon_range).
  assert (batch_cell ds nlats nlons halo = Ok (patches_of ds nlats nlons pairs)) as Hcell.
  { apply batch_cell_ok. exists nlat_range, nlon_range.
    split; [exact Hlat|]. split; [exact Hlon|]. split; [exact Hn1|]. split; [exact Hn2|].
    split; [exact (anchors_in_bounds _ _ _ _ Hh1 Hlat)|].
    split; [exact (anchors_in_bounds _ _ _ _ Hh2 Hlon)|].
    fold pairs. rewrite BatchMore.dropna_keep_all; [reflexivity|].
    intros [r c] Hrc. apply elem_of_anchor_pairs in Hrc. apply Hdef; tauto. }
  destruct (select_point_lookup predict_target 0) as (u & Hu & Hulen & Hulook);
    [intros sample Hin; exact (proj1 (Hpts sample Hin))|].
  destruct (select_point_lookup predict_target 1) as (v & Hv & Hvlen & Hvlook);
    [intros sample Hin; exact (proj2 (Hpts sample Hin))|].
  change (Z.of_nat 0) with 0 in Hu. change (Z.of_nat 1) with 1 in Hv.
  assert (exists mu, reshape u (length nlat_range) (length nlon_range) = Ok mu)
    as (mu & Hmu).
  { unfold reshape. rewrite Hulen, Hlen, Nat.eqb_refl. eauto. }
  assert (exists mv, reshape v (length nlat_range) (length nlon_range) = Ok mv)
    as (mv & Hmv).
  { unfold reshape. rewrite Hvlen, Hlen, Nat.eqb_refl. eauto. }
  exists (patches_of ds nlats nlons pairs), u, v, mu, mv.
  split; [exact Hcell|].
  split; [cbn [input_batch patches_of]; unfold pairs;
          rewrite length_anchor_pairs; symmetry; exact Hlen|].
  split; [exact Hu|]. split; [exact Hv|]. split; [exact Hmu|]. split; [exact Hmv|].
  split.
  - intros i j r c Hr Hc.
    pose proof (lookup_lt_Some _ _ _ Hr) as Hi.
    pose proof (lookup_lt_Some _ _ _ Hc) as Hj.
    set (k := (i * length nlon_range + j)%nat).
    assert (k < length predict_target)%nat as Hk by (rewrite Hlen; unfold k; nia).
    destruct (lookup_lt_is_Some_2 predict_target k Hk) as [sample Hsample].
    assert (sample ∈ predict_target) as Hin by (eapply list_elem_of_lookup_2, Hsample).
    destruct (Hpts sample Hin) as [[pu Hpu] [pv Hpv]].
    exists sample, pu, pv.
    split; [exact Hsample|]. split; [exact Hpu|]. split; [exact Hpv|].
    destruct (reshape_lookup u _ _ mu i j Hmu Hi Hj) as (rowu & Hrowu & Hcellu & _).
    destruct (reshape_lookup v _ _ mv i j Hmv Hi Hj) as (rowv & Hrowv & Hcellv & _).
    split; [rewrite Hrowu; cbn [mbind option_bind]; rewrite Hcellu; fold k;
            rewrite (Hulook k sample Hsample); exact Hpu|].
    split; [rewrite Hrowv; cbn [mbind option_bind]; rewrite Hcellv; fold k;
            rewrite (Hvlook k sample Hsample); exact Hpv|].
    intros x g Hg. rewrite patches_of_lookup, Hg. cbn [fmap option_fmap option_map].
    eexists. split; [reflexivity|].
    rewrite map_fmap, list_lookup_fmap. unfold pairs, k.
    rewrite (anchor_pairs_lookup nlat_range nlon_range i j r c Hr Hc). reflexivity.
  - intros ds0 Hsel -> -> Hhalo.
    destruct (select_from_dims ds0 ds Hsel) as [Hlatlen Hlonlen].
    rewrite Hlatlen in Hlat. rewrite Hlonlen in Hlon.
    assert (halo = 2) as -> by (vm_compute in Hhalo; congruence).
    assert (stride Notebook.nlats 2 = 1) as Hs1 by reflexivity.
    assert (stride Notebook.nlons 2 = 1) as Hs2 by reflexivity.
    destruct (anchors_unit_stride _ _ _ _ Hs1 Hlat) as [Hl1 Hat1].
    destruct (anchors_unit_stride _ _ _ _ Hs2 Hlon) as [Hl2 Hat2].
    change (Z.to_nat (Z.of_nat 550 - Notebook.nlats)) with 545%nat in Hl1.
    change (Z.to_nat (Z.of_nat 350 - Notebook.nlons)) with 345%nat in Hl2.
    split; [reflexivity|]. split; [exact Hs1|]. split; [exact Hs2|].
    split; [exact Hl1|]. split; [exact Hl2|].
    split; [exact Hat1|]. split; [exact Hat2|].
    unfold U_pred, V_pred. rewrite Hu, Hv. cbn [bind].
    rewrite <- Hl1, <- Hl2. split; assumption.
Qed.

End Reassembly.

Lemma reshape_places_predictions_witness :
  exists ds nlat_range nlon_range,
    select_from globe = Ok ds /\
    halo_size conv_kernels = Ok 2 /\
    (0 < nlats /\ 0 < nlons /\ 2 * 2 < nlats /\ 2 * 2 < nlons) /\
    anchor_range nlats (Z.of_nat (latlen ds)) 2 = Ok nlat_range /\
    anchor_range nlons (Z.of_nat (lonlen ds)) 2 = Ok nlon_range /\
    (forall r c, r ∈ nlat_range -> c ∈ nlon_range -> patch_defined ds nlats nlons r c) /\
    length toy_predictions = (length nlat_range * length nlon_range)%nat /\
    (forall sample, sample ∈ toy_predictions ->
       is_Some (point sample 0) /\ is_Some (point sample 1)) /\
    exists batch mu mv,
      batch_cell ds nlats nlons 2 = Ok batch /\
      input_batch batch = length toy_predictions /\
      U_pred toy_predictions = Ok mu /\ V_pred toy_predictions = Ok mv /\
      nlat_range !! 1%nat = Some 6 /\ nlon_range !! 2%nat = Some 7 /\
      toy_predictions !! 347%nat = Some [[[347; -347]]] /\
      mu !! 1%nat ≫= (.!! 2%nat) = Some 347 /\
      mv !! 1%nat ≫= (.!! 2%nat) = Some (-347) /\
      exists g ws,
        data_vars ds !! "U"%string = Some g /\
        s_vars batch !! "U"%string = Some ws /\
        ws !! 347%nat = Some (window_at nlats nlons g 6 7) /\
        cell_at g 6 7 = Some (3600 * 506 + 1857).
Proof.
  destruct (select_from_ok globe) as [ds Hsel];
    [apply Nat.leb_le; reflexivity | apply Nat.leb_le; reflexivity |].
  destruct (select_from_dims globe ds Hsel) as [Hlatlen Hlonlen].
  assert (stride nlats 2 = 1) as Hs1 by reflexivity.
  assert (stride nlons 2 = 1) as Hs2 by reflexivity.
  destruct (anchor_range_fits nlats (Z.of_nat (latlen ds)) 2)
    as (lat & Hlat & Hlatb & _); [discriminate | rewrite Hlatlen; discriminate |].
  destruct (anchor_range_fits nlons (Z.of_nat (lonlen ds)) 2)
    as (lon & Hlon & Hlonb & _); [discriminate | rewrite Hlonlen; discriminate |].
  destruct (anchors_unit_stride _ _ _ _ Hs1 Hlat) as [Hl1 Hat1].
  destruct (anchors_unit_stride _ _ _ _ Hs2 Hlon) as [Hl2 Hat2].
  rewrite Hlatlen in Hl1, Hlatb. rewrite Hlonlen in Hl2, Hlonb.
  change (Z.to_nat (Z.of_nat 550 - nlats)) with 545%nat in Hl1.
  change (Z.to_nat (Z.of_nat 350 - nlons)) with 345%nat in Hl2.
  change (Z.of_nat 550) with 550 in Hlatb. change (Z.of_nat 350) with 350 in Hlonb.
  change nlats with 5 in Hlatb. change nlons with 5 in Hlonb.
  assert (exists g, data_vars ds !! "U"%string = Some g /\
                    forall i j, 0 <= i < 550 -> 0 <= j < 350 ->
                      cell_at g i j = Some (3600 * (500 + i) + (1850 + j)))
    as (gU & HgU & HgUcells).
  { pose proof (select_from_lookup globe ds "U"%string Hsel) as Hlook.
    unfold globe in Hlook. cbn [data_vars] in Hlook.
    rewrite lookup_singleton_eq in Hlook.
    destruct (data_vars ds !! "U"%string) as [g|]; [|destruct Hlook].
    exists g. split; [reflexivity|]. intros i j Hi Hj.
    rewrite (Hlook i j Hi Hj). rewrite cell_at_grid_of by lia. reflexivity. }
  assert (forall r c, r ∈ lat -> c ∈ lon -> patch_defined ds nlats nlons r c) as Hdef.
  { intros r c Hr Hc v g Hg y x Hy Hx.
    rewrite Forall_forall in Hlatb, Hlonb.
    specialize (Hlatb r Hr). specialize (Hlonb c Hc).
    change nlats with 5 in Hy. change nlons with 5 in Hx.
    pose proof (select_from_lookup globe ds v Hsel) as Hlook.
    rewrite Hg in Hlook. unfold globe in Hlook. cbn [data_vars] in Hlook.
    destruct (decide (v = "U"%string)) as [->|Hne].
    - rewrite lookup_singleton_eq in Hlook.
      rewrite (Hlook y x) by lia. rewrite cell_at_grid_of by lia. discriminate.
    - rewrite lookup_singleton_ne in Hlook by congruence. destruct Hlook. }
  assert (length toy_predictions = (length lat * length lon)%nat) as Hlen
    by (rewrite length_toy_predictions, Hl1, Hl2; reflexivity).
  exists ds, lat, lon.
  split; [exact Hsel|]. split; [reflexivity|].
  split; [repeat split; reflexivity|].
  split; [exact Hlat|]. split; [exact Hlon|]. split; [exact Hdef|].
  split; [exact Hlen|]. split; [exact toy_predictions_points|].
  destruct (reshape_places_predictions ds nlats nlons 2 lat lon toy_predictions
              eq_refl eq_refl eq_refl eq_refl Hlat Hlon Hdef Hlen toy_predictions_points)
    as (batch & u & v & mu & mv & Hcell & Hib & _ & _ & _ & _ & Hplace & Hnb).
  destruct (Hnb globe Hsel eq_refl eq_refl eq_refl)
    as (_ & _ & _ & _ & _ & _ & _ & HU & HV).
  assert (lat !! 1%nat = Some 6) as Hr.
  { destruct (lookup_lt_is_Some_2 lat 1) as [r Hr]; [rewrite Hl1; lia|].
    rewrite Hr. f_equal. exact (Hat1 1%nat r Hr). }
  assert (lon !! 2%nat = Some 7) as Hc.
  { destruct (lookup_lt_is_Some_2 lon 2) as [c Hc]; [rewrite Hl2; lia|].
    rewrite Hc. f_equal. exact (Hat2 2%nat c Hc). }
  assert (toy_predictions !! 347%nat = Some [[[347; -347]]]) as Hk
    by (apply toy_predictions_lookup, Nat.ltb_lt; vm_compute; reflexivity).
  destruct (Hplace 1%nat 2%nat 6 7 Hr Hc)
    as (sample & pu & pv & Hsample & Hpu & Hpv & Hmu & Hmv & Hwin).
  rewrite Hl2 in Hsample, Hwin.
  change (1 * 345 + 2)%nat with 347%nat in Hsample, Hwin.
  rewrite Hk in Hsample. injection Hsample as <-.
  injection Hpu as <-. injection Hpv as <-.
  destruct (Hwin "U"%string gU HgU) as (ws & Hws & Hw).
  exists batch, mu, mv.
  split; [exact Hcell|]. split; [exact Hib|]. split; [exact HU|]. split; [exact HV|].
  split; [exact Hr|]. split; [exact Hc|]. split; [exact Hk|].
  split; [exact Hmu|]. split; [exact Hmv|].
  exists gU, ws. split; [exact HgU|]. split; [exact Hws|]. split; [exact Hw|].
  rewrite HgUcells by lia. reflexivity.
Defined.

End ReassemblyFacts.
